(** * OpenOneHTML: the catalog, its statistics and its search, verified

    A shallow embedding of the catalog code of the repository:
    - the Express server of the cursor-sonic variant (routes on
      [/api/files], [/api/tags], [/api/models], [/api/categories], with
      [loadData], [saveData] and [updateStats]);
    - the browser [DataManager] of the static pages, which keeps the same
      document in memory and in [localStorage];
    - the management dialogs of [components.js] ([deleteTag], [deleteModel],
      [updateTag]);
    - the [DatabaseManager] of the trae-trash variant ([addHTMLFile],
      [editTag], [updateStatistics], [saveData]) and the tag request handler
      of its server ([handleEditTagRequest]);
    - further operations of the same objects ([updateFile], [batchUpload],
      [deleteHTMLFile], [searchHTMLFiles], [getAllTags], [getAllModels]), the
      filter of the file list ([applyFilters]), and the [PresetManager] of
      the trae-trash pages with the [editTag] of their [DataManager].

    Conventions of the embedding.  A JavaScript string is a [string]; a
    character is a code unit below 256.  The one string of the code with
    characters beyond, the fallback category of the trae-trash variant, is a
    parameter of the definitions that use it.  A missing string field and the
    empty string are both falsy in every place the code reads one, so both
    are the empty string here.  A count is a natural number held in a
    double: adding one is exact below 2^53 and rounded from there on
    ([JS.increment]).  An object used as a table of counters is a map from
    property names to counts or texts, with the names that every object
    inherits treated as JavaScript treats them ([Trae.bump]).  A time stamp ([Date.now()], [new Date().toISOString()])
    is the clock reading in milliseconds; an operation reads the clock once
    and the reading is passed in by the caller.  Random identifiers
    ([crypto.randomBytes], the hashed file name) are passed in by the caller
    as well.  Storage is a value with a flag that says whether the next write
    succeeds. *)

From Stdlib Require Import ZArith Ascii String List Bool Lia.
From stdpp Require Import base decidable option list strings pretty gmap sorting.

Local Open Scope string_scope.
Local Open Scope list_scope.

(** ** JavaScript strings *)

Module JS.

(** [WhiteSpace] and [LineTerminator] code units below 256: what [\s] and
    [String.prototype.trim] recognise. *)
Definition isSpace (c : ascii) : bool :=
  let n := nat_of_ascii c in
  (((9 <=? n) && (n <=? 13)) || (n =? 32) || (n =? 160))%nat.

(** [LineTerminator]: the characters a regular expression [.] refuses. *)
Definition isLineTerminator (c : ascii) : bool :=
  let n := nat_of_ascii c in ((n =? 10) || (n =? 13))%nat.

(** Letters with a lower-case partner: A-Z and the Latin-1 capitals
    (U+00C0..U+00DE without the multiplication sign). *)
Definition isUpper (c : ascii) : bool :=
  let n := nat_of_ascii c in
  (((65 <=? n) && (n <=? 90)) ||
   ((192 <=? n) && (n <=? 222) && negb (n =? 215)))%nat.

Definition isLower (c : ascii) : bool :=
  let n := nat_of_ascii c in
  (((97 <=? n) && (n <=? 122)) ||
   ((224 <=? n) && (n <=? 254) && negb (n =? 247)))%nat.

Definition lowerChar (c : ascii) : ascii :=
  if isUpper c then ascii_of_nat (nat_of_ascii c + 32) else c.

Definition upperChar (c : ascii) : ascii :=
  if isLower c then ascii_of_nat (nat_of_ascii c - 32) else c.

(** [s.toLowerCase()] *)
Fixpoint toLowerCase (s : string) : string :=
  match s with
  | EmptyString => EmptyString
  | String c s' => String (lowerChar c) (toLowerCase s')
  end.

Fixpoint trimStart (s : string) : string :=
  match s with
  | EmptyString => EmptyString
  | String c s' => if isSpace c then trimStart s' else s
  end.

(** One pass from the right: a white-space character is dropped when
    everything after it has been dropped. *)
Fixpoint trimEnd (s : string) : string :=
  match s with
  | EmptyString => EmptyString
  | String c s' =>
      match trimEnd s' with
      | EmptyString => if isSpace c then EmptyString else String c EmptyString
      | t => String c t
      end
  end.

(** [s.trim()] *)
Definition trim (s : string) : string := trimEnd (trimStart s).

(** [s.split(/\s+/)]: the pieces between the maximal runs of white space;
    [cur] is the piece being read, [inRun] says that the previous character
    was white space. *)
Fixpoint splitWsFrom (cur : string) (inRun : bool) (s : string) : list string :=
  match s with
  | EmptyString => [cur]
  | String c s' =>
      if isSpace c
      then if inRun then splitWsFrom cur true s'
           else cur :: splitWsFrom EmptyString true s'
      else splitWsFrom (cur +:+ String c EmptyString) false s'
  end.

Definition splitWs (s : string) : list string := splitWsFrom EmptyString false s.

(** [s.replace(/c/g, by)] for a one-character pattern [c]. *)
Fixpoint replaceAll (c : ascii) (by_ : string) (s : string) : string :=
  match s with
  | EmptyString => EmptyString
  | String d s' =>
      if Ascii.eqb d c then by_ +:+ replaceAll c by_ s'
      else String d (replaceAll c by_ s')
  end.

(** [parts.join(sep)] *)
Fixpoint join (sep : string) (parts : list string) : string :=
  match parts with
  | [] => EmptyString
  | [p] => p
  | p :: rest => p +:+ sep +:+ join sep rest
  end.

(** [arr.includes(x)] on an array of strings. *)
Definition includes (arr : list string) (x : string) : bool :=
  existsb (String.eqb x) arr.

(** [arr.findIndex(p)]: [None] stands for [-1]. *)
Fixpoint findIndex {A} (p : A -> bool) (arr : list A) : option nat :=
  match arr with
  | [] => None
  | x :: rest => if p x then Some 0 else S <$> findIndex p rest
  end.

(** [arr.splice(i, 1)]: the array without its element at [i]. *)
Fixpoint removeAt {A} (i : nat) (arr : list A) : list A :=
  match arr, i with
  | [], _ => []
  | _ :: rest, 0 => rest
  | x :: rest, S j => x :: removeAt j rest
  end.

(** A string is truthy when it is not empty. *)
Definition truthy (s : string) : bool := negb (String.eqb s "").

(** [n + 1] on a number that holds a natural number.  A number is a double:
    below 2^53 the sum is exact; from there to 2^54 only the even numbers
    exist and the sum, half way between two of them, goes to the one whose
    half is even; beyond, the sum is nearer to [n] than to any other
    number. *)
Definition increment (n : nat) : nat :=
  let z := Z.of_nat n in
  if (z <? 2 ^ 53)%Z then (n + 1)%nat
  else if (z <? 2 ^ 54)%Z then (if Z.even (z / 2) then n else (n + 2)%nat)
  else n.

(** [s.startsWith(p)] *)
Fixpoint startsWith (s p : string) : bool :=
  match p, s with
  | EmptyString, _ => true
  | String _ _, EmptyString => false
  | String c p', String d s' => Ascii.eqb c d && startsWith s' p'
  end.

(** [s.includes(sub)] on strings: [sub] starts somewhere in [s]. *)
Fixpoint strIncludes (s sub : string) : bool :=
  startsWith s sub ||
  match s with
  | EmptyString => false
  | String _ s' => strIncludes s' sub
  end.

(** [Array.from(new Set(arr))]: the elements in the order of their first
    occurrence. *)
Definition setOf (arr : list string) : list string :=
  foldl (fun acc x => if includes acc x then acc else acc ++ [x]) [] arr.

(** [arr.sort()] on strings: ascending by code units. *)
Definition sort (arr : list string) : list string := merge_sort String.le arr.

End JS.

(** ** The part of [RegExp] that the search needs *)

Module RegExp.

(** The model covers patterns made of ordinary characters, [.], and the
    quantifiers [*] and [+].  A pattern that uses anything else of the
    regular-expression syntax (escapes, groups, classes, braces,
    alternation, anchors, [?]) is reported as [Unmodelled]; a quantifier
    with nothing to repeat is the [SyntaxError] that [new RegExp] throws. *)

Inductive atom := Lit (c : ascii) | AnyChar.
Inductive quant := Once | Star | Plus.

Definition regex := list (atom * quant).

Inductive compiled :=
  | Pattern (r : regex)
  | SyntaxError
  | Unmodelled.

Definition isSyntaxChar (c : ascii) : bool :=
  existsb (Ascii.eqb c)
    ["\"%char; "("%char; ")"%char; "["%char; "]"%char; "{"%char; "}"%char;
     "|"%char; "^"%char; "$"%char; "?"%char].

(** [acc] holds the terms read so far, last one first. *)
Fixpoint parse (acc : regex) (src : string) : compiled :=
  match src with
  | EmptyString => Pattern (rev acc)
  | String c rest =>
      if Ascii.eqb c "*" then
        match acc with
        | (a, Once) :: acc' => parse ((a, Star) :: acc') rest
        | _ => SyntaxError
        end
      else if Ascii.eqb c "+" then
        match acc with
        | (a, Once) :: acc' => parse ((a, Plus) :: acc') rest
        | _ => SyntaxError
        end
      else if Ascii.eqb c "." then parse ((AnyChar, Once) :: acc) rest
      else if isSyntaxChar c then Unmodelled
      else parse ((Lit c, Once) :: acc) rest
  end.

(** [new RegExp(src, flags)] *)
Definition compile (src : string) : compiled := parse [] src.

(** [Canonicalize] of the [i] flag: the upper-case partner when it is a
    single code unit.  The partners of U+00B5 and U+00FF lie above 255 and
    no other character below 256 shares them, so they stand for
    themselves. *)
Definition canonicalize (ignoreCase : bool) (c : ascii) : ascii :=
  if ignoreCase then JS.upperChar c else c.

Definition atomMatches (ignoreCase : bool) (a : atom) (c : ascii) : bool :=
  match a with
  | Lit d => Ascii.eqb (canonicalize ignoreCase d) (canonicalize ignoreCase c)
  | AnyChar => negb (JS.isLineTerminator c)
  end.

(** Does the pattern match a prefix of [s]?  [starFrom k] tries the
    continuation [k] after zero, one, two, ... repetitions of [a]. *)
Fixpoint starFrom (i : bool) (a : atom) (k : string -> bool) (s : string) : bool :=
  k s ||
  match s with
  | EmptyString => false
  | String c s' => atomMatches i a c && starFrom i a k s'
  end.

Fixpoint matchHere (i : bool) (r : regex) (s : string) : bool :=
  match r with
  | [] => true
  | (a, Once) :: r' =>
      match s with
      | EmptyString => false
      | String c s' => atomMatches i a c && matchHere i r' s'
      end
  | (a, Star) :: r' => starFrom i a (matchHere i r') s
  | (a, Plus) :: r' =>
      match s with
      | EmptyString => false
      | String c s' => atomMatches i a c && starFrom i a (matchHere i r') s'
      end
  end.

(** [regex.test(s)] without anchors: a match may start anywhere. *)
Fixpoint test (i : bool) (r : regex) (s : string) : bool :=
  matchHere i r s ||
  match s with
  | EmptyString => false
  | String _ s' => test i r s'
  end.

End RegExp.

(** ** The catalog document of the cursor-sonic variant *)

Module File.
Record t := mk {
  id : string;
  originalName : string;
  encryptedName : string;
  fileSize : nat;
  uploadTime : Z;
  accessCount : nat;
  title : string;
  description : string;
  category : string;
  background : string;
  prompt : string;
  model : string;
  tags : list string;
  status : string;
  lastAccess : option Z
}.

(** [f.status !== 'deleted'] *)
Definition active (f : t) : bool := negb (String.eqb (status f) "deleted").

Definition setStatus (s : string) (f : t) : t :=
  mk (id f) (originalName f) (encryptedName f) (fileSize f) (uploadTime f)
     (accessCount f) (title f) (description f) (category f) (background f)
     (prompt f) (model f) (tags f) s (lastAccess f).

(** [file.lastAccess = now; file.accessCount = (file.accessCount || 0) + 1] *)
Definition touch (now : Z) (f : t) : t :=
  mk (id f) (originalName f) (encryptedName f) (fileSize f) (uploadTime f)
     (JS.increment (accessCount f)) (title f) (description f) (category f)
     (background f) (prompt f) (model f) (tags f) (status f) (Some now).
End File.

Module Tag.
Record t := mk {
  id : string;
  name : string;
  color : string;
  description : string;
  createTime : Z;
  usageCount : nat
}.
End Tag.

Module Model.
Record t := mk {
  id : string;
  name : string;
  description : string;
  createTime : Z;
  usageCount : nat;
  updateTime : option Z
}.
End Model.

Module Category.
Record t := mk {
  id : string;
  name : string;
  description : string;
  createTime : Z;
  usageCount : nat;
  updateTime : option Z
}.
End Category.

Module Settings.
Record t := mk {
  totalFiles : nat;
  totalTags : nat;
  totalModels : nat;
  totalCategories : nat
}.
End Settings.

(** The JSON document [database/data.json].  The three preset collections
    may be missing from the document ([undefined]), which is [None]. *)
Record Data := mkData {
  version : string;
  files : list File.t;
  preset_tags : option (list Tag.t);
  preset_models : option (list Model.t);
  categories : option (list Category.t);
  settings : Settings.t;
  lastUpdate : option Z
}.

Definition withFiles (fs : list File.t) (d : Data) : Data :=
  mkData (version d) fs (preset_tags d) (preset_models d) (categories d)
         (settings d) (lastUpdate d).

Definition withTags (ts : list Tag.t) (d : Data) : Data :=
  mkData (version d) (files d) (Some ts) (preset_models d) (categories d)
         (settings d) (lastUpdate d).

Definition withModels (ms : list Model.t) (d : Data) : Data :=
  mkData (version d) (files d) (preset_tags d) (Some ms) (categories d)
         (settings d) (lastUpdate d).

Definition withCategories (cs : list Category.t) (d : Data) : Data :=
  mkData (version d) (files d) (preset_tags d) (preset_models d) (Some cs)
         (settings d) (lastUpdate d).

(** *** [updateStats] *)

(** The [Set] filled by [files.forEach(file => { if (file.category)
    categories.add(file.category) })]. *)
Definition categorySet (fs : list File.t) : gset string :=
  foldl (fun acc f =>
           if JS.truthy (File.category f) then acc ∪ {[ File.category f ]}
           else acc) ∅ fs.

Definition updateStats (now : Z) (d : Data) : Data :=
  let fs := files d in
  let tags := default [] (preset_tags d) in
  let models := default [] (preset_models d) in
  mkData (version d) (files d) (preset_tags d) (preset_models d) (categories d)
    (Settings.mk (length (List.filter File.active fs))
                 (length tags)
                 (length models)
                 (size (categorySet fs)))
    (Some now).

(** *** The file query of [GET /api/files] and [DataManager.getFiles] *)

(** What evaluating a piece of the code gives: a value, an exception, or a
    regular expression outside the modelled part of [RegExp]. *)
Inductive outcome (A : Type) :=
  | Value (a : A)
  | Throws
  | Beyond.
Arguments Value {A} a.
Arguments Throws {A}.
Arguments Beyond {A}.

Definition bindO {A B} (x : outcome A) (k : A -> outcome B) : outcome B :=
  match x with
  | Value a => k a
  | Throws => Throws
  | Beyond => Beyond
  end.

(** [arr.every(p)] and [arr.filter(p)] for a callback that may throw: the
    callback runs on the elements in order and [every] stops at the first
    [false]. *)
Fixpoint everyO {A} (p : A -> outcome bool) (arr : list A) : outcome bool :=
  match arr with
  | [] => Value true
  | x :: rest => bindO (p x) (fun b => if b then everyO p rest else Value false)
  end.

Fixpoint filterO {A} (p : A -> outcome bool) (arr : list A) : outcome (list A) :=
  match arr with
  | [] => Value []
  | x :: rest =>
      bindO (p x) (fun b =>
      bindO (filterO p rest) (fun l => Value (if b then x :: l else l)))
  end.

Record Filters := mkFilters {
  search : string;
  q_category : string;
  q_tags : option (list string);
  q_model : string
}.

(** [searchTerm.toLowerCase().split(/\s+/).filter(k => k.length > 0)] *)
Definition keywordsOf (searchTerm : string) : list string :=
  List.filter (fun k => negb (String.eqb k ""))
    (JS.splitWs (JS.toLowerCase searchTerm)).

(** [[f.title || '', ..., f.category || ''].join(' ').toLowerCase()] *)
Definition searchText (f : File.t) : string :=
  JS.toLowerCase
    (JS.join " " [File.title f; File.description f; File.originalName f;
                  File.background f; File.prompt f; File.category f]).

(** [keyword.replace(/\*/g, '.*').replace(/\?/g, '.')] *)
Definition wildcardSource (keyword : string) : string :=
  JS.replaceAll "?" "." (JS.replaceAll "*" ".*" keyword).

(** The callback of [keywords.every]: build the expression, test the text. *)
Definition keywordTest (text keyword : string) : outcome bool :=
  match RegExp.compile (wildcardSource keyword) with
  | RegExp.Pattern r => Value (RegExp.test true r text)
  | RegExp.SyntaxError => Throws
  | RegExp.Unmodelled => Beyond
  end.

Definition textFilter (searchQ : string) (fs : list File.t) : outcome (list File.t) :=
  if JS.truthy searchQ then
    let searchTerm := JS.trim searchQ in
    if JS.truthy searchTerm then
      let keywords := keywordsOf searchTerm in
      filterO (fun f => everyO (keywordTest (searchText f)) keywords) fs
    else Value fs
  else Value fs.

Definition categoryFilter (c : string) (fs : list File.t) : list File.t :=
  if JS.truthy c then List.filter (fun f => String.eqb (File.category f) c) fs
  else fs.

Definition tagsFilter (ts : option (list string)) (fs : list File.t) : list File.t :=
  match ts with
  | Some tagList =>
      List.filter (fun f => existsb (fun tag => JS.includes (File.tags f) tag) tagList) fs
  | None => fs
  end.

Definition modelFilter (m : string) (fs : list File.t) : list File.t :=
  if JS.truthy m then List.filter (fun f => String.eqb (File.model f) m) fs
  else fs.

(** The body shared by the route and by [DataManager.getFiles]. *)
Definition queryFiles (d : Data) (q : Filters) : outcome (list File.t) :=
  bindO (textFilter (search q) (List.filter File.active (files d))) (fun fs =>
  Value (modelFilter (q_model q) (tagsFilter (q_tags q) (categoryFilter (q_category q) fs)))).

Definition noFilters : Filters := mkFilters "" "" None "".
Definition textOnly (s : string) : Filters := mkFilters s "" None "".

(** [files.find(f => f.id === id && f.status !== 'deleted')] *)
Definition findActive (ident : string) (fs : list File.t) : option File.t :=
  List.find (fun f => String.eqb (File.id f) ident && File.active f) fs.

(** [arr.findIndex(p)] together with the element found. *)
Fixpoint findIndexed {A} (p : A -> bool) (arr : list A) : option (nat * A) :=
  match arr with
  | [] => None
  | x :: rest =>
      if p x then Some (0, x)
      else match findIndexed p rest with
           | Some (i, y) => Some (S i, y)
           | None => None
           end
  end.

(** The failures the code reports, by what they say. *)
Inductive error :=
  | WrongPassword
  | FileNotFound
  | TagNotFound
  | ModelNotFound
  | CategoryNotFound
  | EmptyName
  | NoFileUploaded
  | TagInUse (count : nat)
  | ModelInUse (count : nat)
  | CategoryInUse (count : nat)
  | SaveFailed
  | NoFileList.

(** [x || fallback] on strings. *)
Definition orElse (x fallback : string) : string :=
  if JS.truthy x then x else fallback.

(** The request body of the three create routes and of the two rename
    routes. *)
Record PresetReq := mkPresetReq {
  r_name : string;
  r_color : string;
  r_description : string
}.

(** The preset objects the create operations build; the identifier is the
    kind prefix followed by [Date.now()]. *)
Definition newTag (now : Z) (r : PresetReq) : Tag.t :=
  Tag.mk ("tag_" +:+ pretty now) (r_name r) (orElse (r_color r) "#3498db")
         (r_description r) now 0.

Definition newModel (now : Z) (r : PresetReq) : Model.t :=
  Model.mk ("model_" +:+ pretty now) (r_name r) (r_description r) now 0 None.

Definition newCategory (now : Z) (r : PresetReq) : Category.t :=
  Category.mk ("category_" +:+ pretty now) (r_name r) (r_description r) now 0 None.

(** [{...old, name, description: description || '', updateTime: now}] *)
Definition renameModel (now : Z) (r : PresetReq) (m : Model.t) : Model.t :=
  Model.mk (Model.id m) (r_name r) (r_description r) (Model.createTime m)
           (Model.usageCount m) (Some now).

Definition renameCategory (now : Z) (r : PresetReq) (c : Category.t) : Category.t :=
  Category.mk (Category.id c) (r_name r) (r_description r) (Category.createTime c)
              (Category.usageCount c) (Some now).

(** [files.filter(file => file.category === name)] of the category guard. *)
Definition filesUsingCategory (name : string) (fs : list File.t) : list File.t :=
  List.filter (fun f => String.eqb (File.category f) name) fs.

(** The body of an update request: the fields it carries.  A field the
    body does not carry is [None]. *)
Module Patch.
Record t := mk {
  id : option string;
  originalName : option string;
  encryptedName : option string;
  fileSize : option nat;
  uploadTime : option Z;
  accessCount : option nat;
  title : option string;
  description : option string;
  category : option string;
  background : option string;
  prompt : option string;
  model : option string;
  tags : option (list string);
  status : option string;
  lastAccess : option Z
}.

(** [{ ...file, ...updateData }] *)
Definition apply (p : t) (f : File.t) : File.t :=
  File.mk (default (File.id f) (id p))
          (default (File.originalName f) (originalName p))
          (default (File.encryptedName f) (encryptedName p))
          (default (File.fileSize f) (fileSize p))
          (default (File.uploadTime f) (uploadTime p))
          (default (File.accessCount f) (accessCount p))
          (default (File.title f) (title p))
          (default (File.description f) (description p))
          (default (File.category f) (category p))
          (default (File.background f) (background p))
          (default (File.prompt f) (prompt p))
          (default (File.model f) (model p))
          (default (File.tags f) (tags p))
          (default (File.status f) (status p))
          (match lastAccess p with Some a => Some a | None => File.lastAccess f end).
End Patch.

(** The data shared by the files of a batch. *)
Record CommonData := mkCommonData {
  c_category : string;
  c_background : string;
  c_prompt : string;
  c_model : string;
  c_tags : option (list string)
}.

(** ** The Express server *)

Module Server.

(** [database/data.json] and whether it can be written. *)
Record Store := mkStore {
  content : option Data;
  writable : bool
}.

Inductive response (A : Type) :=
  | Json (body : A)
  | Fail (code : nat) (e : error).
Arguments Json {A} body.
Arguments Fail {A} code e.

Definition defaultData : Data :=
  mkData "1.0.0" [] (Some []) (Some []) None (Settings.mk 0 0 0 0) None.

Definition loadData (st : Store) : Data := default defaultData (content st).

Definition saveData (st : Store) (d : Data) : Store * bool :=
  if writable st then (mkStore (Some d) true, true) else (st, false).

Definition reply {A} (st : Store) (d : Data) (body : A) (e : error)
  : Store * response A :=
  let '(st', ok) := saveData st d in
  (st', if ok then Json body else Fail 500 e).

Record UploadReq := mkUploadReq {
  u_file : option (string * string * nat);
  u_title : string;
  u_description : string;
  u_category : string;
  u_background : string;
  u_prompt : string;
  u_model : string;
  u_tags : list string
}.

(** [POST /api/upload]; [u_file] is [req.file] as (original name, stored
    name, size), [fileId] the random identifier. *)
Definition upload (now : Z) (fileId : string) (r : UploadReq) (st : Store)
  : Store * response File.t :=
  match u_file r with
  | None => (st, Fail 400 NoFileUploaded)
  | Some (originalname, filename, size) =>
      let data := loadData st in
      let fileInfo :=
        File.mk fileId originalname filename size now 0
                (orElse (u_title r) originalname) (u_description r)
                (u_category r) (u_background r) (u_prompt r) (u_model r)
                (u_tags r) "active" None in
      let data := updateStats now (withFiles (files data ++ [fileInfo]) data) in
      reply st data fileInfo SaveFailed
  end.

(** [GET /api/files]: an exception escapes the handler. *)
Definition getFiles (q : Filters) (st : Store) : outcome (list File.t) :=
  queryFiles (loadData st) q.

(** [GET /api/files/:id]; the result of [saveData] is not looked at. *)
Definition getFile (now : Z) (ident : string) (st : Store)
  : Store * response File.t :=
  let data := loadData st in
  match findIndexed (fun f => String.eqb (File.id f) ident && File.active f)
                    (files data) with
  | None => (st, Fail 404 FileNotFound)
  | Some (i, file) =>
      let data := withFiles (alter (File.touch now) i (files data)) data in
      (fst (saveData st data), Json (File.touch now file))
  end.

(** [PUT /api/files/:id] *)
Definition updateFile (now : Z) (ident : string) (updateData : Patch.t) (st : Store)
  : Store * response File.t :=
  let data := loadData st in
  match findIndexed (fun f => String.eqb (File.id f) ident && File.active f)
                    (files data) with
  | None => (st, Fail 404 FileNotFound)
  | Some (fileIndex, file) =>
      let data :=
        withFiles (<[fileIndex := Patch.apply updateData file]> (files data)) data in
      reply st (updateStats now data) (Patch.apply updateData file) SaveFailed
  end.

(** [DELETE /api/files/:id] *)
Definition deleteFile (now : Z) (ident password : string) (st : Store)
  : Store * response unit :=
  if negb (String.eqb password "wind") then (st, Fail 403 WrongPassword)
  else
    let data := loadData st in
    match JS.findIndex (fun f => String.eqb (File.id f) ident) (files data) with
    | None => (st, Fail 404 FileNotFound)
    | Some fileIndex =>
        let data :=
          withFiles (alter (File.setStatus "deleted") fileIndex (files data)) data in
        reply st (updateStats now data) tt SaveFailed
    end.

(** [POST /api/tags] *)
Definition addTag (now : Z) (r : PresetReq) (st : Store) : Store * response Tag.t :=
  let data := loadData st in
  if negb (JS.truthy (r_name r)) then (st, Fail 400 EmptyName)
  else
    let tag := newTag now r in
    let data := withTags (default [] (preset_tags data) ++ [tag]) data in
    reply st (updateStats now data) tag SaveFailed.

(** [POST /api/models] *)
Definition addModel (now : Z) (r : PresetReq) (st : Store) : Store * response Model.t :=
  let data := loadData st in
  if negb (JS.truthy (r_name r)) then (st, Fail 400 EmptyName)
  else
    let m := newModel now r in
    let data := withModels (default [] (preset_models data) ++ [m]) data in
    reply st (updateStats now data) m SaveFailed.

(** [POST /api/categories] *)
Definition addCategory (now : Z) (r : PresetReq) (st : Store)
  : Store * response Category.t :=
  let data := loadData st in
  if negb (JS.truthy (r_name r)) then (st, Fail 400 EmptyName)
  else
    let c := newCategory now r in
    let data := withCategories (default [] (categories data) ++ [c]) data in
    reply st (updateStats now data) c SaveFailed.

(** [PUT /api/models/:id] *)
Definition updateModel (now : Z) (modelId : string) (r : PresetReq) (st : Store)
  : Store * response Model.t :=
  let data := loadData st in
  if negb (JS.truthy (r_name r)) then (st, Fail 400 EmptyName)
  else
    match preset_models data with
    | None => (st, Fail 404 ModelNotFound)
    | Some models =>
        match findIndexed (fun m => String.eqb (Model.id m) modelId) models with
        | None => (st, Fail 404 ModelNotFound)
        | Some (i, m) =>
            let data := withModels (<[i := renameModel now r m]> models) data in
            reply st data (renameModel now r m) SaveFailed
        end
    end.

(** [PUT /api/categories/:id] *)
Definition updateCategory (now : Z) (categoryId : string) (r : PresetReq) (st : Store)
  : Store * response Category.t :=
  let data := loadData st in
  if negb (JS.truthy (r_name r)) then (st, Fail 400 EmptyName)
  else
    match categories data with
    | None => (st, Fail 404 CategoryNotFound)
    | Some cs =>
        match findIndexed (fun c => String.eqb (Category.id c) categoryId) cs with
        | None => (st, Fail 404 CategoryNotFound)
        | Some (i, c) =>
            let data := withCategories (<[i := renameCategory now r c]> cs) data in
            reply st data (renameCategory now r c) SaveFailed
        end
    end.

(** [DELETE /api/categories/:id] *)
Definition deleteCategory (now : Z) (categoryId : string) (st : Store)
  : Store * response Category.t :=
  let data := loadData st in
  match categories data with
  | None => (st, Fail 404 CategoryNotFound)
  | Some cs =>
      match findIndexed (fun c => String.eqb (Category.id c) categoryId) cs with
      | None => (st, Fail 404 CategoryNotFound)
      | Some (i, c) =>
          let users := filesUsingCategory (Category.name c) (files data) in
          if (0 <? length users)%nat
          then (st, Fail 400 (CategoryInUse (length users)))
          else
            let data := withCategories (JS.removeAt i cs) data in
            reply st (updateStats now data) c SaveFailed
      end
  end.

(** The body of [POST /api/data]: the properties of the document it gives;
    one that is missing is [None]. *)
Record DataBody := mkDataBody {
  b_version : option string;
  b_files : option (list File.t);
  b_preset_tags : option (list Tag.t);
  b_preset_models : option (list Model.t);
  b_categories : option (list Category.t);
  b_settings : option Settings.t
}.

(** [POST /api/data]: [Object.assign(data, newData)], the time stamp, and a
    write whose result is not looked at.  The statistics are not
    recounted. *)
Definition postData (now : Z) (newData : DataBody) (st : Store) : Store * response unit :=
  let data := loadData st in
  let data :=
    mkData (default (version data) (b_version newData))
           (default (files data) (b_files newData))
           (match b_preset_tags newData with Some ts => Some ts | None => preset_tags data end)
           (match b_preset_models newData with
            | Some ms => Some ms
            | None => preset_models data
            end)
           (match b_categories newData with Some cs => Some cs | None => categories data end)
           (default (settings data) (b_settings newData))
           (Some now) in
  (fst (saveData st data), Json tt).

(** An entry of the list of [POST /api/batch-upload]: the name of the file,
    whether the file is there and is copied, and the random name, the random
    identifier and the size it then gets. *)
Record BatchEntry := mkBatchEntry {
  e_name : string;
  e_copied : bool;
  e_randomName : string;
  e_fileId : string;
  e_fileSize : nat
}.

Record BatchReq := mkBatchReq {
  q_files : option (list BatchEntry);
  q_background : string;
  q_prompt : string;
  q_tagList : option (list string);
  q_modelName : string
}.

Definition batchFile (now : Z) (r : BatchReq) (e : BatchEntry) : File.t :=
  File.mk (e_fileId e) (e_name e) (e_randomName e) (e_fileSize e) now 0 (e_name e) ""
          "" (q_background r) (q_prompt r) (q_modelName r) (default [] (q_tagList r))
          "active" None.

(** [POST /api/batch-upload]: a record for every entry that is copied, one
    recount and one write, whose result is not looked at; the answer lists,
    entry by entry, the record or the failure. *)
Definition batchUpload (now : Z) (r : BatchReq) (st : Store)
  : Store * response (list (string * option File.t)) :=
  match q_files r with
  | None => (st, Fail 400 NoFileList)
  | Some entries =>
      let data := loadData st in
      let added := List.map (batchFile now r) (List.filter e_copied entries) in
      let results :=
        List.map (fun e => (e_name e,
                            if e_copied e then Some (batchFile now r e) else None))
                 entries in
      let data := updateStats now (withFiles (files data ++ added) data) in
      (fst (saveData st data), Json results)
  end.

End Server.

(** ** The [DataManager] of the static pages *)

Module DataManager.

(** [this.data], the document under [localStorage.openonehtml_data], and
    whether [localStorage.setItem] accepts a write (it throws when the quota
    is exceeded).  The listeners are left out: they receive the document and
    return nothing to the manager. *)
Record t := mk {
  data : Data;
  stored : option Data;
  quota : bool
}.

Inductive result (A : Type) :=
  | Returns (a : A)
  | Raises (e : error).
Arguments Returns {A} a.
Arguments Raises {A} e.

(** [saveData]: the statistics are refreshed in memory, then the document is
    written; a failed write is thrown again. *)
Definition saveData (now : Z) (dm : t) : t * result bool :=
  let d := updateStats now (data dm) in
  if quota dm then (mk d (Some d) true, Returns true)
  else (mk d (stored dm) false, Raises SaveFailed).

(** The end of every mutating method: [await this.saveData(); return x]. *)
Definition commit {A} (now : Z) (d : Data) (x : A) (dm : t) : t * result A :=
  match saveData now (mk d (stored dm) (quota dm)) with
  | (dm', Returns _) => (dm', Returns x)
  | (dm', Raises e) => (dm', Raises e)
  end.

Definition getStats (dm : t) : Settings.t := settings (data dm).

(** [getFiles]: an exception is caught and the empty list returned. *)
Definition getFiles (q : Filters) (dm : t) : outcome (list File.t) :=
  match queryFiles (data dm) q with
  | Throws => Value []
  | r => r
  end.

Definition getFile (now : Z) (ident : string) (dm : t) : t * result File.t :=
  match findIndexed (fun f => String.eqb (File.id f) ident && File.active f)
                    (files (data dm)) with
  | None => (dm, Raises FileNotFound)
  | Some (i, file) =>
      commit now (withFiles (alter (File.touch now) i (files (data dm))) (data dm))
             (File.touch now file) dm
  end.

(** [updateFile(id, fileData)] *)
Definition updateFile (now : Z) (ident : string) (fileData : Patch.t) (dm : t)
  : t * result File.t :=
  match findIndexed (fun f => String.eqb (File.id f) ident && File.active f)
                    (files (data dm)) with
  | None => (dm, Raises FileNotFound)
  | Some (fileIndex, file) =>
      commit now
        (withFiles (<[fileIndex := Patch.apply fileData file]> (files (data dm)))
                   (data dm))
        (Patch.apply fileData file) dm
  end.

(** The record [batchUpload] builds for one entry; [info] is the random
    identifier, the name and the size. *)
Definition batchFile (now : Z) (commonData : CommonData) (info : string * string * nat)
  : File.t :=
  let '(fileId, name, size) := info in
  File.mk fileId name "" size now 0 name "" (c_category commonData)
          (c_background commonData) (c_prompt commonData) (c_model commonData)
          (default [] (c_tags commonData)) "active" None.

(** [batchUpload(files, commonData)]: one record per entry, then one save. *)
Definition batchUpload (now : Z) (infos : list (string * string * nat))
    (commonData : CommonData) (dm : t) : t * result (list File.t) :=
  let added := List.map (batchFile now commonData) infos in
  commit now (withFiles (files (data dm) ++ added) (data dm)) added dm.

(** [deleteFile(id, password)]: the password is not looked at. *)
Definition deleteFile (now : Z) (ident password : string) (dm : t) : t * result unit :=
  match JS.findIndex (fun f => String.eqb (File.id f) ident) (files (data dm)) with
  | None => (dm, Raises FileNotFound)
  | Some fileIndex =>
      commit now
        (withFiles (alter (File.setStatus "deleted") fileIndex (files (data dm)))
                   (data dm)) tt dm
  end.

Definition addTag (now : Z) (r : PresetReq) (dm : t) : t * result Tag.t :=
  if negb (JS.truthy (r_name r)) then (dm, Raises EmptyName)
  else
    let tag := newTag now r in
    commit now (withTags (default [] (preset_tags (data dm)) ++ [tag]) (data dm)) tag dm.

Definition addModel (now : Z) (r : PresetReq) (dm : t) : t * result Model.t :=
  if negb (JS.truthy (r_name r)) then (dm, Raises EmptyName)
  else
    let m := newModel now r in
    commit now (withModels (default [] (preset_models (data dm)) ++ [m]) (data dm)) m dm.

Definition addCategory (now : Z) (r : PresetReq) (dm : t) : t * result Category.t :=
  if negb (JS.truthy (r_name r)) then (dm, Raises EmptyName)
  else
    let c := newCategory now r in
    commit now (withCategories (default [] (categories (data dm)) ++ [c]) (data dm)) c dm.

(** [deleteTag(tagId)]: no look at the files. *)
Definition deleteTag (now : Z) (tagId : string) (dm : t) : t * result Tag.t :=
  match preset_tags (data dm) with
  | None => (dm, Raises TagNotFound)
  | Some tags =>
      match findIndexed (fun tag => String.eqb (Tag.id tag) tagId) tags with
      | None => (dm, Raises TagNotFound)
      | Some (tagIndex, deletedTag) =>
          commit now (withTags (JS.removeAt tagIndex tags) (data dm)) deletedTag dm
      end
  end.

Definition updateCategory (now : Z) (ident : string) (r : PresetReq) (dm : t)
  : t * result Category.t :=
  if negb (JS.truthy (r_name r)) then (dm, Raises EmptyName)
  else
    match categories (data dm) with
    | None => (dm, Raises CategoryNotFound)
    | Some cs =>
        match findIndexed (fun c => String.eqb (Category.id c) ident) cs with
        | None => (dm, Raises CategoryNotFound)
        | Some (i, c) =>
            commit now (withCategories (<[i := renameCategory now r c]> cs) (data dm))
                   (renameCategory now r c) dm
        end
    end.

Definition deleteCategory (now : Z) (ident : string) (dm : t) : t * result Category.t :=
  match categories (data dm) with
  | None => (dm, Raises CategoryNotFound)
  | Some cs =>
      match findIndexed (fun c => String.eqb (Category.id c) ident) cs with
      | None => (dm, Raises CategoryNotFound)
      | Some (i, c) =>
          let users := filesUsingCategory (Category.name c) (files (data dm)) in
          if (0 <? length users)%nat
          then (dm, Raises (CategoryInUse (length users)))
          else commit now (withCategories (JS.removeAt i cs) (data dm)) c dm
      end
  end.

End DataManager.

(** ** The management dialogs of [components.js] *)

Module Components.

Import DataManager.

(** [files.filter(file => file.tags && file.tags.includes(tagId))] *)
Definition filesUsingTag (tagId : string) (fs : list File.t) : list File.t :=
  List.filter (fun f => JS.includes (File.tags f) tagId) fs.

(** [files.filter(file => file.model === modelId)] *)
Definition filesUsingModel (modelId : string) (fs : list File.t) : list File.t :=
  List.filter (fun f => String.eqb (File.model f) modelId) fs.

(** [deleteTag(tagId)]; [presetManager.refresh()] reloads the dialog's own
    copy of the presets and is left out. *)
Definition deleteTag (now : Z) (tagId : string) (dm : DataManager.t)
  : DataManager.t * result bool :=
  let users := filesUsingTag tagId (files (data dm)) in
  if (0 <? length users)%nat then (dm, Raises (TagInUse (length users)))
  else
    match preset_tags (data dm) with
    | None => (dm, Raises TagNotFound)
    | Some tags =>
        match JS.findIndex (fun tag => String.eqb (Tag.id tag) tagId) tags with
        | None => (dm, Raises TagNotFound)
        | Some tagIndex =>
            commit now (withTags (JS.removeAt tagIndex tags) (data dm)) true dm
        end
    end.

Definition deleteModel (now : Z) (modelId : string) (dm : DataManager.t)
  : DataManager.t * result bool :=
  let users := filesUsingModel modelId (files (data dm)) in
  if (0 <? length users)%nat then (dm, Raises (ModelInUse (length users)))
  else
    match preset_models (data dm) with
    | None => (dm, Raises ModelNotFound)
    | Some models =>
        match JS.findIndex (fun m => String.eqb (Model.id m) modelId) models with
        | None => (dm, Raises ModelNotFound)
        | Some modelIndex =>
            commit now (withModels (JS.removeAt modelIndex models) (data dm)) true dm
        end
    end.

(** [FileList.applyFilters]: the filter the file list runs on its own copy
    of the files; the search is one substring, looked for in five fields. *)
Definition applyFilters (fs : list File.t) (q : Filters) : list File.t :=
  let fs := List.filter File.active fs in
  let fs :=
    if JS.truthy (search q) then
      let searchTerm := JS.toLowerCase (search q) in
      List.filter (fun f =>
        JS.strIncludes (JS.toLowerCase (File.title f)) searchTerm ||
        JS.strIncludes (JS.toLowerCase (File.description f)) searchTerm ||
        JS.strIncludes (JS.toLowerCase (File.originalName f)) searchTerm ||
        JS.strIncludes (JS.toLowerCase (File.background f)) searchTerm ||
        JS.strIncludes (JS.toLowerCase (File.prompt f)) searchTerm) fs
    else fs in
  let fs := categoryFilter (q_category q) fs in
  let fs :=
    match q_tags q with
    | Some (t :: ts) =>
        List.filter (fun f => existsb (fun tag => JS.includes (File.tags f) tag) (t :: ts)) fs
    | _ => fs
    end in
  modelFilter (q_model q) fs.

(** [updateTag(tagId, {name, color, description})]: the three fields replace
    those of the tag. *)
Definition editedTag (r : PresetReq) (tag : Tag.t) : Tag.t :=
  Tag.mk (Tag.id tag) (r_name r) (r_color r) (r_description r)
         (Tag.createTime tag) (Tag.usageCount tag).

Definition updateTag (now : Z) (tagId : string) (r : PresetReq) (dm : DataManager.t)
  : DataManager.t * result bool :=
  match preset_tags (data dm) with
  | None => (dm, Raises TagNotFound)
  | Some tags =>
      match findIndexed (fun tag => String.eqb (Tag.id tag) tagId) tags with
      | None => (dm, Raises TagNotFound)
      | Some (tagIndex, tag) =>
          commit now (withTags (<[tagIndex := editedTag r tag]> tags) (data dm)) true dm
      end
  end.

End Components.

(** ** The [DatabaseManager] of the trae-trash variant *)

Module Trae.

(** An entry of [file.models]. *)
Record ModelRef := mkModelRef {
  m_name : string;
  m_version : string
}.

Record HtmlFile := mkHtmlFile {
  id : string;
  original_name : string;
  scene : string;
  prompt : string;
  models : list ModelRef;
  tags : list string;
  category : string;
  description : string;
  file_size : nat;
  created_at : Z;
  updated_at : Z;
  access_count : nat;
  rating : nat;
  compatibility : list (string * string)
}.

(** A property of a counter object.  The counters are objects created as
    [{}]: under most names a property is a count; under a name for which
    every object inherits a function from [Object.prototype] it is a text,
    the source text of that function followed by the digit 1 as many times
    as the name was counted. *)
Inductive counter :=
  | Count (n : nat)
  | Text (ones : nat).

Record Statistics := mkStatistics {
  total_files : nat;
  total_size : nat;
  total_access : nat;
  s_categories : gmap string counter;
  s_tags : gmap string counter;
  s_models : gmap string counter;
  total_tags : nat;
  total_models : nat
}.

Record Database := mkDatabase {
  html_files : list HtmlFile;
  statistics : Statistics;
  last_updated : Z
}.

(** [this.data], the content of [data.json], and whether
    [fs.writeFileSync] succeeds. *)
Record t := mk {
  data : Database;
  disk : option Database;
  writable : bool
}.

(** The names under which every object inherits a function. *)
Definition inheritedNames : list string :=
  ["constructor"; "hasOwnProperty"; "isPrototypeOf"; "propertyIsEnumerable";
   "toLocaleString"; "toString"; "valueOf"; "__defineGetter__";
   "__defineSetter__"; "__lookupGetter__"; "__lookupSetter__"].

Definition inherited (key : string) : bool := JS.includes inheritedNames key.

(** [stats[key] = (stats[key] || 0) + 1].  A count is raised by one.  Under
    an inherited name the first read gives the function, which is truthy,
    and [+ 1] appends the digit to its text; the text becomes a property of
    the object and the next [+ 1] appends again.  Under [__proto__] the read
    gives the prototype and the assignment of a text is ignored: the object
    gets no property. *)
Definition bump (key : string) (m : gmap string counter) : gmap string counter :=
  if String.eqb key "__proto__" then m
  else
    match m !! key with
    | Some (Count n) => <[key := Count (n + 1)]> m
    | Some (Text ones) => <[key := Text (ones + 1)]> m
    | None => <[key := if inherited key then Text 1 else Count 1]> m
    end.

Section Fallback.

(** The category a file without one is counted under.  In the code it is
    '未分类', a name of three characters beyond the characters of the
    embedding, so it is a parameter here: what is proved holds for every
    name. *)
Variable uncategorized : string.

Definition updateStatistics (d : Database) : Database :=
  let fs := html_files d in
  let categories :=
    foldl (fun acc f => bump (orElse (category f) uncategorized) acc) ∅ fs in
  let tagUse :=
    foldl (fun acc f => foldl (fun acc' tag => bump tag acc') acc (tags f)) ∅ fs in
  let modelUse :=
    foldl (fun acc f => foldl (fun acc' m => bump (m_name m) acc') acc (models f)) ∅ fs in
  mkDatabase fs
    (mkStatistics (length fs)
                  (foldl (fun sum f => sum + file_size f) 0 fs)
                  (foldl (fun sum f => sum + access_count f) 0 fs)
                  categories tagUse modelUse
                  (size tagUse) (size modelUse))
    (last_updated d).

(** [saveData]: the time stamp is set, then the file written; a failed write
    is logged and answered with [false]. *)
Definition saveData (now : Z) (db : t) : t * bool :=
  let d := mkDatabase (html_files (data db)) (statistics (data db)) now in
  if writable db then (mk d (Some d) true, true)
  else (mk d (disk db) false, false).

(** The argument of [addHTMLFile]; [i_models] and [i_tags] are [None] when
    the property is missing, [i_created_at] likewise. *)
Record FileInfo := mkFileInfo {
  i_id : string;
  i_original_name : string;
  i_scene : string;
  i_prompt : string;
  i_models : option (list ModelRef);
  i_tags : option (list string);
  i_category : string;
  i_description : string;
  i_file_size : nat;
  i_created_at : option Z;
  i_access_count : nat;
  i_rating : nat;
  i_compatibility : list (string * string)
}.

(** The four required fields are all there. *)
Definition complete (fileInfo : FileInfo) : bool :=
  JS.truthy (i_original_name fileInfo) && JS.truthy (i_scene fileInfo) &&
  JS.truthy (i_prompt fileInfo) && bool_decide (is_Some (i_models fileInfo)).

(** [addHTMLFile(fileInfo)]; [hashed] is what
    [encryptor.encryptFilename(original_name)] returns. *)
Definition addHTMLFile (now : Z) (hashed : string) (fileInfo : FileInfo) (db : t)
  : t * bool :=
  if negb (complete fileInfo) then (db, false)
  else
    let ident := orElse (i_id fileInfo) hashed in
    let record :=
      mkHtmlFile ident (i_original_name fileInfo) (i_scene fileInfo)
        (i_prompt fileInfo) (default [] (i_models fileInfo))
        (default [] (i_tags fileInfo)) (orElse (i_category fileInfo) uncategorized)
        (i_description fileInfo) (i_file_size fileInfo)
        (default now (i_created_at fileInfo)) now (i_access_count fileInfo)
        (i_rating fileInfo) (i_compatibility fileInfo) in
    let fs := html_files (data db) in
    let fs' :=
      match JS.findIndex (fun f => String.eqb (id f) ident) fs with
      | Some existingIndex => <[existingIndex := record]> fs
      | None => fs ++ [record]
      end in
    let d := updateStatistics (mkDatabase fs' (statistics (data db)) (last_updated (data db))) in
    saveData now (mk d (disk db) (writable db)).

(** [file.tags[file.tags.indexOf(oldTagName)] = newTagName] *)
Fixpoint replaceFirst (oldTagName newTagName : string) (ts : list string) : list string :=
  match ts with
  | [] => []
  | x :: rest =>
      if String.eqb x oldTagName then newTagName :: rest
      else x :: replaceFirst oldTagName newTagName rest
  end.

(** The body of the [forEach] of [editTag]. *)
Definition retag (now : Z) (oldTagName newTagName : string) (f : HtmlFile) : HtmlFile :=
  if JS.includes (tags f) oldTagName then
    mkHtmlFile (id f) (original_name f) (scene f) (prompt f) (models f)
      (replaceFirst oldTagName newTagName (tags f)) (category f) (description f)
      (file_size f) (created_at f) now (access_count f) (rating f) (compatibility f)
  else f.

(** [updatedCount] at the end of the loop. *)
Definition updatedCount (oldTagName : string) (fs : list HtmlFile) : nat :=
  length (List.filter (fun f => JS.includes (tags f) oldTagName) fs).

(** [editTag(oldTagName, newTagName)] *)
Definition editTag (now : Z) (oldTagName newTagName : string) (db : t) : t * bool :=
  if negb (JS.truthy oldTagName) || negb (JS.truthy newTagName) then (db, false)
  else if String.eqb oldTagName newTagName then (db, false)
  else
    let fs := html_files (data db) in
    if (updatedCount oldTagName fs =? 0)%nat then (db, false)
    else
      let d := mkDatabase (List.map (retag now oldTagName newTagName) fs)
                          (statistics (data db)) (last_updated (data db)) in
      saveData now (mk (updateStatistics d) (disk db) (writable db)).

(** [deleteHTMLFile(id)]: the record is taken out of the list. *)
Definition deleteHTMLFile (now : Z) (ident : string) (db : t) : t * bool :=
  match JS.findIndex (fun f => String.eqb (id f) ident) (html_files (data db)) with
  | Some index =>
      let d := mkDatabase (JS.removeAt index (html_files (data db)))
                          (statistics (data db)) (last_updated (data db)) in
      saveData now (mk (updateStatistics d) (disk db) (writable db))
  | None => (db, false)
  end.

(** The filters of [searchHTMLFiles]. *)
Record SearchFilters := mkSearchFilters {
  f_scene : string;
  f_category : string;
  f_tags : option (list string);
  f_model : string;
  f_description : string
}.

(** [text.toLowerCase().includes(filter.toLowerCase())] *)
Definition containsNoCase (text filter_ : string) : bool :=
  JS.strIncludes (JS.toLowerCase text) (JS.toLowerCase filter_).

(** One step of [searchHTMLFiles]: a filter that is given narrows the
    results. *)
Definition narrow (given : bool) (p : HtmlFile -> bool) (results : list HtmlFile)
  : list HtmlFile :=
  if given then List.filter p results else results.

Definition searchHTMLFiles (filters : SearchFilters) (db : t) : list HtmlFile :=
  let results := html_files (data db) in
  let results :=
    narrow (JS.truthy (f_scene filters))
           (fun file => containsNoCase (scene file) (f_scene filters)) results in
  let results :=
    narrow (JS.truthy (f_category filters))
           (fun file => containsNoCase (category file) (f_category filters)) results in
  let results :=
    narrow (match f_tags filters with Some (_ :: _) => true | _ => false end)
           (fun file =>
              existsb (fun tag =>
                         existsb (fun fileTag => containsNoCase fileTag tag) (tags file))
                      (default [] (f_tags filters))) results in
  let results :=
    narrow (JS.truthy (f_model filters))
           (fun file =>
              existsb (fun m => containsNoCase (m_name m) (f_model filters)) (models file))
           results in
  narrow (JS.truthy (f_description filters))
         (fun file => containsNoCase (description file) (f_description filters)) results.

(** [getAllTags()], [getAllCategories()], [getAllModels()]: the values in
    use, each once, sorted. *)
Definition getAllTags (db : t) : list string :=
  JS.sort (JS.setOf (concat (List.map tags (html_files (data db))))).

Definition getAllCategories (db : t) : list string :=
  JS.sort (JS.setOf (List.map category (html_files (data db)))).

Definition getAllModels (db : t) : list string :=
  JS.sort (JS.setOf (concat (List.map (fun f => List.map m_name (models f))
                                      (html_files (data db))))).

End Fallback.

End Trae.

(** ** The request handler of the trae-trash server *)

Module TraeServer.

(** The object [updateStatistics] puts in place of [db.statistics]. *)
Record Stats := mkStats {
  total_files : nat;
  categories : gmap string Trae.counter;
  tags : gmap string Trae.counter;
  models : gmap string Trae.counter
}.

Record Db := mkDb {
  html_files : list Trae.HtmlFile;
  statistics : Stats;
  last_updated : Z
}.

(** [database/data.json]: [None] when it cannot be read or parsed; and
    whether [fs.writeFile] succeeds. *)
Record Store := mkStore {
  content : option Db;
  writable : bool
}.

Definition updateStatistics (now : Z) (db : Db) : Db :=
  let fs := html_files db in
  mkDb fs
    (mkStats (length fs)
       (foldl (fun acc f =>
                 if JS.truthy (Trae.category f) then Trae.bump (Trae.category f) acc
                 else acc) ∅ fs)
       (foldl (fun acc f => foldl (fun acc' tag => Trae.bump tag acc') acc (Trae.tags f))
              ∅ fs)
       (foldl (fun acc f =>
                 foldl (fun acc' m =>
                          if JS.truthy (Trae.m_name m) then Trae.bump (Trae.m_name m) acc'
                          else acc') acc (Trae.models f)) ∅ fs))
    now.

(** The answer: the status code and, with 200, [updatedCount]. *)
Inductive answer :=
  | Success (updatedCount : nat)
  | Failed (code : nat).

(** [handleEditTagRequest]; [body] is the parsed request body as
    ([oldTagName], [newTagName]), [None] when it is not JSON. *)
Definition handleEditTagRequest (now : Z) (method : string)
    (body : option (string * string)) (st : Store) : Store * answer :=
  if negb (String.eqb method "POST") then (st, Failed 405)
  else
    match body with
    | None => (st, Failed 400)
    | Some (oldTagName, newTagName) =>
        if negb (JS.truthy oldTagName) || negb (JS.truthy newTagName)
        then (st, Failed 400)
        else if String.eqb oldTagName newTagName then (st, Failed 400)
        else
          match content st with
          | None => (st, Failed 500)
          | Some db =>
              let updatedCount := Trae.updatedCount oldTagName (html_files db) in
              if (updatedCount =? 0)%nat then (st, Failed 404)
              else
                let db' :=
                  updateStatistics now
                    (mkDb (List.map (Trae.retag now oldTagName newTagName) (html_files db))
                          (statistics db) (last_updated db)) in
                if writable st then (mkStore (Some db') true, Success updatedCount)
                else (st, Failed 500)
          end
    end.

End TraeServer.

(** ** The [DataManager] of the trae-trash pages *)

Module Client.

(** [updateStatistics()]: as on the server, and an empty tag is not
    counted. *)
Definition updateStatistics (now : Z) (db : TraeServer.Db) : TraeServer.Db :=
  let fs := TraeServer.html_files db in
  TraeServer.mkDb fs
    (TraeServer.mkStats (length fs)
       (foldl (fun acc f =>
                 if JS.truthy (Trae.category f) then Trae.bump (Trae.category f) acc
                 else acc) ∅ fs)
       (foldl (fun acc f =>
                 foldl (fun acc' tag => if JS.truthy tag then Trae.bump tag acc' else acc')
                       acc (Trae.tags f)) ∅ fs)
       (foldl (fun acc f =>
                 foldl (fun acc' m =>
                          if JS.truthy (Trae.m_name m) then Trae.bump (Trae.m_name m) acc'
                          else acc') acc (Trae.models f)) ∅ fs))
    now.

(** [editTag(oldTagName, newTagName)]; [data] is [this.data], [None] when
    nothing is loaded, and [saved] says whether [saveData] returns: when it
    throws, the exception is caught here and the answer is 0. *)
Definition editTag (now : Z) (oldTagName newTagName : string) (saved : bool)
    (data : option TraeServer.Db) : option TraeServer.Db * nat :=
  match data with
  | None => (None, 0)
  | Some db =>
      if negb (JS.truthy oldTagName) || negb (JS.truthy newTagName) then (data, 0)
      else if String.eqb oldTagName newTagName then (data, 0)
      else
        let updatedCount := Trae.updatedCount oldTagName (TraeServer.html_files db) in
        let db' :=
          TraeServer.mkDb
            (List.map (Trae.retag now oldTagName newTagName) (TraeServer.html_files db))
            (TraeServer.statistics db) (TraeServer.last_updated db) in
        if (0 <? updatedCount)%nat then
          (Some (updateStatistics now db'), if saved then updatedCount else 0)
        else (Some db', updatedCount)
  end.

End Client.

(** ** The [PresetManager] of the trae-trash pages *)

Module PresetManager.

(** [this.presets]: two sets of names.  A JavaScript [Set] keeps its elements
    in the order in which they were added, so a set is the list of its
    elements in that order.  The listeners are left out: they are handed the
    list of names and return nothing to the manager. *)
Record t := mk {
  tags : list string;
  models : list string
}.

(** [set.add(x)] and [set.delete(x)] *)
Definition setAdd (x : string) (s : list string) : list string :=
  if JS.includes s x then s else s ++ [x].

Definition setDelete (x : string) (s : list string) : list string :=
  List.filter (fun y => negb (String.eqb y x)) s.

(** The loop of [loadPresets] over the names of one file. *)
Definition collect (names : list string) (s : list string) : list string :=
  foldl (fun acc name =>
           if JS.truthy name && JS.truthy (JS.trim name) then setAdd (JS.trim name) acc
           else acc) s names.

(** [loadPresets()]; [html_files] is [this.dataManager.data.html_files],
    [None] when there is no data manager, no data or no list of files. *)
Definition loadPresets (html_files : option (list Trae.HtmlFile)) (pm : t) : t :=
  match html_files with
  | None => pm
  | Some fs =>
      mk (foldl (fun acc f => collect (Trae.tags f) acc) [] fs)
         (foldl (fun acc f => collect (List.map Trae.m_name (Trae.models f)) acc) [] fs)
  end.

(** [addTag(tag)] *)
Definition addTag (tag : string) (pm : t) : t * bool :=
  if negb (JS.truthy tag) then (pm, false)
  else
    let trimmedTag := JS.trim tag in
    if negb (JS.truthy trimmedTag) then (pm, false)
    else if JS.includes (tags pm) trimmedTag then (pm, false)
    else (mk (setAdd trimmedTag (tags pm)) (models pm), true).

(** [removeTag(tag)] *)
Definition removeTag (tag : string) (pm : t) : t * bool :=
  if negb (JS.truthy tag) then (pm, false)
  else
    let trimmedTag := JS.trim tag in
    if negb (JS.truthy trimmedTag) then (pm, false)
    else if negb (JS.includes (tags pm) trimmedTag) then (pm, false)
    else (mk (setDelete trimmedTag (tags pm)) (models pm), true).

(** [hasTag(tag)] *)
Definition hasTag (tag : string) (pm : t) : bool :=
  if negb (JS.truthy tag) then false else JS.includes (tags pm) (JS.trim tag).

(** [getTags(sorted)], [getModels(sorted)] *)
Definition getTags (sorted : bool) (pm : t) : list string :=
  if sorted then JS.sort (tags pm) else tags pm.

Definition getModels (sorted : bool) (pm : t) : list string :=
  if sorted then JS.sort (models pm) else models pm.

(** [renameTag(oldTag, newTag)]; [data] is the data of the data manager.
    [editTag] catches what it throws, so the [catch] of [renameTag] is never
    entered. *)
Definition renameTag (now : Z) (oldTag newTag : string) (saved : bool)
    (data : option TraeServer.Db) (pm : t) : t * option TraeServer.Db * bool :=
  if negb (JS.truthy oldTag) || negb (JS.truthy newTag) then (pm, data, false)
  else
    let trimmedOldTag := JS.trim oldTag in
    let trimmedNewTag := JS.trim newTag in
    if negb (JS.truthy trimmedOldTag) || negb (JS.truthy trimmedNewTag)
    then (pm, data, false)
    else if String.eqb trimmedOldTag trimmedNewTag then (pm, data, false)
    else if negb (JS.includes (tags pm) trimmedOldTag) then (pm, data, false)
    else
      (mk (setAdd trimmedNewTag (setDelete trimmedOldTag (tags pm))) (models pm),
       fst (Client.editTag now trimmedOldTag trimmedNewTag saved data),
       true).

End PresetManager.

(** ** The wording of the specification *)

(** Letters are compared without case. *)
Definition sameLetter (c d : ascii) : Prop := JS.upperChar c = JS.upperChar d.

(** The wildcard matching of the text filter as the specification words it:
    [*] stands for any run of characters, [?] for exactly one character, any
    other character for itself up to case. *)
Inductive wildcardAny : string -> string -> Prop :=
  | any_end : wildcardAny "" ""
  | any_star p run s :
      wildcardAny p s -> wildcardAny (String "*" p) (run +:+ s)
  | any_one p c s :
      wildcardAny p s -> wildcardAny (String "?" p) (String c s)
  | any_letter p c d s :
      c <> "*"%char -> c <> "?"%char -> sameLetter c d -> wildcardAny p s ->
      wildcardAny (String c p) (String d s).

Definition occursAny (keyword text : string) : Prop :=
  exists pre mid post, text = pre +:+ mid +:+ post /\ wildcardAny keyword mid.

(** The same matching within a line: [*] and [?] stand for characters other
    than line terminators, as the dot of a regular expression does. *)

Fixpoint noLineBreak (s : string) : Prop :=
  match s with
  | EmptyString => True
  | String c s' => JS.isLineTerminator c = false /\ noLineBreak s'
  end.

Inductive wildcard : string -> string -> Prop :=
  | wildcard_end : wildcard "" ""
  | wildcard_star p run s :
      noLineBreak run -> wildcard p s ->
      wildcard (String "*" p) (run +:+ s)
  | wildcard_one p c s :
      JS.isLineTerminator c = false -> wildcard p s ->
      wildcard (String "?" p) (String c s)
  | wildcard_letter p c d s :
      c <> "*"%char -> c <> "?"%char -> sameLetter c d -> wildcard p s ->
      wildcard (String c p) (String d s).

(** A keyword matches a text when it matches some stretch of it. *)
Definition occurs (keyword text : string) : Prop :=
  exists pre mid post, text = pre +:+ mid +:+ post /\ wildcard keyword mid.

(** The expression that reads a keyword the way [wildcard] does: every
    character but [*] and [?] is a letter. *)
Fixpoint escaped (keyword : string) : RegExp.regex :=
  match keyword with
  | EmptyString => []
  | String c rest =>
      (if Ascii.eqb c "*" then (RegExp.AnyChar, RegExp.Star)
       else if Ascii.eqb c "?" then (RegExp.AnyChar, RegExp.Once)
       else (RegExp.Lit c, RegExp.Once)) :: escaped rest
  end.

(** Characters with a meaning of their own in a regular expression, [*]
    and [?] apart. *)
Definition isMeta (c : ascii) : bool :=
  Ascii.eqb c "." || Ascii.eqb c "+" ||
  (RegExp.isSyntaxChar c && negb (Ascii.eqb c "?")).

Fixpoint plain (keyword : string) : bool :=
  match keyword with
  | EmptyString => true
  | String c rest => negb (isMeta c) && plain rest
  end.

(** No white space inside. *)
Fixpoint noSpace (s : string) : bool :=
  match s with
  | EmptyString => true
  | String c s' => negb (JS.isSpace c) && noSpace s'
  end.

(** White space only. *)
Fixpoint onlySpace (s : string) : bool :=
  match s with
  | EmptyString => true
  | String c s' => JS.isSpace c && onlySpace s'
  end.

(** A word ends where the text ends or white space follows. *)
Definition wordEnds (rest : string) : Prop :=
  match rest with
  | EmptyString => True
  | String c _ => JS.isSpace c = true
  end.

(** A text split on white space into its non-empty words: white space is
    skipped, and a word is a stretch without white space, not empty, that
    runs up to the next white space or to the end. *)
Inductive splitsInto : string -> list string -> Prop :=
  | split_end : splitsInto "" []
  | split_space c s ws :
      JS.isSpace c = true -> splitsInto s ws -> splitsInto (String c s) ws
  | split_word w s ws :
      w <> "" -> noSpace w = true -> wordEnds s -> splitsInto s ws ->
      splitsInto (w +:+ s) (w :: ws).

(** The six fields of a file that the search reads; the category is the
    last of them, the other five are followed by another field. *)
Definition innerField (x : string) (f : File.t) : Prop :=
  x = File.title f \/ x = File.description f \/ x = File.originalName f \/
  x = File.background f \/ x = File.prompt f.

Definition searchField (x : string) (f : File.t) : Prop :=
  innerField x f \/ x = File.category f.

(** The search with this text alone returns the file: the route and
    [DataManager.getFiles] answer with one list, and the file is in it. *)
Definition finds (text : string) (d : Data) (f : File.t) : Prop :=
  exists found,
    (forall st, Server.loadData st = d ->
                Server.getFiles (textOnly text) st = Value found) /\
    (forall dm, DataManager.data dm = d ->
                DataManager.getFiles (textOnly text) dm = Value found) /\
    In f found.

(** What the category, tag and model filters of a query ask of a file. *)
Definition passes (q : Filters) (f : File.t) : Prop :=
  (q_category q = "" \/ File.category f = q_category q) /\
  (match q_tags q with
   | None => True
   | Some l => exists t, In t l /\ In t (File.tags f)
   end) /\
  (q_model q = "" \/ File.model f = q_model q).

(** A file with nothing but a title, a one-file document, and the manager
    holding it: the inputs of the examples on the search. *)
Definition titled (ident title : string) : File.t :=
  File.mk ident "" "" 0 0 0 title "" "" "" "" "" [] "active" None.

Definition holding (fs : list File.t) : Data :=
  mkData "1.0.0" fs (Some []) (Some []) (Some []) (Settings.mk 0 0 0 0) None.

(** A run of characters that an atom accepts one by one. *)
Fixpoint accepts (i : bool) (a : RegExp.atom) (run : string) : Prop :=
  match run with
  | EmptyString => True
  | String c run' => RegExp.atomMatches i a c = true /\ accepts i a run'
  end.

(** The number of active files that hold a tag, a model or a category. *)
Definition activeTagUse (tagId : string) (fs : list File.t) : nat :=
  length (List.filter (fun f => File.active f && JS.includes (File.tags f) tagId) fs).

Definition activeModelUse (modelId : string) (fs : list File.t) : nat :=
  length (List.filter (fun f => File.active f && String.eqb (File.model f) modelId) fs).

Definition activeCategoryUse (name : string) (fs : list File.t) : nat :=
  length (List.filter (fun f => File.active f && String.eqb (File.category f) name) fs).

(** Names of the presets of a kind. *)
Definition tagNames (d : Data) : list string := List.map Tag.name (default [] (preset_tags d)).
Definition modelNames (d : Data) : list string := List.map Model.name (default [] (preset_models d)).
Definition categoryNames (d : Data) : list string :=
  List.map Category.name (default [] (categories d)).

(** A soft delete as the specification words it: the file with the
    identifier gets the status deleted, every other file stays as it is. *)
Definition markDeleted (ident : string) (fs : list File.t) : list File.t :=
  List.map (fun g => if String.eqb (File.id g) ident
                     then File.setStatus "deleted" g else g) fs.

(** The statistics agree with the files: what [updateStats] leaves behind. *)
Definition countsFiles (d : Data) : Prop :=
  Settings.totalFiles (settings d) = length (List.filter File.active (files d)).

(** How often a key occurs in a list of keys, and the entry a counter
    object has for it after the keys were counted one by one: none when the
    key does not occur, and none under [__proto__]; under an inherited name
    a text that has grown by one digit per occurrence; the number of
    occurrences under every other name. *)
Definition countKey (key : string) (keys : list string) : nat :=
  length (List.filter (String.eqb key) keys).

Definition usageOf (key : string) (keys : list string) : option Trae.counter :=
  if String.eqb key "__proto__" then None
  else if (countKey key keys =? 0)%nat then None
  else Some (if Trae.inherited key then Trae.Text (countKey key keys)
             else Trae.Count (countKey key keys)).

(** A name that is counted as a number. *)
Definition ordinary (key : string) : bool :=
  negb (String.eqb key "__proto__") && negb (Trae.inherited key).

(** The number a counter object has under a name: [counter[key] || 0] where
    the property is a count. *)
Definition numberAt (m : gmap string Trae.counter) (key : string) : nat :=
  match m !! key with
  | Some (Trae.Count n) => n
  | _ => 0
  end.

(** The keys that leave a property behind: all but [__proto__]. *)
Definition counted (keys : list string) : list string :=
  List.filter (fun key => negb (String.eqb key "__proto__")) keys.

(** The tags, model names and categories of a list of files, file by file. *)
Definition tagsOf (fs : list Trae.HtmlFile) : list string :=
  concat (List.map Trae.tags fs).

Definition modelsOf (fs : list Trae.HtmlFile) : list string :=
  concat (List.map (fun f => List.map Trae.m_name (Trae.models f)) fs).

Definition categoriesOf (fallback : string) (fs : list Trae.HtmlFile) : list string :=
  List.map (fun f => orElse (Trae.category f) fallback) fs.

(** The four statistics say what the document holds. *)
Definition statsConsistent (d : Data) : Prop :=
  Settings.totalFiles (settings d) = length (List.filter File.active (files d)) /\
  Settings.totalTags (settings d) = length (default [] (preset_tags d)) /\
  Settings.totalModels (settings d) = length (default [] (preset_models d)) /\
  Settings.totalCategories (settings d) = size (categorySet (files d)).

(** Every deleted file of [d] is at its place, unchanged, in [d']. *)
Definition deletedKept (d d' : Data) : Prop :=
  forall i f, files d !! i = Some f -> File.active f = false -> files d' !! i = Some f.

(** No character of the keyword is a wildcard. *)
Fixpoint noWildcard (keyword : string) : bool :=
  match keyword with
  | EmptyString => true
  | String c rest =>
      negb (Ascii.eqb c "*") && negb (Ascii.eqb c "?") && noWildcard rest
  end.

(** One string is a stretch of another; the same with the case of the
    letters left aside. *)
Definition within (part text : string) : Prop :=
  exists pre post, text = pre +:+ part +:+ post.

Definition withinNoCase (part text : string) : Prop :=
  within (JS.toLowerCase part) (JS.toLowerCase text).

(** The static pages against the server: two documents hold the same
    catalog, an answer of the manager is the answer of the route, and an
    operation of the manager mirrors the route. *)
Definition sameCatalog (d d' : Data) : Prop :=
  files d = files d' /\ preset_tags d = preset_tags d' /\
  preset_models d = preset_models d' /\ categories d = categories d'.

Definition sameAnswer {A} (r : Server.response A) (m : DataManager.result A) : Prop :=
  match r, m with
  | Server.Json x, DataManager.Returns y => x = y
  | Server.Fail _ e, DataManager.Raises e' => e = e'
  | _, _ => False
  end.

Definition mirrors {A} (s : Server.Store * Server.response A)
    (m : DataManager.t * DataManager.result A) : Prop :=
  sameAnswer (snd s) (snd m) /\
  sameCatalog (Server.loadData (fst s)) (DataManager.data (fst m)).

(** The names of a set of presets are distinct, not empty, and without
    white space at their ends. *)
Definition wellFormed (s : list string) : Prop :=
  NoDup s /\ forall x, In x s -> x <> "" /\ JS.trim x = x.

(** Every tag that a file holds is a preset. *)
Definition tagsKnown (presets : list string) (data : option TraeServer.Db) : Prop :=
  forall db f tag, data = Some db -> In f (TraeServer.html_files db) ->
                   In tag (Trae.tags f) -> In tag presets.

(** * Properties *)

#[local] Arguments String.append !_ _ / : simpl nomatch.

(** ** Strings *)

Section Strings.

Lemma append_nil_r (s : string) : s +:+ "" = s.
Proof. induction s as [|c s IH]; simpl; [reflexivity | now rewrite IH]. Qed.

Lemma append_assoc (a b c : string) : (a +:+ b) +:+ c = a +:+ (b +:+ c).
Proof. induction a as [|x a IH]; simpl; [reflexivity | now rewrite IH]. Qed.

Lemma noLineBreak_app (a b : string) :
  noLineBreak (a +:+ b) <-> noLineBreak a /\ noLineBreak b.
Proof.
  induction a as [|x a IH]; simpl; [tauto | rewrite IH; tauto].
Qed.

End Strings.

(** ** The matcher *)

Section Matcher.

Variable i : bool.

(** [starFrom] splits the text into a run accepted by the atom and a rest
    accepted by the continuation. *)
Lemma starFrom_spec (a : RegExp.atom) (k : string -> bool) (s : string) :
  RegExp.starFrom i a k s = true <->
  exists run rest, s = run +:+ rest /\ accepts i a run /\ k rest = true.
Proof.
  induction s as [|c s IH]; simpl.
  - rewrite orb_false_r. split.
    + intros H. exists "", "". simpl. auto.
    + intros (run & rest & E & _ & K).
      destruct run; simpl in E; [now subst rest | discriminate].
  - rewrite orb_true_iff, andb_true_iff, IH. split.
    + intros [K | (M & run & rest & E & A & K)].
      * exists "", (String c s). simpl. auto.
      * exists (String c run), rest. simpl. subst s. auto.
    + intros (run & rest & E & A & K). destruct run as [|x run]; simpl in *.
      * left. now subst rest.
      * injection E as -> ->. right. destruct A as [M A]. eauto 6.
Qed.

(** A match may start anywhere. *)
Lemma test_spec (r : RegExp.regex) (s : string) :
  RegExp.test i r s = true <->
  exists pre suf, s = pre +:+ suf /\ RegExp.matchHere i r suf = true.
Proof.
  induction s as [|c s IH]; simpl.
  - rewrite orb_false_r. split.
    + intros H. exists "", "". auto.
    + intros (pre & suf & E & M).
      destruct pre; simpl in E; [now subst suf | discriminate].
  - rewrite orb_true_iff, IH. split.
    + intros [M | (pre & suf & E & M)].
      * exists "", (String c s). auto.
      * exists (String c pre), suf. simpl. now subst s.
    + intros (pre & suf & E & M). destruct pre as [|x pre]; simpl in E.
      * left. now subst suf.
      * injection E as -> ->. right. eauto.
Qed.

End Matcher.

(** ** Keywords as wildcard patterns *)

Section Wildcards.

Lemma accepts_anyChar (run : string) :
  accepts true RegExp.AnyChar run <-> noLineBreak run.
Proof.
  induction run as [|c run IH]; simpl; [tauto |].
  rewrite IH, negb_true_iff. tauto.
Qed.

Lemma letter_matches (c d : ascii) :
  Ascii.eqb (JS.upperChar c) (JS.upperChar d) = true <-> sameLetter c d.
Proof. apply Ascii.eqb_eq. Qed.

Lemma wildcard_star_inv (p t : string) :
  wildcard (String "*" p) t ->
  exists run s, t = run +:+ s /\ noLineBreak run /\ wildcard p s.
Proof.
  intros H.
  inversion H as [| p' run s Hn Hw | p' c' s Hl Hw | p' c' d s Hs Hq Hl Hw];
    subst; [eauto | congruence].
Qed.

Lemma wildcard_one_inv (p t : string) :
  wildcard (String "?" p) t ->
  exists c s, t = String c s /\ JS.isLineTerminator c = false /\ wildcard p s.
Proof.
  intros H.
  inversion H as [| p' run s Hn Hw | p' c' s Hl Hw | p' c' d s Hs Hq Hl Hw];
    subst; [eauto | congruence].
Qed.

Lemma wildcard_letter_inv (c : ascii) (p t : string) :
  c <> "*"%char -> c <> "?"%char -> wildcard (String c p) t ->
  exists d s, t = String d s /\ sameLetter c d /\ wildcard p s.
Proof.
  intros Hstar Hone H.
  inversion H as [| p' run s Hn Hw | p' c' s Hl Hw | p' c' d s Hs Hq Hl Hw];
    subst; [congruence | congruence | eauto].
Qed.

(** The matcher on an escaped keyword finds exactly the prefixes that the
    wildcard relation accepts. *)
Lemma matchHere_escaped (keyword : string) : forall s,
  RegExp.matchHere true (escaped keyword) s = true <->
  exists mid rest, s = mid +:+ rest /\ wildcard keyword mid.
Proof.
  induction keyword as [|c keyword IH]; intros s; simpl.
  - split; [intros _ | reflexivity].
    exists "", s. split; [reflexivity | constructor].
  - destruct (Ascii.eqb_spec c "*") as [-> | Hstar]; simpl.
    { rewrite starFrom_spec. split.
      - intros (run & rest & -> & A & M). apply IH in M as (mid & post & -> & W).
        exists (run +:+ mid), post. rewrite append_assoc. split; [reflexivity |].
        constructor; [now apply accepts_anyChar | exact W].
      - intros (mid & post & -> & W).
        apply wildcard_star_inv in W as (run & t & -> & N & W).
        exists run, (t +:+ post). rewrite append_assoc. split; [reflexivity |].
        split; [now apply accepts_anyChar |]. apply IH. eauto. }
    destruct (Ascii.eqb_spec c "?") as [-> | Hone]; simpl.
    { split.
      - destruct s as [|d s]; [discriminate |].
        rewrite andb_true_iff, negb_true_iff, IH.
        intros (L & mid & post & -> & W).
        exists (String d mid), post. split; [reflexivity | now constructor].
      - intros (mid & post & -> & W).
        apply wildcard_one_inv in W as (d & t & -> & L & W). simpl.
        rewrite L. simpl. apply IH. eauto. }
    split.
    + destruct s as [|d s]; [discriminate |].
      rewrite andb_true_iff, letter_matches, IH.
      intros (L & mid & post & -> & W).
      exists (String d mid), post. split; [reflexivity | now constructor].
    + intros (mid & post & -> & W).
      apply wildcard_letter_inv in W as (d & t & -> & L & W); [| assumption ..].
      simpl.
      rewrite (proj2 (letter_matches c d) L). simpl. apply IH. eauto.
Qed.

(** [occurs] is decided by the matcher on the escaped keyword. *)
Lemma occurs_escaped (keyword text : string) :
  occurs keyword text <-> RegExp.test true (escaped keyword) text = true.
Proof.
  rewrite test_spec. unfold occurs. split.
  - intros (pre & mid & post & -> & W). exists pre, (mid +:+ post).
    split; [reflexivity |]. apply matchHere_escaped. eauto.
  - intros (pre & suf & -> & M). apply matchHere_escaped in M as (mid & post & -> & W).
    eauto.
Qed.

(** Matching within a line is matching; on a text without line terminators
    the two agree. *)
Lemma wildcard_any (p s : string) : wildcard p s -> wildcardAny p s.
Proof. induction 1; constructor; assumption. Qed.

Lemma any_wildcard (p s : string) :
  wildcardAny p s -> noLineBreak s -> wildcard p s.
Proof.
  induction 1 as [| p run s W IH | p c s W IH | p c d s Hs Hq L W IH]; intros N.
  - constructor.
  - apply noLineBreak_app in N as [Nr Ns]. constructor; auto.
  - destruct N as [Nc Ns]. constructor; auto.
  - destruct N as [Nc Ns]. constructor; auto.
Qed.

Lemma occurs_any (keyword text : string) :
  occurs keyword text -> occursAny keyword text.
Proof.
  intros (pre & mid & post & E & W). exists pre, mid, post.
  split; [exact E | now apply wildcard_any].
Qed.

Lemma occursAny_one_line (keyword text : string) :
  noLineBreak text -> occursAny keyword text -> occurs keyword text.
Proof.
  intros N (pre & mid & post & -> & W). exists pre, mid, post.
  split; [reflexivity |]. apply any_wildcard; [exact W |].
  apply noLineBreak_app in N as [_ N]. now apply noLineBreak_app in N as [N _].
Qed.

(** A match survives more text on either side. *)
Lemma occurs_extend (keyword text pre post : string) :
  occurs keyword text -> occurs keyword (pre +:+ text +:+ post).
Proof.
  intros (a & mid & b & -> & W). exists (pre +:+ a), mid, (b +:+ post).
  split; [| exact W]. now rewrite !append_assoc.
Qed.

(** The source built from a plain keyword parses to the escaped
    expression: each [*] arrives with a dot of its own. *)
Lemma parse_plain (keyword : string) : forall acc,
  plain keyword = true ->
  RegExp.parse acc (wildcardSource keyword) =
  RegExp.Pattern (rev acc ++ escaped keyword).
Proof.
  unfold wildcardSource.
  induction keyword as [|c keyword IH]; intros acc P; simpl.
  - now rewrite app_nil_r.
  - simpl in P. apply andb_true_iff in P as [M P]. apply negb_true_iff in M.
    destruct (Ascii.eqb_spec c "*") as [-> | Hstar]; simpl.
    { rewrite IH by exact P. simpl. now rewrite <- app_assoc. }
    destruct (Ascii.eqb_spec c "?") as [-> | Hone]; simpl.
    { rewrite IH by exact P. simpl. now rewrite <- app_assoc. }
    unfold isMeta in M. apply orb_false_iff in M as [M S].
    apply orb_false_iff in M as [Hdot Hplus].
    rewrite (proj2 (Ascii.eqb_neq c "*") Hstar), Hplus, Hdot.
    rewrite (proj2 (Ascii.eqb_neq c "?") Hone) in S. simpl in S.
    rewrite andb_true_r in S. rewrite S.
    rewrite IH by exact P. simpl. now rewrite <- app_assoc.
Qed.

Lemma keywordTest_plain (text keyword : string) :
  plain keyword = true ->
  keywordTest text keyword = Value (RegExp.test true (escaped keyword) text).
Proof.
  intros P. unfold keywordTest, RegExp.compile. now rewrite parse_plain.
Qed.

End Wildcards.

(** ** The text filter *)

Section TextFilter.

Lemma everyO_values {A} (p : A -> outcome bool) (q : A -> bool) (l : list A) :
  (forall x, In x l -> p x = Value (q x)) ->
  everyO p l = Value (forallb q l).
Proof.
  induction l as [|x l IH]; intros H; simpl; [reflexivity |].
  rewrite (H x) by now left. simpl.
  destruct (q x); [| reflexivity]. apply IH. intros y Hy. apply H. now right.
Qed.

Lemma filterO_values {A} (p : A -> outcome bool) (q : A -> bool) (l : list A) :
  (forall x, In x l -> p x = Value (q x)) ->
  filterO p l = Value (List.filter q l).
Proof.
  induction l as [|x l IH]; intros H; simpl; [reflexivity |].
  rewrite (H x) by now left. simpl.
  rewrite IH by (intros y Hy; apply H; now right). reflexivity.
Qed.

Lemma noSpace_app (a b : string) :
  noSpace (a +:+ b) = noSpace a && noSpace b.
Proof.
  induction a as [|c a IH]; simpl; [reflexivity |].
  now rewrite IH, andb_assoc.
Qed.

(** The pieces of [split(/\s+/)] hold no white space. *)
Lemma splitWsFrom_noSpace (s : string) : forall cur inRun,
  noSpace cur = true ->
  Forall (fun k => noSpace k = true) (JS.splitWsFrom cur inRun s).
Proof.
  induction s as [|c s IH]; intros cur inRun H; simpl.
  - now constructor.
  - destruct (JS.isSpace c) eqn:E.
    + destruct inRun; [now apply IH |].
      constructor; [exact H | now apply IH].
    + apply IH. rewrite noSpace_app, H. simpl. now rewrite E.
Qed.

(** Keywords are non-empty and free of white space. *)
Lemma keywordsOf_shape (searchTerm kw : string) :
  In kw (keywordsOf searchTerm) -> kw <> "" /\ noSpace kw = true.
Proof.
  unfold keywordsOf. intros H. apply filter_In in H as [H N]. split.
  - intros ->. discriminate.
  - pose proof (splitWsFrom_noSpace (JS.toLowerCase searchTerm) "" false eq_refl) as F.
    rewrite List.Forall_forall in F. now apply F.
Qed.

Lemma trim_empty : JS.trim "" = "".
Proof. reflexivity. Qed.

(** With plain keywords the text filter is a plain [filter]. *)
Lemma textFilter_plain (q : string) (fs : list File.t) :
  (forall kw, In kw (keywordsOf (JS.trim q)) -> plain kw = true) ->
  textFilter q fs =
  Value (List.filter
           (fun f => forallb (fun kw => RegExp.test true (escaped kw) (searchText f))
                             (keywordsOf (JS.trim q))) fs).
Proof.
  intros P.
  assert (G : filterO (fun f => everyO (keywordTest (searchText f)) (keywordsOf (JS.trim q))) fs =
              Value (List.filter
                (fun f => forallb (fun kw => RegExp.test true (escaped kw) (searchText f))
                                  (keywordsOf (JS.trim q))) fs)).
  { apply filterO_values. intros f _. apply everyO_values.
    intros kw Hkw. now apply keywordTest_plain, P. }
  assert (E : forall l : list File.t, List.filter (fun _ => true) l = l).
  { induction l as [|x l IH]; simpl; [reflexivity | now rewrite IH]. }
  unfold textFilter.
  destruct (JS.truthy q) eqn:Tq.
  - destruct (JS.truthy (JS.trim q)) eqn:Tt; [exact G |].
    unfold JS.truthy in Tt. apply negb_false_iff, String.eqb_eq in Tt.
    rewrite Tt. simpl. now rewrite E.
  - unfold JS.truthy in Tq. apply negb_false_iff, String.eqb_eq in Tq.
    subst q. simpl. now rewrite E.
Qed.

Lemma queryFiles_textOnly (d : Data) (q : string) (found : list File.t) :
  textFilter q (List.filter File.active (files d)) = Value found ->
  queryFiles d (textOnly q) = Value found.
Proof. unfold queryFiles, textOnly. simpl. intros ->. reflexivity. Qed.

End TextFilter.

Section FileList.

Lemma lowerChar_keeps (c : ascii) :
  JS.isSpace (JS.lowerChar c) = JS.isSpace c /\
  isMeta (JS.lowerChar c) = isMeta c /\
  Ascii.eqb (JS.lowerChar c) "*" = Ascii.eqb c "*" /\
  Ascii.eqb (JS.lowerChar c) "?" = Ascii.eqb c "?".
Proof. destruct c as [[] [] [] [] [] [] [] []]; vm_compute; auto. Qed.

Lemma toLowerCase_app (a b : string) :
  JS.toLowerCase (a +:+ b) = JS.toLowerCase a +:+ JS.toLowerCase b.
Proof. induction a as [|c a IH]; simpl; [reflexivity | now rewrite IH]. Qed.

Lemma toLowerCase_shape (s : string) :
  noSpace (JS.toLowerCase s) = noSpace s /\
  plain (JS.toLowerCase s) = plain s /\
  noWildcard (JS.toLowerCase s) = noWildcard s.
Proof.
  induction s as [|c s (S & P & W)]; simpl; [auto |].
  destruct (lowerChar_keeps c) as (-> & -> & -> & ->). now rewrite S, P, W.
Qed.








Lemma categoryFilter_In (c : string) (fs : list File.t) (f : File.t) :
  In f (categoryFilter c fs) <->
  In f fs /\ (JS.truthy c = true -> String.eqb (File.category f) c = true).
Proof.
  unfold categoryFilter. destruct (JS.truthy c).
  - rewrite filter_In. tauto.
  - split; [intros H; split; [exact H | discriminate] | tauto].
Qed.

Lemma modelFilter_In (m : string) (fs : list File.t) (f : File.t) :
  In f (modelFilter m fs) <->
  In f fs /\ (JS.truthy m = true -> String.eqb (File.model f) m = true).
Proof.
  unfold modelFilter. destruct (JS.truthy m).
  - rewrite filter_In. tauto.
  - split; [intros H; split; [exact H | discriminate] | tauto].
Qed.

End FileList.

Section Keywords.

Lemma plain_app (a b : string) : plain (a +:+ b) = plain a && plain b.
Proof. induction a as [|c a IH]; simpl; [reflexivity | now rewrite IH, andb_assoc]. Qed.

Lemma noSpace_snoc (cur : string) (c : ascii) :
  noSpace cur = true -> JS.isSpace c = false ->
  noSpace (cur +:+ String c "") = true.
Proof.
  intros N C. induction cur as [|x cur IH]; simpl in *; [now rewrite C |].
  apply andb_true_iff in N as [Nx N]. now rewrite Nx, IH.
Qed.

(** The pieces of [split] that are not empty are the words of the text. *)
Lemma splitWsFrom_words (s : string) : forall cur inRun,
  (inRun = true -> cur = "") -> noSpace cur = true ->
  splitsInto (cur +:+ s)
    (List.filter (fun k => negb (String.eqb k "")) (JS.splitWsFrom cur inRun s)).
Proof.
  induction s as [|c s IH]; intros cur inRun R N; cbn [JS.splitWsFrom].
  - rewrite append_nil_r. cbn [List.filter].
    destruct (String.eqb_spec cur "") as [-> | Ne]; cbn [negb]; [constructor |].
    rewrite <- (append_nil_r cur) at 1. now constructor; [| | | constructor].
  - destruct (JS.isSpace c) eqn:C.
    + assert (Rest : splitsInto (String c s)
                       (List.filter (fun k => negb (String.eqb k ""))
                                    (JS.splitWsFrom "" true s))).
      { apply split_space; [exact C |]. apply (IH "" true); reflexivity. }
      destruct inRun.
      * rewrite (R eq_refl). exact Rest.
      * cbn [List.filter]. destruct (String.eqb_spec cur "") as [-> | Ne]; cbn [negb];
          [exact Rest |].
        apply split_word; [exact Ne | exact N | exact C | exact Rest].
    + replace (cur +:+ String c s) with ((cur +:+ String c "") +:+ s)
        by now rewrite append_assoc.
      apply IH; [discriminate | now apply noSpace_snoc].
Qed.

Lemma splitsInto_spaces (sp : string) : onlySpace sp = true -> splitsInto sp [].
Proof.
  induction sp as [|c sp IH]; simpl; [constructor |].
  intros [C S]%andb_true_iff. apply split_space; auto.
Qed.

Lemma splitsInto_trailing (s sp : string) (ws : list string) :
  splitsInto s ws -> onlySpace sp = true -> splitsInto (s +:+ sp) ws.
Proof.
  intros H S. induction H as [| c s ws C H IH | w s ws Ne N E H IH].
  - now apply splitsInto_spaces.
  - simpl. apply split_space; assumption.
  - rewrite append_assoc. apply split_word; try assumption.
    destruct s as [|c s]; [| exact E]. destruct sp as [|c sp]; [exact I |].
    simpl in S. now apply andb_true_iff in S as [C _].
Qed.

Lemma trimStart_words (t : string) (ws : list string) :
  splitsInto (JS.trimStart t) ws -> splitsInto t ws.
Proof.
  induction t as [|c t IH]; [auto |]. cbn [JS.trimStart].
  destruct (JS.isSpace c) eqn:C; [| auto]. intros H. apply split_space; auto.
Qed.

Lemma trimEnd_rest (t : string) :
  exists sp, onlySpace sp = true /\ t = JS.trimEnd t +:+ sp.
Proof.
  induction t as [|c t (sp & S & E)]; [now exists "" |].
  cbn [JS.trimEnd]. destruct (JS.trimEnd t) as [|d r] eqn:T.
  - destruct (JS.isSpace c) eqn:C.
    + exists (String c sp). simpl. rewrite C, S. split; [reflexivity |].
      simpl in E. now rewrite <- E.
    + exists sp. split; [exact S |]. simpl. simpl in E. now rewrite <- E.
  - exists sp. split; [exact S |]. simpl. simpl in E. now rewrite <- E.
Qed.

Lemma trim_words (t : string) (ws : list string) :
  splitsInto (JS.trim t) ws -> splitsInto t ws.
Proof.
  unfold JS.trim. intros H. apply trimStart_words.
  destruct (trimEnd_rest (JS.trimStart t)) as (sp & S & E). rewrite E.
  now apply splitsInto_trailing.
Qed.

Lemma toLowerCase_empty (s : string) : JS.toLowerCase s = "" -> s = "".
Proof. destruct s; [reflexivity | discriminate]. Qed.

Lemma toLowerCase_trimStart (s : string) :
  JS.toLowerCase (JS.trimStart s) = JS.trimStart (JS.toLowerCase s).
Proof.
  induction s as [|c s IH]; [reflexivity |]. cbn [JS.trimStart JS.toLowerCase].
  rewrite (proj1 (lowerChar_keeps c)). now destruct (JS.isSpace c).
Qed.

Lemma toLowerCase_trimEnd (s : string) :
  JS.toLowerCase (JS.trimEnd s) = JS.trimEnd (JS.toLowerCase s).
Proof.
  induction s as [|c s IH]; [reflexivity |]. cbn [JS.trimEnd JS.toLowerCase].
  rewrite <- IH, (proj1 (lowerChar_keeps c)).
  destruct (JS.trimEnd s) as [|d r]; cbn [JS.toLowerCase]; [| reflexivity].
  now destruct (JS.isSpace c).
Qed.

Lemma toLowerCase_trim (s : string) :
  JS.toLowerCase (JS.trim s) = JS.trim (JS.toLowerCase s).
Proof. unfold JS.trim. now rewrite toLowerCase_trimEnd, toLowerCase_trimStart. Qed.

(** The keywords of a search are the words of its lower-cased text. *)
Lemma keywordsOf_words (q : string) :
  splitsInto (JS.toLowerCase q) (keywordsOf (JS.trim q)).
Proof.
  apply trim_words. rewrite <- toLowerCase_trim. unfold keywordsOf, JS.splitWs.
  apply (splitWsFrom_words (JS.toLowerCase (JS.trim q)) "" false); [discriminate | reflexivity].
Qed.

(** A word is the longest stretch without white space at its place. *)
Lemma word_unique (w1 : string) : forall w2 s1 s2,
  noSpace w1 = true -> noSpace w2 = true -> wordEnds s1 -> wordEnds s2 ->
  w1 +:+ s1 = w2 +:+ s2 -> w1 = w2 /\ s1 = s2.
Proof.
  induction w1 as [|c w1 IH]; intros w2 s1 s2 N1 N2 E1 E2 E.
  - destruct w2 as [|d w2]; [now split |]. simpl in E. subst s1.
    simpl in E1, N2. apply andb_true_iff in N2 as [N2 _].
    rewrite E1 in N2. discriminate.
  - destruct w2 as [|d w2].
    + simpl in E. subst s2. simpl in E2, N1. apply andb_true_iff in N1 as [N1 _].
      rewrite E2 in N1. discriminate.
    + simpl in E. injection E as -> E. simpl in N1, N2.
      apply andb_true_iff in N1 as [_ N1]. apply andb_true_iff in N2 as [_ N2].
      destruct (IH w2 s1 s2 N1 N2 E1 E2 E) as [-> ->]. now split.
Qed.

Lemma splitsInto_inv (s : string) (ws : list string) :
  splitsInto s ws ->
  (s = "" /\ ws = []) \/
  (exists c s', s = String c s' /\ JS.isSpace c = true /\ splitsInto s' ws) \/
  (exists w r ws', s = w +:+ r /\ ws = w :: ws' /\ w <> "" /\ noSpace w = true /\
                   wordEnds r /\ splitsInto r ws').
Proof.
  intros H. destruct H as [| c s ws C H | w s ws Ne N E H].
  - now left.
  - right. left. eauto.
  - right. right. exists w, s, ws. auto 7.
Qed.

Lemma splitsInto_unique (s : string) (ws : list string) :
  splitsInto s ws -> forall ws', splitsInto s ws' -> ws' = ws.
Proof.
  intros H. induction H as [| c s ws C H IH | w s ws Ne N E H IH]; intros ws' H';
    apply splitsInto_inv in H'
      as [[Es ->] | [(c0 & s0 & Es & C0 & H0) | (w0 & r0 & ws0 & Es & -> & Ne0 & N0 & E0 & H0)]].
  - reflexivity.
  - discriminate.
  - destruct w0; [contradiction | discriminate].
  - discriminate.
  - injection Es as <- <-. now apply IH.
  - destruct w0 as [|d w0]; [contradiction |]. simpl in Es. injection Es as -> _.
    simpl in N0. apply andb_true_iff in N0 as [N0 _]. apply negb_true_iff in N0.
    congruence.
  - destruct w; [contradiction | discriminate].
  - destruct w as [|d w]; [contradiction |]. simpl in Es. injection Es as -> _.
    simpl in N. apply andb_true_iff in N as [N _]. apply negb_true_iff in N. congruence.
  - destruct (word_unique w0 w r0 s N0 N E0 E (eq_sym Es)) as [-> ->].
    f_equal. now apply IH.
Qed.

Lemma words_plain (s : string) (ws : list string) :
  splitsInto s ws -> plain s = true -> forall w, In w ws -> plain w = true.
Proof.
  intros H. induction H as [| c s ws C H IH | w s ws Ne N E H IH]; intros P x I.
  - destruct I.
  - simpl in P. apply andb_true_iff in P as [_ P]. now apply IH.
  - rewrite plain_app in P. apply andb_true_iff in P as [Pw Ps].
    destruct I as [<- | I]; [exact Pw | now apply IH].
Qed.

Lemma tagsFilter_In (ts : option (list string)) (fs : list File.t) (f : File.t) :
  In f (tagsFilter ts fs) <->
  In f fs /\ match ts with
             | None => True
             | Some l => exists t, In t l /\ In t (File.tags f)
             end.
Proof.
  destruct ts as [l |]; cbn [tagsFilter]; [| tauto].
  rewrite filter_In, existsb_exists. split.
  - intros [I (t & It & H)]. split; [exact I |]. exists t. split; [exact It |].
    unfold JS.includes in H. apply existsb_exists in H as (y & Iy & E).
    apply String.eqb_eq in E. now subst.
  - intros [I (t & It & H)]. split; [exact I |]. exists t. split; [exact It |].
    unfold JS.includes. apply existsb_exists. exists t. split; [exact H | apply String.eqb_refl].
Qed.

Lemma otherFilters_In (q : Filters) (fs : list File.t) (f : File.t) :
  In f (modelFilter (q_model q) (tagsFilter (q_tags q) (categoryFilter (q_category q) fs))) <->
  In f fs /\ passes q f.
Proof.
  rewrite modelFilter_In, tagsFilter_In, categoryFilter_In. unfold passes, JS.truthy.
  destruct (String.eqb_spec (q_category q) "") as [Ec | Nc];
    destruct (String.eqb_spec (q_model q) "") as [Em | Nm]; cbn [negb];
    rewrite ?String.eqb_eq; intuition congruence.
Qed.

End Keywords.

(** C4, as the code has it.  The text of a search is trimmed, lower-cased
    and split on white space into non-empty keywords: the keywords are the
    words of the lower-cased text, in their order.  A keyword becomes a
    regular expression by writing [.*] for [*] and [.] for [?]; nothing else
    is escaped.  For a text that holds no other character with a meaning in
    regular expressions, the search (the route and [DataManager.getFiles]
    alike) returns a file exactly when it is active, every keyword matches
    some stretch of the lower-cased, space-joined title, description,
    original name, background, prompt and category, with [*] for any run of
    characters within a line, [?] for one such character, and letters
    compared without case, and the file passes the category, tag and model
    filters of the query.  On a text without line terminators this is the
    matching of the specification, word for word. *)
Theorem search_text_plain_keywords (d : Data) (q : Filters) :
  plain (search q) = true ->
  exists keywords found,
    splitsInto (JS.toLowerCase (search q)) keywords /\
    (forall ws, splitsInto (JS.toLowerCase (search q)) ws -> ws = keywords) /\
    (forall f, searchText f =
               JS.toLowerCase (File.title f +:+ " " +:+ File.description f +:+ " " +:+
                               File.originalName f +:+ " " +:+ File.background f +:+ " " +:+
                               File.prompt f +:+ " " +:+ File.category f)) /\
    (forall st, Server.loadData st = d -> Server.getFiles q st = Value found) /\
    (forall dm, DataManager.data dm = d -> DataManager.getFiles q dm = Value found) /\
    (forall f, In f found <->
               In f (files d) /\ File.active f = true /\
               (forall kw, In kw keywords -> occurs kw (searchText f)) /\
               passes q f) /\
    (forall f, noLineBreak (searchText f) ->
               In f found <->
               In f (files d) /\ File.active f = true /\
               (forall kw, In kw keywords -> occursAny kw (searchText f)) /\
               passes q f).
Proof.
  intros P.
  pose proof (keywordsOf_words (search q)) as W.
  assert (Pk : forall kw, In kw (keywordsOf (JS.trim (search q))) -> plain kw = true).
  { apply (words_plain _ _ W). now rewrite (proj1 (proj2 (toLowerCase_shape (search q)))). }
  pose proof (textFilter_plain (search q) (List.filter File.active (files d)) Pk) as T.
  assert (Q : queryFiles d q =
              Value (modelFilter (q_model q) (tagsFilter (q_tags q)
                       (categoryFilter (q_category q)
                          (List.filter
                             (fun f => forallb (fun kw => RegExp.test true (escaped kw)
                                                                      (searchText f))
                                               (keywordsOf (JS.trim (search q))))
                             (List.filter File.active (files d))))))).
  { unfold queryFiles. now rewrite T. }
  exists (keywordsOf (JS.trim (search q))). eexists.
  split; [exact W |].
  split; [intros ws H; now apply (splitsInto_unique _ _ W) |].
  split; [reflexivity |].
  split; [intros st E; unfold Server.getFiles; rewrite E; exact Q |].
  split; [intros dm E; unfold DataManager.getFiles; rewrite E, Q; reflexivity |].
  assert (M : forall f,
             In f (modelFilter (q_model q) (tagsFilter (q_tags q)
                     (categoryFilter (q_category q)
                        (List.filter
                           (fun f => forallb (fun kw => RegExp.test true (escaped kw)
                                                                    (searchText f))
                                             (keywordsOf (JS.trim (search q))))
                           (List.filter File.active (files d)))))) <->
             In f (files d) /\ File.active f = true /\
             (forall kw, In kw (keywordsOf (JS.trim (search q))) ->
                         occurs kw (searchText f)) /\
             passes q f).
  { intros f. rewrite otherFilters_In, !filter_In, forallb_forall. split.
    - intros [[[I A] K] O]. repeat split; try assumption; try apply O.
      intros kw Hkw. apply occurs_escaped. now apply K.
    - intros (I & A & K & O). repeat split; try assumption; try apply O.
      intros kw Hkw. apply occurs_escaped. now apply K. }
  split; [exact M |]. intros f N. rewrite M. split.
  - intros (I & A & K & O). repeat split; try assumption; try apply O.
    intros kw Hkw. now apply occurs_any, K.
  - intros (I & A & K & O). repeat split; try assumption; try apply O.
    intros kw Hkw. now apply occursAny_one_line, K.
Qed.

(** The hypothesis is met by the search for "Foo  bar" among two files:
    the keywords are "foo" and "bar", and the file that holds both, in the
    other order, is the one returned. *)
Lemma search_text_plain_keywords_witness :
  let f := titled "1" "Bar and Foo" in
  let g := titled "2" "foo only" in
  exists keywords found,
    splitsInto "foo  bar" keywords /\
    DataManager.getFiles (textOnly "Foo  bar") (DataManager.mk (holding [f; g]) None true) =
      Value found /\
    (In f found <-> forall kw, In kw keywords -> occurs kw (searchText f)).
Proof.
  intros f g.
  destruct (search_text_plain_keywords (holding [f; g]) (textOnly "Foo  bar") eq_refl)
    as (keywords & found & W & _ & _ & _ & D & M & _).
  exists keywords, found. split; [exact W |]. split; [now apply D |].
  rewrite M. split; [tauto |].
  intros K. split; [now left |]. split; [reflexivity |]. split; [exact K |].
  unfold passes. simpl. tauto.
Defined.

(** C4, against the claim.  The dot of the keyword "a.c" is not escaped:
    the file titled "abc" is returned although the keyword, read with every
    character but [*] and [?] standing for itself, matches no stretch of its
    text.  And the [*] of "a*b" does not stand for a line break: the file
    whose title is "a", a line feed, "b" is not returned although the keyword
    matches its text when [*] is any run of characters. *)
Lemma search_dot_not_escaped :
  let f := titled "1" "abc" in
  let g := titled "2" (String "a" (String (ascii_of_nat 10) "b")) in
  DataManager.getFiles (textOnly "a.c") (DataManager.mk (holding [f]) None true)
    = Value [f] /\
  File.active f = true /\
  ~ occursAny "a.c" (searchText f) /\
  DataManager.getFiles (textOnly "a*b") (DataManager.mk (holding [g]) None true)
    = Value [] /\
  File.active g = true /\
  occursAny "a*b" (searchText g).
Proof.
  intros f g. split; [reflexivity |]. split; [reflexivity |]. split.
  - intros H. apply occursAny_one_line in H; [| vm_compute; tauto].
    apply occurs_escaped in H. vm_compute in H. discriminate H.
  - split; [reflexivity |]. split; [reflexivity |].
    exists "", (String "a" (String (ascii_of_nat 10) "b")), "     ".
    split; [reflexivity |].
    apply any_letter; [discriminate | discriminate | reflexivity |].
    apply (any_star "b" (String (ascii_of_nat 10) "") "b").
    apply any_letter; [discriminate | discriminate | reflexivity |].
    constructor.
Qed.

(** ** The two wildcards on small texts *)

Section Examples.

Lemma searchText_inner (f : File.t) (x : string) :
  innerField x f -> exists a b, searchText f = a +:+ (JS.toLowerCase x +:+ " ") +:+ b.
Proof.
  assert (M : forall pre y post whole,
             whole = pre +:+ (y +:+ " ") +:+ post ->
             exists a b, JS.toLowerCase whole = a +:+ (JS.toLowerCase y +:+ " ") +:+ b).
  { intros pre y post whole ->. exists (JS.toLowerCase pre), (JS.toLowerCase post).
    now rewrite !toLowerCase_app. }
  unfold searchText. cbn [JS.join].
  set (t := File.title f). set (d := File.description f). set (o := File.originalName f).
  set (g := File.background f). set (p := File.prompt f). set (c := File.category f).
  intros [-> | [-> | [-> | [-> | ->]]]].
  - apply (M "" t (d +:+ " " +:+ o +:+ " " +:+ g +:+ " " +:+ p +:+ " " +:+ c)).
    simpl. now rewrite !append_assoc.
  - apply (M (t +:+ " ") d (o +:+ " " +:+ g +:+ " " +:+ p +:+ " " +:+ c)).
    now rewrite !append_assoc.
  - apply (M (t +:+ " " +:+ d +:+ " ") o (g +:+ " " +:+ p +:+ " " +:+ c)).
    now rewrite !append_assoc.
  - apply (M (t +:+ " " +:+ d +:+ " " +:+ o +:+ " ") g (p +:+ " " +:+ c)).
    now rewrite !append_assoc.
  - apply (M (t +:+ " " +:+ d +:+ " " +:+ o +:+ " " +:+ g +:+ " ") p c).
    now rewrite !append_assoc.
Qed.

Lemma searchText_last (f : File.t) :
  exists a, searchText f = a +:+ JS.toLowerCase (File.category f).
Proof.
  unfold searchText. cbn [JS.join].
  exists (JS.toLowerCase (File.title f +:+ " " +:+ File.description f +:+ " " +:+
                          File.originalName f +:+ " " +:+ File.background f +:+ " " +:+
                          File.prompt f +:+ " ")).
  now rewrite <- toLowerCase_app, !append_assoc.
Qed.

(** A keyword that occurs in a field occurs in the text of the file; one
    that occurs in a field and the space after it does so for the five
    fields that another field follows. *)
Lemma occurs_in_searchField (kw x : string) (f : File.t) :
  searchField x f -> occurs kw (JS.toLowerCase x) -> occurs kw (searchText f).
Proof.
  intros [I | ->] O.
  - destruct (searchText_inner f x I) as (a & b & ->).
    apply occurs_extend. rewrite <- (append_nil_r (JS.toLowerCase x +:+ " ")).
    rewrite append_assoc. now apply (occurs_extend kw _ "" (" " +:+ "")).
  - destruct (searchText_last f) as (a & ->).
    rewrite <- (append_nil_r (JS.toLowerCase (File.category f))).
    now apply occurs_extend.
Qed.

Lemma occurs_in_innerField (kw x : string) (f : File.t) :
  innerField x f -> occurs kw (JS.toLowerCase x +:+ " ") -> occurs kw (searchText f).
Proof.
  intros I O. destruct (searchText_inner f x I) as (a & b & ->). now apply occurs_extend.
Qed.

(** A search of one plain keyword returns the active files whose text the
    keyword occurs in. *)
Lemma finds_one_keyword (kw : string) (d : Data) (f : File.t) :
  keywordsOf (JS.trim kw) = [kw] -> plain kw = true ->
  In f (files d) -> File.active f = true ->
  finds kw d f <-> occurs kw (searchText f).
Proof.
  intros K P I A.
  assert (T : queryFiles d (textOnly kw) =
              Value (List.filter
                       (fun f => forallb (fun k => RegExp.test true (escaped k) (searchText f))
                                         [kw])
                       (List.filter File.active (files d)))).
  { apply queryFiles_textOnly. rewrite textFilter_plain; [now rewrite K |].
    rewrite K. intros k [<- | []]. exact P. }
  assert (M : In f (List.filter
                      (fun f => forallb (fun k => RegExp.test true (escaped k) (searchText f))
                                        [kw])
                      (List.filter File.active (files d))) <-> occurs kw (searchText f)).
  { rewrite !filter_In. cbn [forallb]. rewrite andb_true_r, occurs_escaped. tauto. }
  split.
  - intros (found & _ & D & F).
    specialize (D (DataManager.mk d None true) eq_refl).
    unfold DataManager.getFiles in D. cbn [DataManager.data] in D. rewrite T in D.
    injection D as <-. now apply M.
  - intros O. eexists. split; [| split].
    + intros st E. unfold Server.getFiles. rewrite E. exact T.
    + intros dm E. unfold DataManager.getFiles. rewrite E, T. reflexivity.
    + now apply M.
Qed.

End Examples.

(** C5, as the code has it.  The search for "fo?" returns an active file
    one of whose fields (title, description, original name, background,
    prompt, category) is "foo" or "for".  It returns a file with a field
    "fooo" as well, because a match may begin and end anywhere in the text.
    It returns a file whose title, description, original name, background or
    prompt is "fo": the fields are joined by spaces and [?] takes the space
    after the field.  It does not return a file whose only text is the
    category "fo", the last field, where nothing follows.  The search for
    "f*r" returns a file with a field "for", "falter" or "fr".  For every
    active file the two searches decide the wildcard matching, within a
    line, on the text of the file. *)
Theorem wildcard_examples (d : Data) (f : File.t) :
  In f (files d) -> File.active f = true ->
  (searchField "foo" f \/ searchField "for" f \/ searchField "fooo" f ->
   finds "fo?" d f) /\
  (innerField "fo" f -> finds "fo?" d f) /\
  (File.title f = "" -> File.description f = "" -> File.originalName f = "" ->
   File.background f = "" -> File.prompt f = "" -> File.category f = "fo" ->
   ~ finds "fo?" d f) /\
  (searchField "for" f \/ searchField "falter" f \/ searchField "fr" f ->
   finds "f*r" d f) /\
  (finds "fo?" d f <-> occurs "fo?" (searchText f)) /\
  (finds "f*r" d f <-> occurs "f*r" (searchText f)).
Proof.
  intros I A.
  pose proof (finds_one_keyword "fo?" d f eq_refl eq_refl I A) as Q.
  pose proof (finds_one_keyword "f*r" d f eq_refl eq_refl I A) as S.
  assert (O : forall kw text, RegExp.test true (escaped kw) text = true -> occurs kw text)
    by (intros kw text H; now apply occurs_escaped).
  split; [| split; [| split; [| split; [| split; [exact Q | exact S]]]]].
  - intros [H | [H | H]]; apply Q;
      (eapply occurs_in_searchField; [exact H | now apply O]).
  - intros H. apply Q. eapply occurs_in_innerField; [exact H | now apply O].
  - intros T D N B P C H. apply Q in H. apply occurs_escaped in H.
    unfold searchText in H. rewrite T, D, N, B, P, C in H. discriminate H.
  - intros [H | [H | H]]; apply S;
      (eapply occurs_in_searchField; [exact H | now apply O]).
Qed.

(** The hypotheses are met by the one file of a catalog, titled "foo". *)
Lemma wildcard_examples_witness :
  finds "fo?" (holding [titled "1" "foo"]) (titled "1" "foo").
Proof.
  destruct (wildcard_examples (holding [titled "1" "foo"]) (titled "1" "foo")
              (or_introl eq_refl) eq_refl) as (H & _).
  apply H. left. left. now left.
Defined.

(** C5, against the claim: the search for "fo?" returns the file titled
    "fooo", and it returns the file titled "fo", whose text is "fo" and the
    five spaces that join its fields. *)
Lemma question_mark_finds_fooo_and_fo :
  let f := titled "1" "fooo" in
  let g := titled "2" "fo" in
  DataManager.getFiles (textOnly "fo?") (DataManager.mk (holding [f; g]) None true) =
    Value [f; g] /\
  Server.getFiles (textOnly "fo?") (Server.mkStore (Some (holding [f; g])) true) =
    Value [f; g] /\
  searchText g = "fo     ".
Proof. intros f g. repeat split. Qed.

(** ** The statistics *)

Section Stats.

Lemma categorySet_from (fs : list File.t) : forall (acc : gset string) (c : string),
  c ∈ foldl (fun acc f =>
               if JS.truthy (File.category f) then acc ∪ {[ File.category f ]}
               else acc) acc fs <->
  c ∈ acc \/ (c <> "" /\ exists f, In f fs /\ File.category f = c).
Proof.
  induction fs as [|f fs IH]; intros acc c; simpl.
  - split; [now left |]. intros [H | (_ & f & [] & _)]. exact H.
  - rewrite IH. unfold JS.truthy.
    destruct (String.eqb_spec (File.category f) "") as [E | E]; simpl.
    + split.
      * intros [H | (N & g & I & G)]; [now left | right; eauto].
      * intros [H | (N & g & [-> | I] & G)]; [now left | congruence | right; eauto].
    + rewrite elem_of_union, elem_of_singleton. split.
      * intros [[H | ->] | (N & g & I & G)]; [now left | right; eauto | right; eauto].
      * intros [H | (N & g & [-> | I] & G)]; [tauto | subst c; tauto | right; eauto].
Qed.

(** The category set holds the non-empty categories found on the files. *)
Lemma categorySet_spec (fs : list File.t) (c : string) :
  c ∈ categorySet fs <-> c <> "" /\ exists f, In f fs /\ File.category f = c.
Proof.
  unfold categorySet. rewrite categorySet_from. rewrite elem_of_empty. tauto.
Qed.

Lemma updateStats_countsFiles (now : Z) (d : Data) : countsFiles (updateStats now d).
Proof. reflexivity. Qed.

End Stats.

(** C6, as the code has it.  [updateStats] rescans the document and touches
    nothing but the statistics and the time stamp: [totalFiles] is the number
    of files whose status is not deleted, [totalTags] and [totalModels] are
    the numbers of tag and model entries, and [totalCategories] is the
    number of distinct non-empty category values found on the files of the
    document, whatever their status; the category entries are not counted.
    [DataManager.saveData] leaves these statistics in memory. *)
Theorem stats_recomputed (now : Z) (d : Data) :
  let d' := updateStats now d in
  files d' = files d /\ preset_tags d' = preset_tags d /\
  preset_models d' = preset_models d /\ categories d' = categories d /\
  Settings.totalFiles (settings d') = length (List.filter File.active (files d)) /\
  Settings.totalTags (settings d') = length (default [] (preset_tags d)) /\
  Settings.totalModels (settings d') = length (default [] (preset_models d)) /\
  (exists names : gset string,
      Settings.totalCategories (settings d') = size names /\
      forall c, c ∈ names <-> c <> "" /\ exists f, In f (files d) /\ File.category f = c) /\
  (forall stored quota,
      DataManager.getStats (fst (DataManager.saveData now (DataManager.mk d stored quota)))
      = settings d').
Proof.
  simpl. repeat split; try reflexivity.
  - exists (categorySet (files d)). split; [reflexivity |]. apply categorySet_spec.
  - intros stored quota. unfold DataManager.saveData. simpl. now destruct quota.
Qed.

(** C6, against the claim: after a category has been created in an empty
    catalog there is one category entry and [totalCategories] is 0; and a
    deleted file still adds its category to the count. *)
Lemma totalCategories_ignores_entries :
  let st := fst (Server.addCategory 1700000000000 (mkPresetReq "Games" "" "")
                   (Server.mkStore None true)) in
  let d := Server.loadData st in
  length (default [] (categories d)) = 1 /\
  Settings.totalCategories (settings d) = 0 /\
  Settings.totalCategories
    (settings (updateStats 0 (holding [File.setStatus "deleted" (titled "1" "t");
                                       File.mk "2" "" "" 0 0 0 "" "" "Tools" "" "" "" []
                                               "deleted" None]))) = 1.
Proof. vm_compute. repeat split. Qed.

(** ** Creating presets *)

Section Create.

Lemma truthy_true (s : string) : s <> "" -> JS.truthy s = true.
Proof.
  intros H. unfold JS.truthy. now destruct (String.eqb_spec s "").
Qed.

Lemma truthy_false (s : string) : s = "" -> JS.truthy s = false.
Proof. now intros ->. Qed.

End Create.

(** C7, as the code has it.  The create operations look at the requested
    name only to refuse an empty one.  With a non-empty name and a write that
    succeeds, the route and the [DataManager] method alike append the new
    entity to its collection and return it, whatever names the collection
    already holds: the names afterwards are the names before followed by the
    requested name. *)
Theorem create_appends_whatever_exists
    (now : Z) (r : PresetReq) (st : Server.Store) (dm : DataManager.t) :
  r_name r <> "" -> Server.writable st = true -> DataManager.quota dm = true ->
  (exists st', Server.addTag now r st = (st', Server.Json (newTag now r)) /\
               tagNames (Server.loadData st') = tagNames (Server.loadData st) ++ [r_name r]) /\
  (exists st', Server.addModel now r st = (st', Server.Json (newModel now r)) /\
               modelNames (Server.loadData st') = modelNames (Server.loadData st) ++ [r_name r]) /\
  (exists st', Server.addCategory now r st = (st', Server.Json (newCategory now r)) /\
               categoryNames (Server.loadData st') =
               categoryNames (Server.loadData st) ++ [r_name r]) /\
  (exists dm', DataManager.addTag now r dm = (dm', DataManager.Returns (newTag now r)) /\
               tagNames (DataManager.data dm') = tagNames (DataManager.data dm) ++ [r_name r]) /\
  (exists dm', DataManager.addModel now r dm = (dm', DataManager.Returns (newModel now r)) /\
               modelNames (DataManager.data dm') =
               modelNames (DataManager.data dm) ++ [r_name r]) /\
  (exists dm', DataManager.addCategory now r dm =
               (dm', DataManager.Returns (newCategory now r)) /\
               categoryNames (DataManager.data dm') =
               categoryNames (DataManager.data dm) ++ [r_name r]) /\
  (forall r0, r_name r0 = "" ->
      Server.addTag now r0 st = (st, Server.Fail 400 EmptyName) /\
      Server.addModel now r0 st = (st, Server.Fail 400 EmptyName) /\
      Server.addCategory now r0 st = (st, Server.Fail 400 EmptyName) /\
      DataManager.addTag now r0 dm = (dm, DataManager.Raises EmptyName) /\
      DataManager.addModel now r0 dm = (dm, DataManager.Raises EmptyName) /\
      DataManager.addCategory now r0 dm = (dm, DataManager.Raises EmptyName)).
Proof.
  intros N W Q.
  unfold Server.addTag, Server.addModel, Server.addCategory, Server.reply,
    Server.saveData, DataManager.addTag, DataManager.addModel,
    DataManager.addCategory, DataManager.commit, DataManager.saveData.
  rewrite (truthy_true _ N), W. simpl. rewrite Q.
  repeat split.
  - eexists. split; [reflexivity |]. unfold tagNames. simpl. now rewrite List.map_app.
  - eexists. split; [reflexivity |]. unfold modelNames. simpl. now rewrite List.map_app.
  - eexists. split; [reflexivity |]. unfold categoryNames. simpl. now rewrite List.map_app.
  - eexists. split; [reflexivity |]. unfold tagNames. simpl. now rewrite List.map_app.
  - eexists. split; [reflexivity |]. unfold modelNames. simpl. now rewrite List.map_app.
  - eexists. split; [reflexivity |]. unfold categoryNames. simpl. now rewrite List.map_app.
  - now rewrite (truthy_false _ H).
  - now rewrite (truthy_false _ H).
  - now rewrite (truthy_false _ H).
  - now rewrite (truthy_false _ H).
  - now rewrite (truthy_false _ H).
  - now rewrite (truthy_false _ H).
Qed.

(** The hypotheses are met by the request for a tag "UI" on a writable
    store and a manager with free quota. *)
Lemma create_appends_whatever_exists_witness :
  let r := mkPresetReq "UI" "" "" in
  let st := Server.mkStore None true in
  let dm := DataManager.mk (holding []) None true in
  exists st', Server.addTag 1700000000000 r st = (st', Server.Json (newTag 1700000000000 r)) /\
              tagNames (Server.loadData st') = tagNames (Server.loadData st) ++ ["UI"].
Proof.
  intros r st dm.
  apply (create_appends_whatever_exists 1700000000000 r st dm);
    [discriminate | reflexivity | reflexivity].
Defined.

(** C7, against the claim: a second tag named "UI" is created beside the
    first; the request succeeds and the collection then holds the name
    twice. *)
Lemma duplicate_name_is_created :
  let st := Server.mkStore
              (Some (withTags [Tag.mk "tag_1" "UI" "#3498db" "" 1 0] Server.defaultData))
              true in
  let r := mkPresetReq "UI" "" "" in
  In "UI" (tagNames (Server.loadData st)) /\
  snd (Server.addTag 1700000000000 r st) = Server.Json (newTag 1700000000000 r) /\
  tagNames (Server.loadData (fst (Server.addTag 1700000000000 r st))) = ["UI"; "UI"].
Proof. vm_compute. repeat split. now left. Qed.

(** ** Identifiers of presets *)

Section Identifiers.






End Identifiers.



(** ** Soft delete *)

Section SoftDelete.

Variable ident : string.

Lemma setStatus_id (s : string) (g : File.t) : File.id (File.setStatus s g) = File.id g.
Proof. reflexivity. Qed.

Lemma setStatus_deleted_inactive (g : File.t) :
  File.active (File.setStatus "deleted" g) = false.
Proof. reflexivity. Qed.

Lemma setStatus_same (g : File.t) :
  File.active g = false -> File.setStatus "deleted" g = g.
Proof.
  unfold File.active. intros H. apply negb_false_iff, String.eqb_eq in H.
  destruct g; simpl in *. now subst.
Qed.

Lemma markDeleted_ids (l : list File.t) :
  List.map File.id (markDeleted ident l) = List.map File.id l.
Proof.
  unfold markDeleted. rewrite List.map_map. apply List.map_ext.
  intros g. now destruct (String.eqb (File.id g) ident).
Qed.

(** Without a file of that identifier nothing is marked. *)
Lemma markDeleted_absent (l : list File.t) :
  ~ In ident (List.map File.id l) -> markDeleted ident l = l.
Proof.
  induction l as [|x l IH]; simpl; intros H; [reflexivity |].
  destruct (String.eqb_spec (File.id x) ident) as [E | E]; [tauto |].
  rewrite IH by tauto. reflexivity.
Qed.

(** [findIndex] finds the file, and changing the file at that index is
    marking by identifier, when identifiers are unique. *)
Lemma alter_found (l : list File.t) (f : File.t) :
  NoDup (List.map File.id l) -> In f l -> File.id f = ident ->
  exists i, JS.findIndex (fun g => String.eqb (File.id g) ident) l = Some i /\
            alter (File.setStatus "deleted") i l = markDeleted ident l.
Proof.
  induction l as [|x l IH]; intros N I E; [contradiction |].
  cbn [List.map] in N. apply NoDup_cons in N as [Nx N].
  cbn [JS.findIndex]. unfold markDeleted. cbn [List.map]. fold (markDeleted ident l).
  destruct (String.eqb_spec (File.id x) ident) as [Ex | Ex].
  - exists 0. split; [reflexivity |].
    rewrite markDeleted_absent; [reflexivity |].
    rewrite <- Ex. now rewrite <- list_elem_of_In.
  - destruct I as [-> | I]; [contradiction |].
    destruct (IH N I E) as (i & F & A). exists (S i). rewrite F. split; [reflexivity |].
    rewrite <- A. reflexivity.
Qed.

Lemma markDeleted_inactive (l : list File.t) (g : File.t) :
  In g (markDeleted ident l) -> File.id g = ident -> File.active g = false.
Proof.
  unfold markDeleted. rewrite in_map_iff. intros (x & <- & _).
  destruct (String.eqb_spec (File.id x) ident) as [E | E]; [reflexivity | contradiction].
Qed.

Lemma markDeleted_holds (l : list File.t) (f : File.t) :
  In f l -> File.id f = ident -> In (File.setStatus "deleted" f) (markDeleted ident l).
Proof.
  intros I E. unfold markDeleted. apply in_map_iff. exists f. split; [| exact I].
  now rewrite E, String.eqb_refl.
Qed.

(** Marking an active file takes exactly one file out of the active ones. *)
Lemma markDeleted_count (l : list File.t) (f : File.t) :
  NoDup (List.map File.id l) -> In f l -> File.id f = ident -> File.active f = true ->
  length (List.filter File.active (markDeleted ident l)) + 1 =
  length (List.filter File.active l).
Proof.
  induction l as [|x l IH]; simpl; intros N I E A; [contradiction |].
  apply NoDup_cons in N as [Nx N]. rewrite list_elem_of_In in Nx.
  destruct (String.eqb_spec (File.id x) ident) as [Ex | Ex].
  - assert (x = f) as ->.
    { destruct I as [-> | I]; [reflexivity |]. exfalso. apply Nx.
      rewrite Ex, <- E. now apply in_map. }
    rewrite A. simpl. rewrite markDeleted_absent by now rewrite <- E.
    lia.
  - destruct I as [-> | I]; [contradiction |].
    specialize (IH N I E A). destruct (File.active x); simpl; lia.
Qed.

(** Marking a file that is deleted already changes nothing. *)
Lemma markDeleted_noop (l : list File.t) (f : File.t) :
  NoDup (List.map File.id l) -> In f l -> File.id f = ident -> File.active f = false ->
  markDeleted ident l = l.
Proof.
  induction l as [|x l IH]; simpl; intros N I E A; [reflexivity |].
  apply NoDup_cons in N as [Nx N]. rewrite list_elem_of_In in Nx.
  destruct (String.eqb_spec (File.id x) ident) as [Ex | Ex].
  - assert (x = f) as ->.
    { destruct I as [-> | I]; [reflexivity |]. exfalso. apply Nx.
      rewrite Ex, <- E. now apply in_map. }
    rewrite setStatus_same by exact A.
    fold (markDeleted ident l). now rewrite markDeleted_absent by now rewrite <- E.
  - destruct I as [-> | I]; [contradiction |].
    fold (markDeleted ident l). now rewrite (IH N I E A).
Qed.

Lemma markDeleted_twice (l : list File.t) :
  markDeleted ident (markDeleted ident l) = markDeleted ident l.
Proof.
  unfold markDeleted. rewrite List.map_map. apply List.map_ext. intros g.
  destruct (String.eqb_spec (File.id g) ident) as [E | E]; simpl.
  - now rewrite E, String.eqb_refl.
  - now destruct (String.eqb_spec (File.id g) ident).
Qed.

Lemma findIndexed_none {A} (p : A -> bool) (l : list A) :
  (forall x, In x l -> p x = false) -> findIndexed p l = None.
Proof.
  induction l as [|x l IH]; simpl; intros H; [reflexivity |].
  rewrite (H x) by now left. rewrite IH; [reflexivity |].
  intros y Hy. apply H. now right.
Qed.

(** Without filters the query returns the active files. *)
Lemma queryFiles_noFilters (d : Data) :
  queryFiles d noFilters = Value (List.filter File.active (files d)).
Proof. reflexivity. Qed.

End SoftDelete.

(** C8, as the code has it.  In a catalog whose file identifiers are unique,
    deleting the file [f] through [DELETE /api/files/:id] (with the delete password, on a store
    that can be written) succeeds and sets the status of [f] to deleted,
    leaving every other file and every preset as it is.  Afterwards the
    unfiltered file list holds no file of that identifier, fetching the file
    answers 404, and, when [f] was active and the statistics counted the
    files, [totalFiles] is exactly one less.  When [f] was deleted already
    the files are unchanged; in particular a second delete succeeds and
    leaves files and statistics as the first one left them. *)
Theorem soft_delete_hides_the_file
    (now : Z) (ident : string) (f : File.t) (st : Server.Store) :
  let d := Server.loadData st in
  Server.writable st = true ->
  NoDup (List.map File.id (files d)) ->
  In f (files d) -> File.id f = ident ->
  exists st',
    Server.deleteFile now ident "wind" st = (st', Server.Json tt) /\
    let d' := Server.loadData st' in
    files d' = markDeleted ident (files d) /\
    In (File.setStatus "deleted" f) (files d') /\
    preset_tags d' = preset_tags d /\
    preset_models d' = preset_models d /\
    categories d' = categories d /\
    (File.active f = false -> files d' = files d) /\
    (exists found, Server.getFiles noFilters st' = Value found /\
                   forall g, In g found -> File.id g <> ident) /\
    (File.active f = true -> countsFiles d ->
     Settings.totalFiles (settings d') + 1 = Settings.totalFiles (settings d)) /\
    (forall now', Server.getFile now' ident st' = (st', Server.Fail 404 FileNotFound)) /\
    (forall now', exists st'',
        Server.deleteFile now' ident "wind" st' = (st'', Server.Json tt) /\
        files (Server.loadData st'') = files d' /\
        settings (Server.loadData st'') = settings d').
Proof.
  intros d W N I E.
  destruct (alter_found ident (files d) f N I E) as (i & F & A).
  assert (D : forall (now0 : Z) (st0 : Server.Store) (j : nat),
             Server.writable st0 = true ->
             JS.findIndex (fun g => String.eqb (File.id g) ident)
                          (files (Server.loadData st0)) = Some j ->
             Server.deleteFile now0 ident "wind" st0 =
             (Server.mkStore
                (Some (updateStats now0
                   (withFiles (alter (File.setStatus "deleted") j
                                     (files (Server.loadData st0)))
                              (Server.loadData st0)))) true,
              Server.Json tt)).
  { intros now0 st0 j W0 F0. unfold Server.deleteFile.
    change (negb (String.eqb "wind" "wind")) with false. cbv iota.
    rewrite F0. unfold Server.reply, Server.saveData. now rewrite W0. }
  pose proof (D now st i W F) as D0. fold d in D0. pose proof D as D1.
  rewrite A in D0. clear D.
  set (st1 := Server.mkStore
                (Some (updateStats now (withFiles (markDeleted ident (files d)) d))) true)
    in *.
  assert (L : files (Server.loadData st1) = markDeleted ident (files d)) by reflexivity.
  exists st1. split; [exact D0 |]. cbv zeta. rewrite L.
  split; [reflexivity |].
  split; [now apply markDeleted_holds |].
  split; [reflexivity |]. split; [reflexivity |]. split; [reflexivity |].
  split; [intros Af; now apply (markDeleted_noop ident _ f) |].
  split.
  { exists (List.filter File.active (markDeleted ident (files d))).
    split; [reflexivity |]. intros g G Eg. apply filter_In in G as [G Ag].
    rewrite (markDeleted_inactive ident _ g G Eg) in Ag. discriminate. }
  split.
  { intros Af C. unfold countsFiles in C. rewrite C.
    change (Settings.totalFiles (settings (Server.loadData st1)))
      with (length (List.filter File.active (markDeleted ident (files d)))).
    now apply (markDeleted_count ident _ f). }
  split.
  { intros now'. unfold Server.getFile. rewrite L.
    rewrite findIndexed_none; [reflexivity |].
    intros g G. destruct (String.eqb_spec (File.id g) ident) as [Eg | Eg]; [| reflexivity].
    simpl. now rewrite (markDeleted_inactive ident _ g G Eg). }
  intros now'.
  assert (N' : NoDup (List.map File.id (markDeleted ident (files d))))
    by now rewrite markDeleted_ids.
  destruct (alter_found ident (markDeleted ident (files d)) (File.setStatus "deleted" f) N'
              (markDeleted_holds ident _ f I E) E) as (j & F' & A').
  rewrite <- L in F'.
  pose proof (D1 now' st1 j eq_refl F') as D2. rewrite L, A', markDeleted_twice in D2.
  eexists. split; [exact D2 |]. split; reflexivity.
Qed.

(** The hypotheses are met by a store of two files, "1" active and counted;
    deleting "1" succeeds and fetching it afterwards answers 404. *)
Lemma soft_delete_hides_the_file_witness :
  let d := updateStats 1 (holding [titled "1" "first"; titled "2" "second"]) in
  let st := Server.mkStore (Some d) true in
  exists st',
    Server.deleteFile 5 "1" "wind" st = (st', Server.Json tt) /\
    Settings.totalFiles (settings (Server.loadData st')) + 1 = 2 /\
    Server.getFile 6 "1" st' = (st', Server.Fail 404 FileNotFound).
Proof.
  intros d st.
  assert (N : NoDup (List.map File.id (files (Server.loadData st)))).
  { simpl. constructor.
    - intros H. apply list_elem_of_In in H. destruct H as [H | []]. discriminate.
    - constructor; [intros H; apply list_elem_of_In in H; destruct H | constructor]. }
  destruct (soft_delete_hides_the_file 5 "1" (titled "1" "first") st eq_refl N
              (or_introl eq_refl) eq_refl)
    as (st' & D & _ & _ & _ & _ & _ & _ & _ & C & G & _).
  exists st'. split; [exact D |]. split; [| apply G].
  apply (C eq_refl). reflexivity.
Defined.

(** C8, against the claim.  Identifiers need not be unique: an update may
    give a file the identifier of another.  After [PUT /api/files/b] with
    the identifier "a" in its body, the delete of "a" succeeds and marks the
    first file, and fetching "a" does not fail: it answers with the second
    one, which the list still holds.  And the total need not drop by one:
    after [POST /api/data] has stored a total of 7 for the two files, the
    delete leaves a total of 1. *)
Lemma delete_with_a_shared_id_or_a_stale_total :
  let a := titled "a" "first" in
  let b := titled "b" "second" in
  let b' := titled "a" "second" in
  let st0 := Server.mkStore (Some (updateStats 0 (holding [a; b]))) true in
  let body := Patch.mk (Some "a") None None None None None None None None None None None
                       None None None in
  let st1 := fst (Server.updateFile 1 "b" body st0) in
  let st2 := fst (Server.deleteFile 2 "a" "wind" st1) in
  let totals := Server.mkDataBody None None None None None (Some (Settings.mk 7 0 0 0)) in
  let st3 := fst (Server.postData 1 totals st0) in
  let st4 := fst (Server.deleteFile 2 "a" "wind" st3) in
  snd (Server.updateFile 1 "b" body st0) = Server.Json b' /\
  snd (Server.deleteFile 2 "a" "wind" st1) = Server.Json tt /\
  files (Server.loadData st2) = [File.setStatus "deleted" a; b'] /\
  Server.getFiles noFilters st2 = Value [b'] /\
  snd (Server.getFile 3 "a" st2) = Server.Json (File.touch 3 b') /\
  snd (Server.deleteFile 2 "a" "wind" st3) = Server.Json tt /\
  Settings.totalFiles (settings (Server.loadData st3)) = 7 /\
  Settings.totalFiles (settings (Server.loadData st4)) = 1.
Proof. repeat split. Qed.

(** The same for [DataManager.deleteFile], which asks for no password:
    after the delete the file list holds no file of that identifier,
    [getStats().totalFiles] is one less for an active, counted file, and
    [getFile] throws. *)
Theorem manager_soft_delete
    (now : Z) (ident password : string) (f : File.t) (dm : DataManager.t) :
  let d := DataManager.data dm in
  DataManager.quota dm = true ->
  NoDup (List.map File.id (files d)) ->
  In f (files d) -> File.id f = ident ->
  exists dm',
    DataManager.deleteFile now ident password dm = (dm', DataManager.Returns tt) /\
    files (DataManager.data dm') = markDeleted ident (files d) /\
    (exists found, DataManager.getFiles noFilters dm' = Value found /\
                   forall g, In g found -> File.id g <> ident) /\
    (File.active f = true -> countsFiles d ->
     Settings.totalFiles (DataManager.getStats dm') + 1 =
     Settings.totalFiles (DataManager.getStats dm)) /\
    (forall now', DataManager.getFile now' ident dm' = (dm', DataManager.Raises FileNotFound)).
Proof.
  intros d Q N I E.
  destruct (alter_found ident (files d) f N I E) as (i & F & A).
  unfold DataManager.deleteFile. fold d. rewrite F, A.
  unfold DataManager.commit, DataManager.saveData. simpl. rewrite Q.
  eexists. split; [reflexivity |]. simpl.
  split; [reflexivity |]. split; [| split].
  - exists (List.filter File.active (markDeleted ident (files d))).
    split; [reflexivity |]. intros g G Eg. apply filter_In in G as [G Ag].
    rewrite (markDeleted_inactive ident _ g G Eg) in Ag. discriminate.
  - intros Af C. unfold DataManager.getStats. fold d. unfold countsFiles in C.
    rewrite C. simpl. now apply (markDeleted_count ident _ f).
  - intros now'. unfold DataManager.getFile. simpl.
    rewrite findIndexed_none; [reflexivity |].
    intros g G. destruct (String.eqb_spec (File.id g) ident) as [Eg | Eg]; [| reflexivity].
    simpl. now rewrite (markDeleted_inactive ident _ g G Eg).
Qed.

(** ** The usage count of a preset *)

(** C3, on the code: a tag is created, then a file holding it is uploaded.
    Both requests succeed; the stored tag still has [usageCount] 0 although
    one active file holds it. *)
Lemma usageCount_is_not_recounted :
  let now := 1700000000000%Z in
  let st0 := Server.mkStore None true in
  let st1 := fst (Server.addTag now (mkPresetReq "UI" "" "") st0) in
  let r := Server.mkUploadReq (Some ("a.html", "f3a9.html", 10)) "A" "" "" "" "" ""
                              ["tag_1700000000000"] in
  let st2 := fst (Server.upload (now + 1) "0123456789abcdef" r st1) in
  let d := Server.loadData st2 in
  exists tag,
    preset_tags d = Some [tag] /\
    Tag.id tag = "tag_1700000000000" /\
    Tag.usageCount tag = 0 /\
    activeTagUse (Tag.id tag) (files d) = 1.
Proof. vm_compute. eexists. repeat split. Qed.

(** No route or method writes the field: an upload, for one, leaves the
    tags as they are. *)
Lemma upload_keeps_tags (now : Z) (fileId : string) (r : Server.UploadReq)
    (st : Server.Store) :
  preset_tags (Server.loadData (fst (Server.upload now fileId r st))) =
  preset_tags (Server.loadData st).
Proof.
  unfold Server.upload. destruct (Server.u_file r) as [[[o n] s] |]; [| reflexivity].
  unfold Server.reply, Server.saveData. destruct (Server.writable st); reflexivity.
Qed.

(** ** The delete guard *)

Section Guard.

Lemma active_part_le (p : File.t -> bool) (fs : list File.t) :
  length (List.filter (fun f => File.active f && p f) fs) <= length (List.filter p fs).
Proof.
  induction fs as [|f fs IH]; simpl; [lia |].
  destruct (File.active f), (p f); simpl; lia.
Qed.

Lemma ltb_pos (n : nat) : 0 < n -> (0 <? n)%nat = true.
Proof. intros H. now apply Nat.ltb_lt. Qed.

End Guard.

(** C2, as the code has it.  A tag or a model held by at least one active
    file is not deleted by the dialog's [deleteTag] and [deleteModel], and a
    category whose name is held by at least one active file is not deleted by
    [deleteCategory] (route and manager): the operation fails with the in-use
    error and the catalog is what it was.  The count in the error is the
    number of all files that hold the entity, deleted files included, so it
    is at least the number of active ones.  Tags and models are looked up in
    the files by identifier, categories by name. *)
Theorem delete_guard_counts_every_file (now : Z) (ident : string) (dm : DataManager.t) :
  let fs := files (DataManager.data dm) in
  (0 < activeTagUse ident fs ->
   Components.deleteTag now ident dm =
     (dm, DataManager.Raises (TagInUse (length (Components.filesUsingTag ident fs)))) /\
   activeTagUse ident fs <= length (Components.filesUsingTag ident fs)) /\
  (0 < activeModelUse ident fs ->
   Components.deleteModel now ident dm =
     (dm, DataManager.Raises (ModelInUse (length (Components.filesUsingModel ident fs)))) /\
   activeModelUse ident fs <= length (Components.filesUsingModel ident fs)) /\
  (forall cs i c,
      categories (DataManager.data dm) = Some cs ->
      findIndexed (fun c => String.eqb (Category.id c) ident) cs = Some (i, c) ->
      0 < activeCategoryUse (Category.name c) fs ->
      DataManager.deleteCategory now ident dm =
        (dm, DataManager.Raises
               (CategoryInUse (length (filesUsingCategory (Category.name c) fs)))) /\
      activeCategoryUse (Category.name c) fs <=
        length (filesUsingCategory (Category.name c) fs)) /\
  (forall st cs i c,
      categories (Server.loadData st) = Some cs ->
      findIndexed (fun c => String.eqb (Category.id c) ident) cs = Some (i, c) ->
      0 < activeCategoryUse (Category.name c) (files (Server.loadData st)) ->
      Server.deleteCategory now ident st =
        (st, Server.Fail 400
               (CategoryInUse
                  (length (filesUsingCategory (Category.name c)
                                              (files (Server.loadData st))))))).
Proof.
  intros fs. subst fs. set (fs := files (DataManager.data dm)). repeat apply conj.
  - intros U.
    assert (L : activeTagUse ident fs <= length (Components.filesUsingTag ident fs))
      by apply (active_part_le (fun f => JS.includes (File.tags f) ident)).
    split; [| exact L]. unfold Components.deleteTag. fold fs.
    rewrite (ltb_pos (length (Components.filesUsingTag ident fs))) by lia. reflexivity.
  - intros U.
    assert (L : activeModelUse ident fs <= length (Components.filesUsingModel ident fs))
      by apply (active_part_le (fun f => String.eqb (File.model f) ident)).
    split; [| exact L]. unfold Components.deleteModel. fold fs.
    rewrite (ltb_pos (length (Components.filesUsingModel ident fs))) by lia. reflexivity.
  - intros cs i c C F U.
    assert (L : activeCategoryUse (Category.name c) fs <=
                length (filesUsingCategory (Category.name c) fs))
      by apply (active_part_le (fun f => String.eqb (File.category f) (Category.name c))).
    split; [| exact L]. unfold DataManager.deleteCategory. rewrite C, F. fold fs.
    rewrite (ltb_pos (length (filesUsingCategory (Category.name c) fs))) by lia.
    reflexivity.
  - intros st cs i c C F U.
    assert (L : activeCategoryUse (Category.name c) (files (Server.loadData st)) <=
                length (filesUsingCategory (Category.name c) (files (Server.loadData st))))
      by apply (active_part_le (fun f => String.eqb (File.category f) (Category.name c))).
    unfold Server.deleteCategory. rewrite C, F.
    rewrite (ltb_pos (length (filesUsingCategory (Category.name c)
                                (files (Server.loadData st))))) by lia.
    reflexivity.
Qed.

(** The first hypothesis is met by a manager whose one active file holds
    the tag "t1". *)
Lemma delete_guard_counts_every_file_witness :
  let f := File.mk "1" "" "" 0 0 0 "A" "" "" "" "" "" ["t1"] "active" None in
  let dm := DataManager.mk (withTags [Tag.mk "t1" "UI" "" "" 1 0] (holding [f])) None true in
  Components.deleteTag 5 "t1" dm = (dm, DataManager.Raises (TagInUse 1)).
Proof.
  intros f dm.
  assert (U : 0 < activeTagUse "t1" (files (DataManager.data dm))) by (vm_compute; lia).
  exact (proj1 (proj1 (delete_guard_counts_every_file 5 "t1" dm) U)).
Defined.

(** C2, against the claim: the tag "t1" is held by one active and one
    deleted file; the delete is refused with the count 2, not with the number
    of active files, which is 1. *)
Lemma guard_counts_deleted_files :
  let f1 := File.mk "1" "" "" 0 0 0 "A" "" "" "" "" "" ["t1"] "active" None in
  let f2 := File.mk "2" "" "" 0 0 0 "B" "" "" "" "" "" ["t1"] "deleted" None in
  let dm := DataManager.mk (withTags [Tag.mk "t1" "UI" "" "" 1 0] (holding [f1; f2]))
                           None true in
  Components.deleteTag 5 "t1" dm = (dm, DataManager.Raises (TagInUse 2)) /\
  activeTagUse "t1" (files (DataManager.data dm)) = 1.
Proof. split; reflexivity. Qed.

(** [DataManager.deleteTag] itself asks no question: the tag "t1" is removed
    although an active file holds it. *)
Lemma manager_deleteTag_has_no_guard :
  let f := File.mk "1" "" "" 0 0 0 "A" "" "" "" "" "" ["t1"] "active" None in
  let tag := Tag.mk "t1" "UI" "" "" 1 0 in
  let dm := DataManager.mk (withTags [tag] (holding [f])) None true in
  snd (DataManager.deleteTag 5 "t1" dm) = DataManager.Returns tag /\
  preset_tags (DataManager.data (fst (DataManager.deleteTag 5 "t1" dm))) = Some [] /\
  activeTagUse "t1" (files (DataManager.data dm)) = 1.
Proof. repeat split. Qed.

(** ** A write that fails *)

Section FailedWrite.

Lemma manager_commit_fails {A} (now : Z) (d : Data) (x : A) (dm : DataManager.t) :
  DataManager.quota dm = false ->
  DataManager.commit now d x dm =
  (DataManager.mk (updateStats now d) (DataManager.stored dm) false,
   DataManager.Raises SaveFailed).
Proof.
  intros Q. unfold DataManager.commit, DataManager.saveData. simpl. now rewrite Q.
Qed.

End FailedWrite.

(** C9, as the code has it.  When the write fails the operation says so:
    [addHTMLFile] answers [false], the [DataManager] methods throw.  The
    stored copy is what it was, and the catalog in memory keeps the mutation:
    the record added by [addHTMLFile] is among the files in memory, and the
    tag added by [DataManager.addTag] is among the tags in memory.  Nothing
    is rolled back. *)
Theorem failed_write_is_reported_not_undone (fallback : string)
    (now : Z) (hashed : string) (fileInfo : Trae.FileInfo) (db : Trae.t)
    (r : PresetReq) (dm : DataManager.t) :
  Trae.writable db = false -> Trae.complete fileInfo = true ->
  DataManager.quota dm = false -> r_name r <> "" ->
  (snd (Trae.addHTMLFile fallback now hashed fileInfo db) = false /\
   Trae.disk (fst (Trae.addHTMLFile fallback now hashed fileInfo db)) = Trae.disk db /\
   exists record,
     Trae.id record = orElse (Trae.i_id fileInfo) hashed /\
     Trae.original_name record = Trae.i_original_name fileInfo /\
     Trae.updated_at record = now /\
     In record (Trae.html_files (Trae.data (fst (Trae.addHTMLFile fallback now hashed fileInfo db))))) /\
  (snd (DataManager.addTag now r dm) = DataManager.Raises SaveFailed /\
   DataManager.stored (fst (DataManager.addTag now r dm)) = DataManager.stored dm /\
   preset_tags (DataManager.data (fst (DataManager.addTag now r dm))) =
     Some (default [] (preset_tags (DataManager.data dm)) ++ [newTag now r])).
Proof.
  intros W C Q N. split.
  - unfold Trae.addHTMLFile, Trae.saveData. rewrite C. simpl. rewrite W. simpl.
    split; [reflexivity |]. split; [reflexivity |].
    eexists. split; [| split; [| split]]; cycle 3.
    + destruct (JS.findIndex _ (Trae.html_files (Trae.data db))) as [i |] eqn:F.
      * apply list_elem_of_In, list_elem_of_lookup. exists i.
        apply list_lookup_insert_eq.
        clear - F. revert i F.
        induction (Trae.html_files (Trae.data db)) as [|x l IH]; intros i F;
          simpl in F; [discriminate |].
        destruct (String.eqb _ _); [injection F as <-; simpl; lia |].
        destruct (JS.findIndex _ l) as [j |]; [| discriminate].
        injection F as <-. specialize (IH j eq_refl). simpl. lia.
      * apply in_or_app. right. now left.
    + reflexivity.
    + reflexivity.
    + reflexivity.
  - unfold DataManager.addTag. rewrite (truthy_true _ N). simpl.
    rewrite manager_commit_fails by exact Q. repeat split.
Qed.

(** The four hypotheses are met by a manager of the trae-trash variant
    whose file cannot be written and a [DataManager] without quota. *)
Lemma failed_write_is_reported_not_undone_witness :
  let db := Trae.mk (Trae.mkDatabase [] (Trae.mkStatistics 0 0 0 ∅ ∅ ∅ 0 0) 0) None false in
  let info := Trae.mkFileInfo "" "a.html" "demo" "draw a cat" (Some []) None "" "" 0
                              None 0 0 [] in
  let dm := DataManager.mk (holding []) None false in
  snd (Trae.addHTMLFile "other" 5 "h1" info db) = false /\
  snd (DataManager.addTag 5 (mkPresetReq "UI" "" "") dm) = DataManager.Raises SaveFailed.
Proof.
  intros db info dm.
  destruct (failed_write_is_reported_not_undone "other" 5 "h1" info db (mkPresetReq "UI" "" "") dm
              eq_refl eq_refl eq_refl) as [[A _] [B _]]; [discriminate |].
  exact (conj A B).
Defined.

(** C9, against the claim: the write of [addHTMLFile] fails on an empty
    catalog; the answer is [false], nothing is stored, and the catalog in
    memory now holds one file: it is not the catalog from before the call. *)
Lemma failed_write_keeps_the_record :
  let db := Trae.mk (Trae.mkDatabase [] (Trae.mkStatistics 0 0 0 ∅ ∅ ∅ 0 0) 0) None false in
  let info := Trae.mkFileInfo "" "a.html" "demo" "draw a cat" (Some []) None "" "" 0
                              None 0 0 [] in
  snd (Trae.addHTMLFile "other" 5 "h1" info db) = false /\
  Trae.disk (fst (Trae.addHTMLFile "other" 5 "h1" info db)) = None /\
  length (Trae.html_files (Trae.data (fst (Trae.addHTMLFile "other" 5 "h1" info db)))) = 1 /\
  Trae.data (fst (Trae.addHTMLFile "other" 5 "h1" info db)) <> Trae.data db.
Proof.
  intros db info. repeat split.
  intros H. apply (f_equal (fun d => length (Trae.html_files d))) in H.
  discriminate H.
Qed.

(** ** Renaming *)

Section FindIndexed.

Context {A : Type} (p : A -> bool).

Lemma findIndexed_found (l : list A) (i : nat) (x : A) :
  findIndexed p l = Some (i, x) -> l !! i = Some x /\ p x = true.
Proof.
  revert i. induction l as [|y l IH]; intros i; simpl; [discriminate |].
  destruct (p y) eqn:Py.
  - intros [= <- <-]. now split.
  - destruct (findIndexed p l) as [[j z] |]; [| discriminate].
    intros [= <- <-]. now apply IH.
Qed.

(** Replacing the element found by one that passes the test too leaves it
    the first to be found. *)
Lemma findIndexed_insert (l : list A) (i : nat) (x y : A) :
  findIndexed p l = Some (i, x) -> p y = true ->
  findIndexed p (<[i := y]> l) = Some (i, y).
Proof.
  revert i. induction l as [|z l IH]; intros i; simpl; [discriminate |].
  destruct (p z) eqn:Pz.
  - intros [= <- <-] Py. simpl. now rewrite Py.
  - destruct (findIndexed p l) as [[j w] |] eqn:F; [| discriminate].
    intros [= <- <-] Py. simpl. rewrite Pz. now rewrite (IH j eq_refl Py).
Qed.

Lemma map_insert_same {B} (g : A -> B) (l : list A) (i : nat) (x y : A) :
  l !! i = Some x -> g y = g x -> List.map g (<[i := y]> l) = List.map g l.
Proof.
  revert i. induction l as [|z l IH]; intros i; [discriminate |].
  destruct i as [|i]; simpl.
  - intros [= ->] E. now rewrite E.
  - intros L E. f_equal. now apply IH.
Qed.

End FindIndexed.

Section RenameById.



End RenameById.

Section RenameByName.

Lemma includes_In (l : list string) (x : string) :
  JS.includes l x = true <-> In x l.
Proof.
  unfold JS.includes. rewrite existsb_exists. split.
  - intros (y & I & E). apply String.eqb_eq in E. now subst.
  - intros I. exists x. split; [exact I | apply String.eqb_refl].
Qed.

Lemma replaceFirst_absent (a b : string) (ts : list string) :
  JS.includes ts a = false -> Trae.replaceFirst a b ts = ts.
Proof.
  unfold JS.includes. induction ts as [|x ts IH]; simpl; [reflexivity |].
  intros H. apply orb_false_iff in H as [X H]. rewrite String.eqb_sym, X.
  now rewrite IH.
Qed.






End RenameByName.




(** * Further properties of the code *)

(** ** What a query returns *)

Section Query.

Lemma filter_sublist {A} (p : A -> bool) (l : list A) : sublist (List.filter p l) l.
Proof.
  induction l as [|x l IH]; simpl; [constructor |].
  destruct (p x); now constructor.
Qed.

Lemma filterO_sublist {A} (p : A -> outcome bool) (l r : list A) :
  filterO p l = Value r -> sublist r l.
Proof.
  revert r. induction l as [|x l IH]; simpl; intros r.
  - intros [= <-]. constructor.
  - destruct (p x) as [b | |]; simpl; try discriminate.
    destruct (filterO p l) as [r' | |]; simpl; try discriminate.
    intros [= <-]. destruct b; constructor; now apply IH.
Qed.

Lemma categoryFilter_sublist (c : string) (fs : list File.t) :
  sublist (categoryFilter c fs) fs.
Proof. unfold categoryFilter. destruct (JS.truthy c); [apply filter_sublist | reflexivity]. Qed.

Lemma tagsFilter_sublist (ts : option (list string)) (fs : list File.t) :
  sublist (tagsFilter ts fs) fs.
Proof. destruct ts; simpl; [apply filter_sublist | reflexivity]. Qed.

Lemma modelFilter_sublist (m : string) (fs : list File.t) :
  sublist (modelFilter m fs) fs.
Proof. unfold modelFilter. destruct (JS.truthy m); [apply filter_sublist | reflexivity]. Qed.

Lemma textFilter_sublist (q : string) (fs r : list File.t) :
  textFilter q fs = Value r -> sublist r fs.
Proof.
  unfold textFilter. destruct (JS.truthy q); [| now intros [= <-]].
  destruct (JS.truthy (JS.trim q)); [apply filterO_sublist | now intros [= <-]].
Qed.

Lemma queryFiles_sublist (d : Data) (q : Filters) (found : list File.t) :
  queryFiles d q = Value found -> sublist found (List.filter File.active (files d)).
Proof.
  unfold queryFiles.
  destruct (textFilter (search q) _) as [r | |] eqn:T; simpl; try discriminate.
  intros [= <-]. apply textFilter_sublist in T.
  etransitivity; [apply modelFilter_sublist |].
  etransitivity; [apply tagsFilter_sublist |].
  etransitivity; [apply categoryFilter_sublist | exact T].
Qed.

Lemma sublist_active (found fs : list File.t) :
  sublist found (List.filter File.active fs) ->
  sublist found fs /\ Forall (fun f => File.active f = true) found.
Proof.
  intros S. split; [etransitivity; [exact S | apply filter_sublist] |].
  apply List.Forall_forall. intros f I.
  apply list_elem_of_In in I. apply (fun H => elem_of_sublist _ _ _ H S) in I.
  apply list_elem_of_In, filter_In in I. tauto.
Qed.

End Query.

(** X1.  Whatever the filters, a query that returns a list returns files of
    the catalog in the order the catalog holds them, none of them deleted.
    This holds for the route and for [DataManager.getFiles], which also
    returns the empty list when the filter throws. *)
Theorem query_keeps_order_and_hides_deleted (q : Filters) :
  (forall st found,
      Server.getFiles q st = Value found ->
      sublist found (files (Server.loadData st)) /\
      Forall (fun f => File.active f = true) found) /\
  (forall dm found,
      DataManager.getFiles q dm = Value found ->
      sublist found (files (DataManager.data dm)) /\
      Forall (fun f => File.active f = true) found).
Proof.
  split.
  - intros st found H. now apply sublist_active, queryFiles_sublist with q.
  - intros dm found. unfold DataManager.getFiles.
    destruct (queryFiles (DataManager.data dm) q) as [r | |] eqn:Q; try discriminate.
    + intros [= <-]. now apply sublist_active, queryFiles_sublist with q.
    + intros [= <-]. split; [apply sublist_nil_l | constructor].
Qed.

(** A query for "b" on three files, the second deleted: the two files
    returned are in catalog order and active. *)
Lemma query_keeps_order_and_hides_deleted_witness :
  let fs := [titled "1" "abc"; File.setStatus "deleted" (titled "2" "b"); titled "3" "cab"] in
  let st := Server.mkStore (Some (holding fs)) true in
  Server.getFiles (textOnly "b") st = Value [titled "1" "abc"; titled "3" "cab"] /\
  sublist [titled "1" "abc"; titled "3" "cab"] fs.
Proof.
  intros fs st.
  assert (H : Server.getFiles (textOnly "b") st = Value [titled "1" "abc"; titled "3" "cab"])
    by reflexivity.
  split; [exact H |].
  exact (proj1 (proj1 (query_keeps_order_and_hides_deleted (textOnly "b")) st _ H)).
Defined.

(** X2.  Without a search text the three other filters are combined by
    "and", the tags of the filter by "or": a file is returned exactly when it
    is active, has the category asked for (if one is), holds at least one of
    the tags asked for (if tags are), and has the model asked for (if one
    is).  A tag filter that is an empty list returns no file. *)
Theorem filters_and_across_or_within_tags
    (d : Data) (c : string) (ts : option (list string)) (m : string) :
  (exists found,
      queryFiles d (mkFilters "" c ts m) = Value found /\
      forall f, In f found <->
                In f (files d) /\ File.active f = true /\
                (c = "" \/ File.category f = c) /\
                (match ts with
                 | None => True
                 | Some l => exists t, In t l /\ In t (File.tags f)
                 end) /\
                (m = "" \/ File.model f = m)) /\
  queryFiles d (mkFilters "" c (Some []) m) = Value [].
Proof.
  split.
  - eexists. split; [reflexivity |]. intros f.
    assert (C : forall fs, In f (categoryFilter c fs) <->
                           In f fs /\ (c = "" \/ File.category f = c)).
    { intros fs. unfold categoryFilter, JS.truthy.
      destruct (String.eqb_spec c "") as [-> | N]; simpl; [tauto |].
      rewrite filter_In, String.eqb_eq. tauto. }
    assert (M : forall fs, In f (modelFilter m fs) <->
                           In f fs /\ (m = "" \/ File.model f = m)).
    { intros fs. unfold modelFilter, JS.truthy.
      destruct (String.eqb_spec m "") as [-> | N]; simpl; [tauto |].
      rewrite filter_In, String.eqb_eq. tauto. }
    assert (T : forall fs, In f (tagsFilter ts fs) <->
                           In f fs /\ match ts with
                                      | None => True
                                      | Some l => exists t, In t l /\ In t (File.tags f)
                                      end).
    { intros fs. destruct ts as [l |]; simpl; [| tauto].
      rewrite filter_In, existsb_exists. split.
      - intros [I (t & It & H)]. split; [exact I |]. exists t. split; [exact It |].
        unfold JS.includes in H. apply existsb_exists in H as (u & Iu & E).
        apply String.eqb_eq in E. now subst.
      - intros [I (t & It & H)]. split; [exact I |]. exists t. split; [exact It |].
        unfold JS.includes. apply existsb_exists. exists t. split; [exact H |].
        apply String.eqb_refl. }
    simpl. rewrite M, T, C, filter_In. tauto.
  - unfold queryFiles. simpl.
    assert (E : forall fs : list File.t, List.filter (fun _ => false) fs = []).
    { induction fs as [|x fs IH]; simpl; auto. }
    rewrite E. unfold modelFilter. now destruct (JS.truthy m).
Qed.

(** X3.  When the first keyword of a search is not a regular expression
    (the constructor throws) and the catalog has an active file, the route
    lets the exception escape and [DataManager.getFiles] answers with the
    empty list; without an active file the expression is never built and both
    return the empty list. *)
Theorem broken_keyword_throws_or_empties
    (d : Data) (q k : string) (rest : list string) :
  keywordsOf (JS.trim q) = k :: rest ->
  RegExp.compile (wildcardSource k) = RegExp.SyntaxError ->
  (List.filter File.active (files d) <> [] ->
   (forall st, Server.loadData st = d -> Server.getFiles (textOnly q) st = Throws) /\
   (forall dm, DataManager.data dm = d ->
               DataManager.getFiles (textOnly q) dm = Value [])) /\
  (List.filter File.active (files d) = [] ->
   (forall st, Server.loadData st = d -> Server.getFiles (textOnly q) st = Value []) /\
   (forall dm, DataManager.data dm = d ->
               DataManager.getFiles (textOnly q) dm = Value [])).
Proof.
  intros K C.
  assert (Tt : JS.truthy (JS.trim q) = true).
  { unfold JS.truthy. destruct (String.eqb_spec (JS.trim q) "") as [E | E]; [| reflexivity].
    rewrite E in K. discriminate K. }
  assert (Tq : JS.truthy q = true).
  { unfold JS.truthy. destruct (String.eqb_spec q "") as [E | E]; [| reflexivity].
    subst q. discriminate K. }
  assert (Q : queryFiles d (textOnly q) =
              match List.filter File.active (files d) with
              | [] => Value []
              | _ :: _ => Throws
              end).
  { unfold queryFiles, textOnly, textFilter. simpl. rewrite Tq, Tt, K.
    destruct (List.filter File.active (files d)) as [|f fs]; [reflexivity |].
    simpl. unfold keywordTest. rewrite C. reflexivity. }
  split.
  - intros N. destruct (List.filter File.active (files d)) as [|f fs]; [contradiction |].
    split.
    + intros st <-. exact Q.
    + intros dm E. unfold DataManager.getFiles. now rewrite E, Q.
  - intros E0. rewrite E0 in Q. split.
    + intros st <-. exact Q.
    + intros dm E. unfold DataManager.getFiles. now rewrite E, Q.
Qed.

(** The search for "c++": its one keyword has a quantifier with nothing to
    repeat; with one active file the route throws. *)
Lemma broken_keyword_throws_or_empties_witness :
  let d := holding [titled "1" "c++ notes"] in
  Server.getFiles (textOnly "c++") (Server.mkStore (Some d) true) = Throws /\
  DataManager.getFiles (textOnly "c++") (DataManager.mk d None true) = Value [].
Proof.
  intros d.
  destruct (broken_keyword_throws_or_empties d "c++" "c++" [] eq_refl eq_refl) as [H _].
  destruct H as [S M]; [discriminate |].
  split; [now apply S | now apply M].
Defined.

(** ** Reading and updating one file *)

Section OneFile.

Lemma findIndexed_find {A} (p : A -> bool) (l : list A) :
  List.find p l = snd <$> findIndexed p l.
Proof.
  induction l as [|x l IH]; simpl; [reflexivity |].
  destruct (p x); [reflexivity |]. rewrite IH.
  now destruct (findIndexed p l) as [[i y] |].
Qed.

Lemma findActive_found (ident : string) (fs : list File.t) (f : File.t) :
  findActive ident fs = Some f ->
  exists i, findIndexed (fun f => String.eqb (File.id f) ident && File.active f) fs
            = Some (i, f) /\ fs !! i = Some f /\
            File.id f = ident /\ File.active f = true.
Proof.
  unfold findActive. rewrite findIndexed_find.
  destruct (findIndexed _ fs) as [[i g] |] eqn:F; simpl; [| discriminate].
  intros [= ->]. exists i. split; [reflexivity |].
  apply findIndexed_found in F as [L P]. apply andb_true_iff in P as [P A].
  apply String.eqb_eq in P. auto.
Qed.

Lemma findActive_none (ident : string) (fs : list File.t) :
  (forall f, In f fs -> File.id f = ident -> File.active f = false) ->
  findIndexed (fun f => String.eqb (File.id f) ident && File.active f) fs = None.
Proof.
  intros H. apply findIndexed_none. intros f I.
  destruct (String.eqb_spec (File.id f) ident) as [E | E]; [| reflexivity].
  simpl. now apply H.
Qed.

End OneFile.

Lemma increment_small (n : nat) :
  (Z.of_nat n < 2 ^ 53)%Z -> JS.increment n = n + 1.
Proof.
  intros H. unfold JS.increment. apply Z.ltb_lt in H. now rewrite H.
Qed.

Lemma increment_limit (n : nat) :
  Z.of_nat n = (2 ^ 53)%Z -> JS.increment n = n.
Proof. intros H. unfold JS.increment. now rewrite H. Qed.

(** X4.  [GET /api/files/:id] answers with the first active file of that
    identifier, one added to its access count and its last access set to the
    clock.  The count is a number of JavaScript: it is raised by one as long
    as it is below 2^53, and a count of 2^53 stays as it is.  On a writable
    store that file, and nothing else, is replaced in
    the stored document.  On a store that cannot be written the answer is the
    same and the store keeps the old count: the failed write is not reported.
    [DataManager.getFile] does report it, and keeps the raised count in
    memory.  When every file of that identifier is deleted, or there is none,
    the answer is 404 and nothing changes. *)
Theorem getFile_counts_the_access (now : Z) (ident : string) (st : Server.Store) :
  let d := Server.loadData st in
  (forall f, findActive ident (files d) = Some f ->
     snd (Server.getFile now ident st) = Server.Json (File.touch now f) /\
     File.accessCount (File.touch now f) = JS.increment (File.accessCount f) /\
     ((Z.of_nat (File.accessCount f) < 2 ^ 53)%Z ->
      File.accessCount (File.touch now f) = File.accessCount f + 1) /\
     (Z.of_nat (File.accessCount f) = (2 ^ 53)%Z ->
      File.accessCount (File.touch now f) = File.accessCount f) /\
     File.lastAccess (File.touch now f) = Some now /\
     (Server.writable st = false -> fst (Server.getFile now ident st) = st) /\
     (Server.writable st = true ->
      exists i, files d !! i = Some f /\
                Server.loadData (fst (Server.getFile now ident st)) =
                withFiles (<[i := File.touch now f]> (files d)) d) /\
     (forall stored,
        exists i, files d !! i = Some f /\
          DataManager.getFile now ident (DataManager.mk d stored false) =
          (DataManager.mk
             (updateStats now (withFiles (<[i := File.touch now f]> (files d)) d))
             stored false,
           DataManager.Raises SaveFailed))) /\
  ((forall f, In f (files d) -> File.id f = ident -> File.active f = false) ->
   Server.getFile now ident st = (st, Server.Fail 404 FileNotFound)).
Proof.
  intros d. split.
  - intros f F. apply findActive_found in F as (i & F & L & E & A).
    assert (Al : alter (File.touch now) i (files d) = <[i := File.touch now f]> (files d)).
    { apply list_eq. intros j. destruct (decide (i = j)) as [<- | N].
      - rewrite list_lookup_alter_eq, L. simpl.
        symmetry. apply list_lookup_insert_eq. now apply lookup_lt_Some in L.
      - now rewrite list_lookup_alter_ne, list_lookup_insert_ne. }
    unfold Server.getFile. fold d. rewrite F, Al. unfold Server.saveData.
    split; [reflexivity |]. split; [reflexivity |].
    split; [intros Small; now apply increment_small |].
    split; [intros Limit; now apply increment_limit |].
    split; [reflexivity |].
    split; [intros W; now rewrite W |].
    split; [intros W; rewrite W; exists i; now split |].
    intros stored. exists i. split; [exact L |].
    unfold DataManager.getFile. simpl. fold d. rewrite F, Al.
    now rewrite manager_commit_fails.
  - intros H. unfold Server.getFile. fold d. now rewrite findActive_none.
Qed.

(** The first hypothesis is met by a store of one active file. *)
Lemma getFile_counts_the_access_witness :
  let st := Server.mkStore (Some (holding [titled "1" "first"])) false in
  snd (Server.getFile 9 "1" st) = Server.Json (File.touch 9 (titled "1" "first")) /\
  fst (Server.getFile 9 "1" st) = st.
Proof.
  intros st.
  destruct (proj1 (getFile_counts_the_access 9 "1" st) (titled "1" "first") eq_refl)
    as (A & _ & _ & _ & _ & B & _).
  split; [exact A | now apply B].
Defined.

(** X5.  [PUT /api/files/:id]
    answers 404 and changes nothing when every file of that identifier is
    deleted or there is none.  Otherwise, on a writable store, it replaces the
    first active file of that identifier by the file merged with the body, at
    the same place; the other files and the presets stay, and the statistics
    are recounted.  [DataManager.updateFile] does the same in memory. *)
Theorem updateFile_replaces_in_place
    (now : Z) (ident : string) (updateData : Patch.t) (st : Server.Store) :
  let d := Server.loadData st in
  ((forall f, In f (files d) -> File.id f = ident -> File.active f = false) ->
   Server.updateFile now ident updateData st = (st, Server.Fail 404 FileNotFound) /\
   forall dm, DataManager.data dm = d ->
     DataManager.updateFile now ident updateData dm = (dm, DataManager.Raises FileNotFound)) /\
  (forall f, findActive ident (files d) = Some f -> Server.writable st = true ->
     exists i st',
       files d !! i = Some f /\
       Server.updateFile now ident updateData st =
         (st', Server.Json (Patch.apply updateData f)) /\
       files (Server.loadData st') = <[i := Patch.apply updateData f]> (files d) /\
       length (files (Server.loadData st')) = length (files d) /\
       preset_tags (Server.loadData st') = preset_tags d /\
       preset_models (Server.loadData st') = preset_models d /\
       categories (Server.loadData st') = categories d /\
       statsConsistent (Server.loadData st') /\
       forall stored quota,
         files (DataManager.data
                  (fst (DataManager.updateFile now ident updateData
                          (DataManager.mk d stored quota)))) =
         <[i := Patch.apply updateData f]> (files d)).
Proof.
  intros d. split.
  - intros H. pose proof (findActive_none ident (files d) H) as F. split.
    + unfold Server.updateFile. fold d. now rewrite F.
    + intros dm E. unfold DataManager.updateFile. now rewrite E, F.
  - intros f F W. apply findActive_found in F as (i & F & L & E & A).
    exists i. eexists. split; [exact L |].
    unfold Server.updateFile, Server.reply, Server.saveData. fold d. rewrite F, W.
    split; [reflexivity |]. simpl.
    split; [reflexivity |]. split; [apply length_insert |].
    split; [reflexivity |]. split; [reflexivity |]. split; [reflexivity |].
    split; [repeat split |].
    intros stored quota. unfold DataManager.updateFile. simpl. fold d. rewrite F.
    unfold DataManager.commit, DataManager.saveData. simpl. now destruct quota.
Qed.

(** The second hypothesis is met by a store of one active file and a body
    that carries a new title. *)
Lemma updateFile_replaces_in_place_witness :
  let st := Server.mkStore (Some (holding [titled "1" "first"])) true in
  let body := Patch.mk None None None None None None (Some "renamed") None None None None
                       None None None None in
  exists st', Server.updateFile 9 "1" body st = (st', Server.Json (titled "1" "renamed")) /\
              files (Server.loadData st') = [titled "1" "renamed"].
Proof.
  intros st body.
  destruct (proj2 (updateFile_replaces_in_place 9 "1" body st) (titled "1" "first")
              eq_refl eq_refl) as (i & st' & L & U & F & _).
  exists st'. split; [exact U |]. rewrite F.
  destruct i as [|i]; [reflexivity | discriminate L].
Defined.

(** ** Invariants of the server *)

Section Invariants.

Lemma deletedKept_files (d d' : Data) : files d' = files d -> deletedKept d d'.
Proof. intros E i f L _. now rewrite E. Qed.

Lemma deletedKept_app (d d' : Data) (more : list File.t) :
  files d' = files d ++ more -> deletedKept d d'.
Proof. intros E i f L _. rewrite E. now apply lookup_app_l_Some. Qed.

(** Replacing a file that is active leaves the deleted ones alone. *)
Lemma deletedKept_insert (d d' : Data) (i : nat) (f g : File.t) :
  files d !! i = Some f -> File.active f = true ->
  files d' = <[i := g]> (files d) -> deletedKept d d'.
Proof.
  intros L A E j h Lj Ah. rewrite E.
  destruct (decide (i = j)) as [<- | N]; [congruence |].
  now rewrite list_lookup_insert_ne.
Qed.

Lemma deletedKept_alter_active (d d' : Data) (i : nat) (f : File.t) (g : File.t -> File.t) :
  files d !! i = Some f -> File.active f = true ->
  files d' = alter g i (files d) -> deletedKept d d'.
Proof.
  intros L A E j h Lj Ah. rewrite E.
  destruct (decide (i = j)) as [<- | N]; [congruence |].
  now rewrite list_lookup_alter_ne.
Qed.

(** Marking a file deleted leaves the deleted ones alone: on a deleted file
    it changes nothing. *)
Lemma deletedKept_mark (d d' : Data) (i : nat) :
  files d' = alter (File.setStatus "deleted") i (files d) -> deletedKept d d'.
Proof.
  intros E j h Lj Ah. rewrite E.
  destruct (decide (i = j)) as [<- | N].
  - rewrite list_lookup_alter_eq, Lj. simpl. f_equal. now apply setStatus_same.
  - now rewrite list_lookup_alter_ne.
Qed.

Lemma findIndex_found {A} (p : A -> bool) (l : list A) (i : nat) :
  JS.findIndex p l = Some i -> exists x, l !! i = Some x /\ p x = true.
Proof.
  revert i. induction l as [|y l IH]; intros i; simpl; [discriminate |].
  destruct (p y) eqn:Py.
  - intros [= <-]. eauto.
  - destruct (JS.findIndex p l) as [j |]; [| discriminate].
    intros [= <-]. now apply IH.
Qed.

Lemma statsConsistent_updateStats (now : Z) (d : Data) : statsConsistent (updateStats now d).
Proof. repeat split. Qed.

(** The active files and the category set depend on the status and the
    category of the files only. *)
Lemma active_count_alter (g : File.t -> File.t) (i : nat) (fs : list File.t) :
  (forall f, File.status (g f) = File.status f) ->
  length (List.filter File.active (alter g i fs)) = length (List.filter File.active fs).
Proof.
  intros H. revert i. induction fs as [|x fs IH]; intros i; [reflexivity |].
  assert (Ax : File.active (g x) = File.active x) by (unfold File.active; now rewrite H).
  destruct i as [|i]; simpl.
  - rewrite Ax. now destruct (File.active x).
  - change (list_alter g i fs) with (alter g i fs).
    specialize (IH i). destruct (File.active x); simpl; now rewrite IH.
Qed.

Lemma categorySet_alter (g : File.t -> File.t) (i : nat) (fs : list File.t) :
  (forall f, File.category (g f) = File.category f) ->
  categorySet (alter g i fs) = categorySet fs.
Proof.
  intros H. apply set_eq. intros c. rewrite !categorySet_spec.
  split; intros (N & f & I & E); split; try exact N.
  - apply list_elem_of_In, list_elem_of_lookup in I as (j & L).
    destruct (decide (i = j)) as [<- | Nij].
    + rewrite list_lookup_alter_eq in L. destruct (fs !! i) as [x |] eqn:Lx; [| discriminate].
      simpl in L. injection L as <-. exists x. split; [| now rewrite <- H].
      apply list_elem_of_In, list_elem_of_lookup. eauto.
    + rewrite list_lookup_alter_ne in L by exact Nij. exists f. split; [| exact E].
      apply list_elem_of_In, list_elem_of_lookup. eauto.
  - apply list_elem_of_In, list_elem_of_lookup in I as (j & L).
    destruct (decide (i = j)) as [<- | Nij].
    + exists (g f). split; [| now rewrite H].
      apply list_elem_of_In, list_elem_of_lookup. exists i.
      now rewrite list_lookup_alter_eq, L.
    + exists f. split; [| exact E].
      apply list_elem_of_In, list_elem_of_lookup. exists j.
      now rewrite list_lookup_alter_ne.
Qed.

End Invariants.

(** X6.  Twelve routes of the server write the document.  Eleven of them
    leave the deleted files alone: after an upload, a batch upload, a read,
    an update or a delete of a file, after the creation of a tag, a model or
    a category, the rename of a model or a category and the delete of a
    category, each file that was deleted is still at its place, exactly as
    it was.  The twelfth, [POST /api/data], does so when its body brings no
    files; when it brings files, they replace the files of the document, so
    this route can change a deleted file or bring it back. *)
Theorem deleted_files_stay_as_they_are (now : Z) (st : Server.Store) :
  let kept (st' : Server.Store) := deletedKept (Server.loadData st) (Server.loadData st') in
  (forall fileId r, kept (fst (Server.upload now fileId r st))) /\
  (forall r, kept (fst (Server.batchUpload now r st))) /\
  (forall ident, kept (fst (Server.getFile now ident st))) /\
  (forall ident body, kept (fst (Server.updateFile now ident body st))) /\
  (forall ident password, kept (fst (Server.deleteFile now ident password st))) /\
  (forall r, kept (fst (Server.addTag now r st))) /\
  (forall r, kept (fst (Server.addModel now r st))) /\
  (forall r, kept (fst (Server.addCategory now r st))) /\
  (forall ident r, kept (fst (Server.updateModel now ident r st))) /\
  (forall ident r, kept (fst (Server.updateCategory now ident r st))) /\
  (forall ident, kept (fst (Server.deleteCategory now ident st))) /\
  (forall body, Server.b_files body = None ->
                kept (fst (Server.postData now body st))) /\
  (forall body fs, Server.b_files body = Some fs -> Server.writable st = true ->
                   files (Server.loadData (fst (Server.postData now body st))) = fs) /\
  (exists st0 body,
     ~ deletedKept (Server.loadData st0)
                   (Server.loadData (fst (Server.postData now body st0)))).
Proof.
  intros kept. subst kept. cbv beta.
  assert (R : deletedKept (Server.loadData st) (Server.loadData st))
    by now apply deletedKept_files.
  repeat apply conj.
  - intros fileId r. unfold Server.upload.
    destruct (Server.u_file r) as [[[o n] s] |]; [| exact R].
    unfold Server.reply, Server.saveData. destruct (Server.writable st); [| exact R].
    now eapply deletedKept_app.
  - intros r. unfold Server.batchUpload.
    destruct (Server.q_files r) as [entries |]; [| exact R].
    unfold Server.saveData. destruct (Server.writable st); [| exact R].
    now eapply deletedKept_app.
  - intros ident. unfold Server.getFile.
    destruct (findIndexed _ _) as [[i f] |] eqn:F; [| exact R].
    apply findIndexed_found in F as [L P]. apply andb_true_iff in P as [_ A].
    unfold Server.saveData. destruct (Server.writable st); [| exact R].
    now eapply (deletedKept_alter_active _ _ i f).
  - intros ident body. unfold Server.updateFile.
    destruct (findIndexed _ _) as [[i f] |] eqn:F; [| exact R].
    apply findIndexed_found in F as [L P]. apply andb_true_iff in P as [_ A].
    unfold Server.reply, Server.saveData. destruct (Server.writable st); [| exact R].
    now eapply (deletedKept_insert _ _ i f).
  - intros ident password. unfold Server.deleteFile.
    destruct (negb _); [exact R |].
    destruct (JS.findIndex _ _) as [i |]; [| exact R].
    unfold Server.reply, Server.saveData. destruct (Server.writable st); [| exact R].
    now eapply (deletedKept_mark _ _ i).
  - intros r. unfold Server.addTag. destruct (negb _); [exact R |].
    unfold Server.reply, Server.saveData. destruct (Server.writable st); [| exact R].
    now apply deletedKept_files.
  - intros r. unfold Server.addModel. destruct (negb _); [exact R |].
    unfold Server.reply, Server.saveData. destruct (Server.writable st); [| exact R].
    now apply deletedKept_files.
  - intros r. unfold Server.addCategory. destruct (negb _); [exact R |].
    unfold Server.reply, Server.saveData. destruct (Server.writable st); [| exact R].
    now apply deletedKept_files.
  - intros ident r. unfold Server.updateModel. destruct (negb _); [exact R |].
    destruct (preset_models _) as [ms |]; [| exact R].
    destruct (findIndexed _ ms) as [[i m] |]; [| exact R].
    unfold Server.reply, Server.saveData. destruct (Server.writable st); [| exact R].
    now apply deletedKept_files.
  - intros ident r. unfold Server.updateCategory. destruct (negb _); [exact R |].
    destruct (categories _) as [cs |]; [| exact R].
    destruct (findIndexed _ cs) as [[i c] |]; [| exact R].
    unfold Server.reply, Server.saveData. destruct (Server.writable st); [| exact R].
    now apply deletedKept_files.
  - intros ident. unfold Server.deleteCategory.
    destruct (categories _) as [cs |]; [| exact R].
    destruct (findIndexed _ cs) as [[i c] |]; [| exact R].
    destruct (0 <? _)%nat; [exact R |].
    unfold Server.reply, Server.saveData. destruct (Server.writable st); [| exact R].
    now apply deletedKept_files.
  - intros body B. unfold Server.postData, Server.saveData.
    destruct (Server.writable st); [| exact R].
    apply deletedKept_files. cbn [fst Server.loadData Server.content default from_option files].
    now rewrite B.
  - intros body fs B W. unfold Server.postData, Server.saveData. rewrite W.
    cbn [fst Server.loadData Server.content default from_option files]. now rewrite B.
  - exists (Server.mkStore
              (Some (holding [File.setStatus "deleted" (titled "1" "old")])) true),
           (Server.mkDataBody None (Some []) None None None None).
    intros K. specialize (K 0 (File.setStatus "deleted" (titled "1" "old")) eq_refl eq_refl).
    discriminate K.
Qed.

(** X7.  The four statistics are an invariant of eleven of the twelve routes
    that write the document: when the stored document counts its active
    files, its tags, its models, and the distinct categories of its files,
    then so does the document stored after an upload, a batch upload, a
    read, an update or a delete of a file, the creation of a tag, a model or
    a category, the rename of a model or a category, and the delete of a
    category.  The twelfth, [POST /api/data], stores the statistics of its
    body, or the old ones, without a recount, so it can leave statistics
    that do not count what the document holds. *)
Theorem statistics_stay_consistent (now : Z) (st : Server.Store) :
  statsConsistent (Server.loadData st) ->
  let ok (st' : Server.Store) := statsConsistent (Server.loadData st') in
  (forall fileId r, ok (fst (Server.upload now fileId r st))) /\
  (forall r, ok (fst (Server.batchUpload now r st))) /\
  (forall ident, ok (fst (Server.getFile now ident st))) /\
  (forall ident body, ok (fst (Server.updateFile now ident body st))) /\
  (forall ident password, ok (fst (Server.deleteFile now ident password st))) /\
  (forall r, ok (fst (Server.addTag now r st))) /\
  (forall r, ok (fst (Server.addModel now r st))) /\
  (forall r, ok (fst (Server.addCategory now r st))) /\
  (forall ident r, ok (fst (Server.updateModel now ident r st))) /\
  (forall ident r, ok (fst (Server.updateCategory now ident r st))) /\
  (forall ident, ok (fst (Server.deleteCategory now ident st))) /\
  (forall body, Server.writable st = true ->
     settings (Server.loadData (fst (Server.postData now body st))) =
     default (settings (Server.loadData st)) (Server.b_settings body)) /\
  (exists st0 body,
     statsConsistent (Server.loadData st0) /\
     ~ statsConsistent (Server.loadData (fst (Server.postData now body st0)))).
Proof.
  intros R ok. subst ok. cbv beta.
  split; [| split; [| split; [| split; [| split; [| split; [| split; [| split;
    [| split; [| split; [| split; [| split]]]]]]]]]]].
  - intros fileId r. unfold Server.upload.
    destruct (Server.u_file r) as [[[o n] s] |]; [| exact R].
    unfold Server.reply, Server.saveData. destruct (Server.writable st); [| exact R].
    apply statsConsistent_updateStats.
  - intros r. unfold Server.batchUpload.
    destruct (Server.q_files r) as [entries |]; [| exact R].
    unfold Server.saveData. destruct (Server.writable st); [| exact R].
    apply statsConsistent_updateStats.
  - intros ident. unfold Server.getFile.
    destruct (findIndexed _ _) as [[i f] |] eqn:F; [| exact R].
    unfold Server.saveData. destruct (Server.writable st); [| exact R].
    destruct R as (R1 & R2 & R3 & R4). unfold statsConsistent. simpl.
    rewrite active_count_alter by reflexivity.
    rewrite categorySet_alter by reflexivity. auto.
  - intros ident body. unfold Server.updateFile.
    destruct (findIndexed _ _) as [[i f] |] eqn:F; [| exact R].
    unfold Server.reply, Server.saveData. destruct (Server.writable st); [| exact R].
    apply statsConsistent_updateStats.
  - intros ident password. unfold Server.deleteFile.
    destruct (negb _); [exact R |].
    destruct (JS.findIndex _ _) as [i |]; [| exact R].
    unfold Server.reply, Server.saveData. destruct (Server.writable st); [| exact R].
    apply statsConsistent_updateStats.
  - intros r. unfold Server.addTag. destruct (negb _); [exact R |].
    unfold Server.reply, Server.saveData. destruct (Server.writable st); [| exact R].
    apply statsConsistent_updateStats.
  - intros r. unfold Server.addModel. destruct (negb _); [exact R |].
    unfold Server.reply, Server.saveData. destruct (Server.writable st); [| exact R].
    apply statsConsistent_updateStats.
  - intros r. unfold Server.addCategory. destruct (negb _); [exact R |].
    unfold Server.reply, Server.saveData. destruct (Server.writable st); [| exact R].
    apply statsConsistent_updateStats.
  - intros ident r. unfold Server.updateModel. destruct (negb _); [exact R |].
    destruct (preset_models _) as [ms |] eqn:M; [| exact R].
    destruct (findIndexed _ ms) as [[i m] |]; [| exact R].
    unfold Server.reply, Server.saveData. destruct (Server.writable st); [| exact R].
    destruct R as (R1 & R2 & R3 & R4). unfold statsConsistent. simpl.
    rewrite M in R3. simpl in R3. rewrite length_insert. auto.
  - intros ident r. unfold Server.updateCategory. destruct (negb _); [exact R |].
    destruct (categories _) as [cs |]; [| exact R].
    destruct (findIndexed _ cs) as [[i c] |]; [| exact R].
    unfold Server.reply, Server.saveData. destruct (Server.writable st); [| exact R].
    exact R.
  - intros ident. unfold Server.deleteCategory.
    destruct (categories _) as [cs |]; [| exact R].
    destruct (findIndexed _ cs) as [[i c] |]; [| exact R].
    destruct (0 <? _)%nat; [exact R |].
    unfold Server.reply, Server.saveData. destruct (Server.writable st); [| exact R].
    apply statsConsistent_updateStats.
  - intros body W. unfold Server.postData, Server.saveData. now rewrite W.
  - exists (Server.mkStore None true),
           (Server.mkDataBody None (Some [titled "1" "new"]) None None None None).
    split; [repeat split |]. intros (K & _). discriminate K.
Qed.

(** The hypothesis is met by the empty store; after an upload the stored
    statistics count one file. *)
Lemma statistics_stay_consistent_witness :
  let st := Server.mkStore None true in
  let r := Server.mkUploadReq (Some ("a.html", "f3a9.html", 10)) "A" "" "Tools" "" "" "" [] in
  statsConsistent (Server.loadData (fst (Server.upload 5 "0123456789abcdef" r st))).
Proof.
  intros st r.
  assert (H : statsConsistent (Server.loadData st)) by (vm_compute; repeat split).
  exact (proj1 (statistics_stay_consistent 5 st H) "0123456789abcdef" r).
Defined.

(** ** Categories and tags: delete and rename together *)

Section Keyed.

Context {A : Type} (key : A -> string).

Lemma removeAt_delete (i : nat) (l : list A) : JS.removeAt i l = delete i l.
Proof.
  revert i. induction l as [|x l IH]; intros [|i]; simpl; try reflexivity.
  now rewrite IH.
Qed.

(** With unique keys the search by key finds the one element of that key,
    and no element of that key is left when it is taken out. *)
Lemma findIndexed_unique (k : string) (l : list A) (x : A) :
  NoDup (List.map key l) -> In x l -> key x = k ->
  exists i, findIndexed (fun y => String.eqb (key y) k) l = Some (i, x) /\
            l !! i = Some x /\
            forall y, In y (JS.removeAt i l) -> key y <> k.
Proof.
  induction l as [|z l IH]; intros N I E; [contradiction |].
  cbn [List.map] in N. apply NoDup_cons in N as [Nz N]. rewrite list_elem_of_In in Nz.
  cbn [findIndexed].
  destruct (String.eqb_spec (key z) k) as [Ez | Ez].
  - assert (z = x) as ->.
    { destruct I as [-> | I]; [reflexivity |]. exfalso. apply Nz.
      rewrite Ez, <- E. now apply in_map. }
    exists 0. split; [reflexivity |]. split; [reflexivity |].
    simpl. intros y Iy Ey. apply Nz. rewrite E, <- Ey. now apply in_map.
  - destruct I as [-> | I]; [contradiction |].
    destruct (IH N I E) as (i & F & L & R). exists (S i). rewrite F.
    split; [reflexivity |]. split; [exact L |].
    simpl. intros y [<- | Iy]; [exact Ez | now apply R].
Qed.

Lemma findIndexed_absent (k : string) (l : list A) :
  (forall y, In y l -> key y <> k) ->
  findIndexed (fun y => String.eqb (key y) k) l = None.
Proof.
  intros H. apply findIndexed_none. intros y I.
  destruct (String.eqb_spec (key y) k) as [E | E]; [now apply H in E | reflexivity].
Qed.

End Keyed.

(** X8.  [DELETE /api/categories/:id] answers 404 and changes nothing when
    no category has the identifier.  When the category exists, no file at all
    carries its name and the store can be written, exactly that entry is
    taken out: the other categories stay in their order, no entry of that
    identifier is left (identifiers being unique), and the files are not
    touched. *)
Theorem deleteCategory_takes_out_one_entry
    (now : Z) (ident : string) (st : Server.Store) :
  let d := Server.loadData st in
  ((forall c, In c (default [] (categories d)) -> Category.id c <> ident) ->
   Server.deleteCategory now ident st = (st, Server.Fail 404 CategoryNotFound)) /\
  (forall cs c,
      categories d = Some cs -> NoDup (List.map Category.id cs) ->
      In c cs -> Category.id c = ident ->
      filesUsingCategory (Category.name c) (files d) = [] ->
      Server.writable st = true ->
      exists st' cs',
        Server.deleteCategory now ident st = (st', Server.Json c) /\
        categories (Server.loadData st') = Some cs' /\
        sublist cs' cs /\ length cs' + 1 = length cs /\
        (forall c', In c' cs' -> Category.id c' <> ident) /\
        files (Server.loadData st') = files d).
Proof.
  intros d. split.
  - intros H. unfold Server.deleteCategory. fold d.
    destruct (categories d) as [cs |]; [| reflexivity].
    now rewrite (findIndexed_absent Category.id ident cs H).
  - intros cs c C N I E U W.
    destruct (findIndexed_unique Category.id ident cs c N I E) as (i & F & L & R).
    unfold Server.deleteCategory, Server.reply, Server.saveData. fold d.
    rewrite C, F, U, W. simpl.
    eexists _, (JS.removeAt i cs). split; [reflexivity |].
    split; [reflexivity |]. rewrite removeAt_delete in *.
    split; [apply sublist_delete |]. split; [| split; [exact R | reflexivity]].
    rewrite length_delete by eauto. apply lookup_lt_Some in L. lia.
Qed.

(** The hypotheses of the second part are met by a store with the one
    category "Games", which no file carries. *)
Lemma deleteCategory_takes_out_one_entry_witness :
  let c := Category.mk "category_1" "Games" "" 1 0 None in
  let st := Server.mkStore (Some (withCategories [c] (holding [titled "1" "a"]))) true in
  exists st', Server.deleteCategory 5 "category_1" st = (st', Server.Json c) /\
              categories (Server.loadData st') = Some [].
Proof.
  intros c st.
  assert (N : NoDup (List.map Category.id [c])).
  { simpl. constructor; [intros H; apply list_elem_of_In in H; destruct H | constructor]. }
  destruct (proj2 (deleteCategory_takes_out_one_entry 5 "category_1" st) [c] c eq_refl N
              (or_introl eq_refl) eq_refl eq_refl eq_refl)
    as (st' & cs' & D & C & S & Len & _).
  exists st'. split; [exact D |]. rewrite C.
  destruct cs' as [|x cs']; [reflexivity | simpl in Len; lia].
Defined.

(** X9.  The category guard looks for the name and files keep the name they
    were given, so a rename by identifier releases a category: once a
    category is renamed to a name that no file carries, it can be deleted,
    although every file that carried its old name still does. *)
Theorem renamed_category_can_be_deleted
    (now1 now2 : Z) (ident : string) (r : PresetReq) (st : Server.Store)
    (cs : list Category.t) (c : Category.t) :
  let d := Server.loadData st in
  categories d = Some cs -> NoDup (List.map Category.id cs) ->
  In c cs -> Category.id c = ident ->
  r_name r <> "" ->
  (forall f, In f (files d) -> File.category f <> r_name r) ->
  Server.writable st = true ->
  exists st1 st2,
    Server.updateCategory now1 ident r st = (st1, Server.Json (renameCategory now1 r c)) /\
    Server.deleteCategory now2 ident st1 = (st2, Server.Json (renameCategory now1 r c)) /\
    (forall c', In c' (default [] (categories (Server.loadData st2))) ->
                Category.id c' <> ident) /\
    files (Server.loadData st2) = files d /\
    activeCategoryUse (Category.name c) (files (Server.loadData st2)) =
    activeCategoryUse (Category.name c) (files d).
Proof.
  intros d C N I E Nm Fresh W.
  destruct (findIndexed_unique Category.id ident cs c N I E) as (i & F & L & R).
  assert (U : Server.updateCategory now1 ident r st =
              (Server.mkStore
                 (Some (withCategories (<[i := renameCategory now1 r c]> cs) d)) true,
               Server.Json (renameCategory now1 r c))).
  { unfold Server.updateCategory, Server.reply, Server.saveData. fold d.
    now rewrite (truthy_true _ Nm), C, F, W. }
  eexists _, _. split; [exact U |].
  assert (F' : findIndexed (fun y => String.eqb (Category.id y) ident)
                           (<[i := renameCategory now1 r c]> cs)
               = Some (i, renameCategory now1 r c)).
  { apply (findIndexed_insert _ cs i c); [exact F |]. simpl. rewrite E.
    apply String.eqb_refl. }
  assert (Un : filesUsingCategory (r_name r) (files d) = []).
  { unfold filesUsingCategory. induction (files d) as [|f fs IH]; [reflexivity |].
    simpl. destruct (String.eqb_spec (File.category f) (r_name r)) as [Ef | Ef].
    - exfalso. apply (Fresh f); [now left | exact Ef].
    - apply IH. intros g Ig. apply Fresh. now right. }
  unfold Server.deleteCategory, Server.reply, Server.saveData. simpl.
  rewrite F'. simpl. fold d. rewrite Un. simpl.
  split; [reflexivity |]. split; [| split; reflexivity].
  intros c' Ic'. rewrite removeAt_delete in Ic'.
  assert (Dl : delete i (<[i := renameCategory now1 r c]> cs) = delete i cs).
  { clear. revert i. induction cs as [|x l IH]; intros [|i]; simpl; try reflexivity.
    change (list_insert i (renameCategory now1 r c) l)
      with (<[i := renameCategory now1 r c]> l).
    now rewrite IH. }
  rewrite Dl, <- removeAt_delete in Ic'. now apply R.
Qed.

(** The category "Games" is carried by one file; renamed to "Play", which no
    file carries, it is deleted, and the file still carries "Games". *)
Lemma renamed_category_can_be_deleted_witness :
  let c := Category.mk "category_1" "Games" "" 1 0 None in
  let f := File.mk "1" "" "" 0 0 0 "A" "" "Games" "" "" "" [] "active" None in
  let st := Server.mkStore (Some (withCategories [c] (holding [f]))) true in
  let r := mkPresetReq "Play" "" "" in
  snd (Server.deleteCategory 5 "category_1" st) = Server.Fail 400 (CategoryInUse 1) /\
  exists st1 st2,
    Server.updateCategory 6 "category_1" r st = (st1, Server.Json (renameCategory 6 r c)) /\
    Server.deleteCategory 7 "category_1" st1 = (st2, Server.Json (renameCategory 6 r c)) /\
    files (Server.loadData st2) = [f].
Proof.
  intros c f st r. split; [reflexivity |].
  assert (N : NoDup (List.map Category.id [c])).
  { simpl. constructor; [intros H; apply list_elem_of_In in H; destruct H | constructor]. }
  assert (Fr : forall g, In g (files (Server.loadData st)) -> File.category g <> r_name r).
  { intros g [<- | []]. discriminate. }
  destruct (renamed_category_can_be_deleted 6 7 "category_1" r st [c] c eq_refl N
              (or_introl eq_refl) eq_refl ltac:(discriminate) Fr eq_refl)
    as (st1 & st2 & U & D & _ & Fs & _).
  exists st1, st2. split; [exact U |]. split; [exact D | exact Fs].
Defined.

(** ** The usage maps of the trae-trash variant *)

Section Usage.

Lemma countKey_cons (k x : string) (keys : list string) :
  countKey k (x :: keys) = (if String.eqb k x then 1 else 0) + countKey k keys.
Proof. unfold countKey. simpl. now destruct (String.eqb k x). Qed.

Lemma countKey_app (k : string) (a b : list string) :
  countKey k (a ++ b) = countKey k a + countKey k b.
Proof. unfold countKey. now rewrite List.filter_app, length_app. Qed.

Lemma countKey_pos (k : string) (keys : list string) :
  0 < countKey k keys <-> In k keys.
Proof.
  induction keys as [|x keys IH]; [unfold countKey; simpl; split; [lia | tauto] |].
  rewrite countKey_cons. simpl.
  destruct (String.eqb_spec k x) as [-> | N].
  - split; [now left | lia].
  - rewrite IH. split; [now right | intros [E | I]; congruence].
Qed.

(** Counting keys into a counter object, one [bump] per key. *)
Lemma bump_fold (keys : list string) : forall (m : gmap string Trae.counter) (k : string),
  foldl (fun acc x => Trae.bump x acc) m keys !! k =
  if String.eqb k "__proto__" then m !! k
  else if (countKey k keys =? 0)%nat then m !! k
  else match m !! k with
       | Some (Trae.Count n) => Some (Trae.Count (n + countKey k keys))
       | Some (Trae.Text ones) => Some (Trae.Text (ones + countKey k keys))
       | None => Some (if Trae.inherited k then Trae.Text (countKey k keys)
                       else Trae.Count (countKey k keys))
       end.
Proof.
  induction keys as [|x keys IH]; intros m k.
  - cbn [foldl]. unfold countKey. simpl. now destruct (String.eqb k "__proto__").
  - cbn [foldl]. rewrite IH, countKey_cons.
    destruct (String.eqb_spec k "__proto__") as [Ek | Nk]; unfold Trae.bump.
    + destruct (String.eqb_spec x "__proto__") as [Ex | Nx]; [reflexivity |].
      assert (Nkx : x <> k) by congruence.
      destruct (m !! x) as [[n | ones] |]; now rewrite lookup_insert_ne.
    + destruct (String.eqb_spec x "__proto__") as [Ex | Nx].
      * destruct (String.eqb_spec k x) as [E | N]; [congruence | reflexivity].
      * destruct (String.eqb_spec k x) as [<- | N].
        -- destruct (m !! k) as [[n | ones] |] eqn:L; rewrite lookup_insert_eq;
             cbn [Nat.add Nat.eqb];
             destruct (Nat.eqb_spec (countKey k keys) 0) as [Z0 | NZ];
             rewrite ?Z0, ?Nat.add_0_r; try reflexivity;
             destruct (Trae.inherited k); do 2 f_equal; lia.
        -- assert (Nkx : x <> k) by congruence.
           destruct (m !! x) as [[n | ones] |]; now rewrite lookup_insert_ne.
Qed.

Lemma bump_fold_empty (keys : list string) (k : string) :
  foldl (fun acc x => Trae.bump x acc) (∅ : gmap string Trae.counter) keys !! k =
  usageOf k keys.
Proof.
  rewrite bump_fold, lookup_empty. unfold usageOf.
  destruct (String.eqb k "__proto__"); [reflexivity |].
  now destruct (countKey k keys =? 0)%nat.
Qed.

Lemma foldl_nested {X Y Z} (g : Z -> Y -> Z) (h : X -> list Y) (fs : list X) :
  forall m, foldl (fun acc f => foldl g acc (h f)) m fs = foldl g m (concat (List.map h fs)).
Proof.
  induction fs as [|f fs IH]; intros m; [reflexivity |].
  simpl. now rewrite IH, foldl_app.
Qed.

Lemma foldl_mapped {X Y Z} (g : Z -> Y -> Z) (h : X -> Y) (fs : list X) :
  forall m, foldl (fun acc f => g acc (h f)) m fs = foldl g m (List.map h fs).
Proof.
  induction fs as [|f fs IH]; intros m; [reflexivity |]. simpl. now rewrite IH.
Qed.

Lemma usage_tags (fallback : string) (d : Trae.Database) (k : string) :
  Trae.s_tags (Trae.statistics (Trae.updateStatistics fallback d)) !! k =
  usageOf k (tagsOf (Trae.html_files d)).
Proof.
  unfold Trae.updateStatistics. simpl.
  rewrite (foldl_nested (fun acc' tag => Trae.bump tag acc') Trae.tags).
  apply bump_fold_empty.
Qed.

Lemma usage_models (fallback : string) (d : Trae.Database) (k : string) :
  Trae.s_models (Trae.statistics (Trae.updateStatistics fallback d)) !! k =
  usageOf k (modelsOf (Trae.html_files d)).
Proof.
  unfold Trae.updateStatistics, modelsOf. simpl.
  rewrite (foldl_nested (fun acc' m => Trae.bump (Trae.m_name m) acc') Trae.models).
  rewrite (foldl_mapped (fun acc x => Trae.bump x acc) Trae.m_name).
  rewrite bump_fold_empty. f_equal.
  induction (Trae.html_files d) as [|f fs IH]; [reflexivity |].
  simpl. now rewrite List.map_app, IH.
Qed.

Lemma usage_categories (fallback : string) (d : Trae.Database) (k : string) :
  Trae.s_categories (Trae.statistics (Trae.updateStatistics fallback d)) !! k =
  usageOf k (categoriesOf fallback (Trae.html_files d)).
Proof.
  unfold Trae.updateStatistics, categoriesOf. simpl.
  rewrite (foldl_mapped (fun acc x => Trae.bump x acc)
             (fun f => orElse (Trae.category f) fallback)).
  apply bump_fold_empty.
Qed.

Lemma usageOf_some (k : string) (keys : list string) :
  is_Some (usageOf k keys) <-> In k keys /\ k <> "__proto__".
Proof.
  unfold usageOf. rewrite <- countKey_pos.
  destruct (String.eqb_spec k "__proto__") as [E | N].
  - split; [intros [x H]; discriminate | tauto].
  - destruct (Nat.eqb_spec (countKey k keys) 0) as [Z0 | NZ].
    + rewrite Z0. split; [intros [x H]; discriminate | lia].
    + split; [intros _; split; [lia | exact N] | eauto].
Qed.

Lemma usageOf_ordinary (k : string) (keys : list string) :
  ordinary k = true -> In k keys ->
  usageOf k keys = Some (Trae.Count (countKey k keys)).
Proof.
  intros O I. unfold ordinary in O. apply andb_true_iff in O as [P H].
  apply negb_true_iff in P, H. unfold usageOf. rewrite P, H.
  apply countKey_pos in I. destruct (Nat.eqb_spec (countKey k keys) 0); [lia | reflexivity].
Qed.

Lemma counted_In (k : string) (keys : list string) :
  In k (counted keys) <-> In k keys /\ k <> "__proto__".
Proof.
  unfold counted. rewrite filter_In.
  destruct (String.eqb_spec k "__proto__"); simpl; intuition congruence.
Qed.

(** A counter object has one property for every key counted. *)
Lemma usage_size (m : gmap string Trae.counter) (keys : list string) :
  (forall k, m !! k = usageOf k keys) ->
  size m = size (list_to_set (counted keys) : gset string).
Proof.
  intros H. rewrite <- size_dom. f_equal. apply set_eq. intros k.
  rewrite elem_of_dom, H, usageOf_some, elem_of_list_to_set, list_elem_of_In.
  symmetry. apply counted_In.
Qed.

End Usage.

(** X10.  [updateStatistics] counts from the files alone and leaves them as
    they are.  [total_files] is the number of records.  The counters of
    tags, of model names and of categories (a file without category under
    the fallback name) are objects created as [{}]: a name that does not
    occur has no property; a name that is counted as a number has the number
    of its occurrences; a name for which objects inherit a function, such as
    "constructor", has a text and no number; and "__proto__" has no property
    at all.  [total_tags] and [total_models] are the numbers of distinct
    tags and model names in use other than "__proto__".  (An entry of
    [models] is a record with a name.) *)
Theorem usage_maps_count_occurrences (fallback : string) (d : Trae.Database) :
  let s := Trae.statistics (Trae.updateStatistics fallback d) in
  let fs := Trae.html_files d in
  Trae.html_files (Trae.updateStatistics fallback d) = fs /\
  Trae.total_files s = length fs /\
  (forall tag, Trae.s_tags s !! tag = usageOf tag (tagsOf fs)) /\
  (forall m, Trae.s_models s !! m = usageOf m (modelsOf fs)) /\
  (forall c, Trae.s_categories s !! c = usageOf c (categoriesOf fallback fs)) /\
  (forall tag, ordinary tag = true -> In tag (tagsOf fs) ->
     Trae.s_tags s !! tag = Some (Trae.Count (countKey tag (tagsOf fs)))) /\
  (forall tag, Trae.inherited tag = true -> In tag (tagsOf fs) ->
     Trae.s_tags s !! tag = Some (Trae.Text (countKey tag (tagsOf fs)))) /\
  (forall tag, ~ In tag (tagsOf fs) -> Trae.s_tags s !! tag = None) /\
  Trae.s_tags s !! "__proto__" = None /\
  Trae.total_tags s = size (list_to_set (counted (tagsOf fs)) : gset string) /\
  Trae.total_models s = size (list_to_set (counted (modelsOf fs)) : gset string).
Proof.
  intros s fs. subst s fs.
  split; [reflexivity |]. split; [reflexivity |].
  split; [apply usage_tags |]. split; [apply usage_models |].
  split; [apply usage_categories |].
  split; [intros tag O I; rewrite usage_tags; now apply usageOf_ordinary |].
  split.
  { intros tag H I. rewrite usage_tags. unfold usageOf.
    assert (P : String.eqb tag "__proto__" = false).
    { apply String.eqb_neq. intros ->. discriminate H. }
    rewrite P, H. apply countKey_pos in I.
    destruct (Nat.eqb_spec (countKey tag (tagsOf (Trae.html_files d))) 0);
      [lia | reflexivity]. }
  split.
  { intros tag NI. rewrite usage_tags. apply eq_None_not_Some.
    rewrite usageOf_some. tauto. }
  split; [now rewrite usage_tags |].
  split.
  - apply (usage_size (Trae.s_tags (Trae.statistics (Trae.updateStatistics fallback d)))).
    intros k. apply usage_tags.
  - apply (usage_size (Trae.s_models (Trae.statistics (Trae.updateStatistics fallback d)))).
    intros k. apply usage_models.
Qed.

(** ** [editTag]: when it succeeds, and what it does to the usage *)

Section EditTag.

Lemma updatedCount_zero (a : string) (fs : list Trae.HtmlFile) :
  Trae.updatedCount a fs = 0 <-> forall f, In f fs -> ~ In a (Trae.tags f).
Proof.
  unfold Trae.updatedCount. induction fs as [|f fs IH]; simpl; [tauto |].
  destruct (JS.includes (Trae.tags f) a) eqn:I; simpl.
  - split; [discriminate |]. intros H. exfalso. apply (H f); [now left |].
    now apply includes_In.
  - rewrite IH. split.
    + intros H g [<- | Ig]; [| now apply H].
      intros Ia. apply includes_In in Ia. congruence.
    + intros H g Ig. apply H. now right.
Qed.

(** One rewritten tag list: one occurrence of the old name becomes the new
    name. *)
Lemma countKey_replaceFirst (a b k : string) (ts : list string) :
  a <> b -> JS.includes ts a = true ->
  countKey k (Trae.replaceFirst a b ts) + (if String.eqb k a then 1 else 0) =
  countKey k ts + (if String.eqb k b then 1 else 0).
Proof.
  intros N. unfold JS.includes.
  induction ts as [|x ts IH]; [discriminate |].
  cbn [existsb Trae.replaceFirst]. rewrite (String.eqb_sym a x).
  destruct (String.eqb_spec x a) as [-> | Nx]; simpl.
  - intros _. rewrite !countKey_cons.
    destruct (String.eqb k a), (String.eqb k b); lia.
  - intros I. specialize (IH I). rewrite !countKey_cons. revert IH.
    destruct (String.eqb k a), (String.eqb k b), (String.eqb k x); lia.
Qed.

Lemma countKey_retag (now : Z) (a b k : string) (fs : list Trae.HtmlFile) :
  a <> b ->
  countKey k (tagsOf (List.map (Trae.retag now a b) fs)) +
    (if String.eqb k a then Trae.updatedCount a fs else 0) =
  countKey k (tagsOf fs) + (if String.eqb k b then Trae.updatedCount a fs else 0).
Proof.
  intros N. unfold tagsOf, Trae.updatedCount.
  induction fs as [|f fs IH];
    [unfold countKey; simpl; now destruct (String.eqb k a), (String.eqb k b) |].
  cbn [List.map concat List.filter]. rewrite !countKey_app.
  unfold Trae.retag at 1.
  destruct (JS.includes (Trae.tags f) a) eqn:I; cbn [Trae.tags length].
  - pose proof (countKey_replaceFirst a b k (Trae.tags f) N I) as R.
    revert IH R. destruct (String.eqb k a), (String.eqb k b); lia.
  - revert IH. destruct (String.eqb k a), (String.eqb k b); lia.
Qed.

End EditTag.

(** X11.  [editTag] answers [true] exactly when both names are given, they
    differ, some file holds the old name and the write succeeds.  When a name
    is missing, the names are equal, or no file holds the old name, the
    manager is left as it was. *)
Theorem editTag_succeeds_exactly_when (fallback : string) (now : Z) (a b : string) (db : Trae.t) :
  (snd (Trae.editTag fallback now a b db) = true <->
   a <> "" /\ b <> "" /\ a <> b /\
   (exists f, In f (Trae.html_files (Trae.data db)) /\ In a (Trae.tags f)) /\
   Trae.writable db = true) /\
  (a = "" \/ b = "" \/ a = b \/
   (forall f, In f (Trae.html_files (Trae.data db)) -> ~ In a (Trae.tags f)) ->
   Trae.editTag fallback now a b db = (db, false)).
Proof.
  unfold Trae.editTag, JS.truthy.
  destruct (String.eqb_spec a "") as [Ea | Ea]; simpl.
  { split; [| reflexivity]. split; [discriminate | tauto]. }
  destruct (String.eqb_spec b "") as [Eb | Eb]; simpl.
  { split; [| reflexivity]. split; [discriminate | tauto]. }
  destruct (String.eqb_spec a b) as [Eab | Eab].
  { split; [| reflexivity]. split; [discriminate | tauto]. }
  destruct (Nat.eqb_spec (Trae.updatedCount a (Trae.html_files (Trae.data db))) 0)
    as [Z0 | NZ].
  { split; [| reflexivity]. split; [discriminate |].
    intros (_ & _ & _ & (f & I & Ia) & _). exfalso.
    now apply (proj1 (updatedCount_zero a _) Z0 f). }
  split.
  - unfold Trae.saveData. destruct (Trae.writable db); simpl.
    + split; [intros _ | reflexivity]. repeat split; try assumption.
      unfold Trae.updatedCount in NZ.
      destruct (List.filter _ _) as [|f l] eqn:F; [contradiction |].
      assert (I : In f (List.filter (fun f => JS.includes (Trae.tags f) a)
                                    (Trae.html_files (Trae.data db))))
        by (rewrite F; now left).
      apply filter_In in I as [I Ia]. exists f. split; [exact I | now apply includes_In].
    + split; [discriminate | intros (_ & _ & _ & _ & W); discriminate W].
  - intros [H | [H | [H | H]]]; try contradiction.
    exfalso. apply NZ. now apply updatedCount_zero.
Qed.

(** The right-hand side is met by a manager with one file tagged "A". *)
Lemma editTag_succeeds_exactly_when_witness :
  let f := Trae.mkHtmlFile "1" "a.html" "demo" "p" [] ["A"] "x" "" 0 1 1 0 0 [] in
  let db := Trae.mk (Trae.mkDatabase [f] (Trae.mkStatistics 0 0 0 ∅ ∅ ∅ 0 0) 1) None true in
  snd (Trae.editTag "other" 5 "A" "B" db) = true.
Proof.
  intros f db. apply (proj1 (editTag_succeeds_exactly_when "other" 5 "A" "B" db)).
  split; [discriminate |]. split; [discriminate |]. split; [discriminate |].
  split; [| reflexivity]. exists f. split; now left.
Defined.

(** X12.  A rename that succeeds moves usage from the old name to the new
    one.  With [n] the number of files rewritten, every name occurs in the
    tag lists afterwards as often as before, the new name [n] times more and
    the old name [n] times less; the counter of tags is the count of the
    rewritten files, so for names that are counted as numbers it has [n] more
    under the new name, [n] less under the old name and the same number
    under every other name.  [n] is at least one and is the number of files
    that held the old name. *)
Theorem editTag_moves_the_usage (fallback : string) (now : Z) (a b : string) (db db' : Trae.t) :
  Trae.editTag fallback now a b db = (db', true) ->
  let fs := Trae.html_files (Trae.data db) in
  let fs' := Trae.html_files (Trae.data db') in
  let n := Trae.updatedCount a fs in
  let usage := numberAt (Trae.s_tags (Trae.statistics (Trae.data db'))) in
  0 < n /\
  fs' = List.map (Trae.retag now a b) fs /\
  (forall k, countKey k (tagsOf fs') + (if String.eqb k a then n else 0) =
             countKey k (tagsOf fs) + (if String.eqb k b then n else 0)) /\
  (forall k, Trae.s_tags (Trae.statistics (Trae.data db')) !! k = usageOf k (tagsOf fs')) /\
  (ordinary b = true -> usage b = countKey b (tagsOf fs) + n) /\
  (ordinary a = true -> usage a + n = countKey a (tagsOf fs)) /\
  (forall k, k <> a -> k <> b -> ordinary k = true -> usage k = countKey k (tagsOf fs)) /\
  Trae.total_files (Trae.statistics (Trae.data db')) = length fs.
Proof.
  intros H fs fs' n usage.
  assert (Nab : a <> b /\ 0 < n /\
                Trae.data db' =
                Trae.mkDatabase
                  (List.map (Trae.retag now a b) fs)
                  (Trae.statistics
                     (Trae.updateStatistics fallback
                        (Trae.mkDatabase (List.map (Trae.retag now a b) fs)
                           (Trae.statistics (Trae.data db))
                           (Trae.last_updated (Trae.data db))))) now).
  { revert H. unfold Trae.editTag.
    destruct (negb (JS.truthy a) || negb (JS.truthy b)); [discriminate |].
    destruct (String.eqb_spec a b) as [E | E]; [discriminate |].
    fold fs. fold n. destruct (Nat.eqb_spec n 0) as [Z0 | NZ]; [discriminate |].
    unfold Trae.saveData. destruct (Trae.writable db); [| discriminate].
    intros [= <-]. split; [exact E |]. split; [lia | reflexivity]. }
  destruct Nab as (Nab & Pn & D).
  assert (F : fs' = List.map (Trae.retag now a b) fs) by (subst fs'; now rewrite D).
  assert (M : forall k, Trae.s_tags (Trae.statistics (Trae.data db')) !! k =
                        usageOf k (tagsOf fs')).
  { intros k. rewrite F, D. cbn [Trae.statistics]. now rewrite usage_tags. }
  assert (U : forall k, ordinary k = true -> usage k = countKey k (tagsOf fs')).
  { intros k O. unfold usage, numberAt. rewrite M. unfold usageOf.
    unfold ordinary in O. apply andb_true_iff in O as [P I].
    apply negb_true_iff in P, I. rewrite P, I.
    destruct (Nat.eqb_spec (countKey k (tagsOf fs')) 0) as [Z0 | NZ]; congruence. }
  pose proof (countKey_retag now a b) as R.
  assert (C : forall k, countKey k (tagsOf fs') + (if String.eqb k a then n else 0) =
                        countKey k (tagsOf fs) + (if String.eqb k b then n else 0)).
  { intros k. rewrite F. apply (R k fs Nab). }
  split; [exact Pn |]. split; [exact F |]. split; [exact C |]. split; [exact M |].
  split; [| split; [| split]].
  - intros O. rewrite (U b O). specialize (C b). rewrite String.eqb_refl in C.
    destruct (String.eqb_spec b a) as [E | E]; [congruence | lia].
  - intros O. rewrite (U a O). specialize (C a). rewrite String.eqb_refl in C.
    destruct (String.eqb_spec a b) as [E | E]; [congruence | lia].
  - intros k Ka Kb O. rewrite (U k O). specialize (C k).
    destruct (String.eqb_spec k a) as [E | E]; [congruence |].
    destruct (String.eqb_spec k b) as [E' | E']; [congruence | lia].
  - rewrite D. cbn. apply length_map.
Qed.

(** Two files hold "A", one of them also "B"; after the rename of "A" to
    "B" the counter has 3 under "B" and nothing under "A". *)
Lemma editTag_moves_the_usage_witness :
  let f1 := Trae.mkHtmlFile "1" "a.html" "demo" "p" [] ["A"; "B"] "x" "" 0 1 1 0 0 [] in
  let f2 := Trae.mkHtmlFile "2" "b.html" "demo" "p" [] ["A"] "x" "" 0 1 1 0 0 [] in
  let db := Trae.mk (Trae.mkDatabase [f1; f2] (Trae.mkStatistics 0 0 0 ∅ ∅ ∅ 0 0) 1)
                    None true in
  let db' := fst (Trae.editTag "other" 5 "A" "B" db) in
  numberAt (Trae.s_tags (Trae.statistics (Trae.data db'))) "B" = 3 /\
  numberAt (Trae.s_tags (Trae.statistics (Trae.data db'))) "A" + 2 = 2.
Proof.
  intros f1 f2 db db'.
  assert (H : Trae.editTag "other" 5 "A" "B" db = (db', true)) by reflexivity.
  destruct (editTag_moves_the_usage "other" 5 "A" "B" db db' H)
    as (_ & _ & _ & _ & B & A & _).
  split; [now apply B | now apply A].
Defined.

(** ** Adding and removing records in the trae-trash variant *)

Section Records.

Lemma findIndex_fst {A} (p : A -> bool) (l : list A) :
  JS.findIndex p l = fst <$> findIndexed p l.
Proof.
  induction l as [|x l IH]; simpl; [reflexivity |].
  destruct (p x); [reflexivity |]. rewrite IH.
  now destruct (findIndexed p l) as [[i y] |].
Qed.

Lemma findIndex_none {A} (p : A -> bool) (l : list A) :
  JS.findIndex p l = None -> forall x, In x l -> p x = false.
Proof.
  induction l as [|y l IH]; simpl; [contradiction |].
  destruct (p y) eqn:Py; [discriminate |].
  destruct (JS.findIndex p l); [discriminate |].
  intros _ x [<- | I]; [exact Py | now apply IH].
Qed.

Lemma ids_insert (fs : list Trae.HtmlFile) (i : nat) (f g : Trae.HtmlFile) :
  fs !! i = Some f -> Trae.id g = Trae.id f ->
  List.map Trae.id (<[i := g]> fs) = List.map Trae.id fs.
Proof. intros L E. now apply (map_insert_same Trae.id fs i f g). Qed.

End Records.

(** X13.  [addHTMLFile] refuses an entry that lacks a required field and
    changes nothing.  Otherwise it builds the record of the entry: the
    identifier of the entry or, without one, the hashed name; the original
    name, scene, prompt, description, size, access count, rating and
    compatibility of the entry; its models and tags, or none; its category
    or the fallback name; its creation time or the clock; the clock as
    update time.  In a list of records with unique identifiers the record
    takes the place of the record of the same identifier, and is appended at
    the end when there is none; nothing else changes, so the identifiers are
    unique afterwards too, and [total_files] is the new length.  The answer
    is whether the write succeeded. *)
Theorem addHTMLFile_inserts_or_replaces (fallback : string)
    (now : Z) (hashed : string) (fileInfo : Trae.FileInfo) (db : Trae.t) :
  let fs := Trae.html_files (Trae.data db) in
  let ident := orElse (Trae.i_id fileInfo) hashed in
  let db' := fst (Trae.addHTMLFile fallback now hashed fileInfo db) in
  let fs' := Trae.html_files (Trae.data db') in
  (Trae.complete fileInfo = false ->
   Trae.addHTMLFile fallback now hashed fileInfo db = (db, false)) /\
  (Trae.complete fileInfo = true -> NoDup (List.map Trae.id fs) ->
   exists record,
     (Trae.id record = ident /\
      Trae.original_name record = Trae.i_original_name fileInfo /\
      Trae.scene record = Trae.i_scene fileInfo /\
      Trae.prompt record = Trae.i_prompt fileInfo /\
      Trae.models record = default [] (Trae.i_models fileInfo) /\
      Trae.tags record = default [] (Trae.i_tags fileInfo) /\
      Trae.category record = orElse (Trae.i_category fileInfo) fallback /\
      Trae.description record = Trae.i_description fileInfo /\
      Trae.file_size record = Trae.i_file_size fileInfo /\
      Trae.created_at record = default now (Trae.i_created_at fileInfo) /\
      Trae.updated_at record = now /\
      Trae.access_count record = Trae.i_access_count fileInfo /\
      Trae.rating record = Trae.i_rating fileInfo /\
      Trae.compatibility record = Trae.i_compatibility fileInfo) /\
     (forall i old, fs !! i = Some old -> Trae.id old = ident ->
                    fs' = <[i := record]> fs) /\
     ((forall f, In f fs -> Trae.id f <> ident) -> fs' = fs ++ [record]) /\
     NoDup (List.map Trae.id fs') /\
     In record fs' /\
     (In ident (List.map Trae.id fs) -> length fs' = length fs) /\
     (~ In ident (List.map Trae.id fs) -> length fs' = length fs + 1) /\
     (forall f, In f fs -> Trae.id f <> ident -> In f fs') /\
     Trae.total_files (Trae.statistics (Trae.data db')) = length fs' /\
     snd (Trae.addHTMLFile fallback now hashed fileInfo db) = Trae.writable db).
Proof.
  intros fs ident db' fs'. split.
  - intros C. unfold Trae.addHTMLFile. now rewrite C.
  - intros C N. subst fs' db'. unfold Trae.addHTMLFile. rewrite C. cbn [negb].
    fold fs. fold ident.
    set (record := Trae.mkHtmlFile ident _ _ _ _ _ _ _ _ _ _ _ _ _).
    exists record. split; [repeat split |].
    assert (S : forall x b, Trae.html_files (Trae.data (fst (Trae.saveData now
                  (Trae.mk (Trae.updateStatistics fallback x) (Trae.disk db) b)))) =
                Trae.html_files x /\
                Trae.total_files (Trae.statistics (Trae.data (fst (Trae.saveData now
                  (Trae.mk (Trae.updateStatistics fallback x) (Trae.disk db) b))))) =
                length (Trae.html_files x) /\
                snd (Trae.saveData now
                  (Trae.mk (Trae.updateStatistics fallback x) (Trae.disk db) b)) = b).
    { intros x b. unfold Trae.saveData. simpl. now destruct b. }
    destruct (JS.findIndex (fun f => String.eqb (Trae.id f) ident) fs) as [i |] eqn:F.
    + destruct (findIndex_found _ _ _ F) as (old & L & P). apply String.eqb_eq in P.
      match goal with |- context [Trae.saveData now (Trae.mk (Trae.updateStatistics fallback ?x) _ ?b)] =>
        destruct (S x b) as (S1 & S2 & S3) end.
      rewrite S1, S2, S3. cbn [Trae.html_files].
      assert (Ids : List.map Trae.id (<[i := record]> fs) = List.map Trae.id fs)
        by (apply (ids_insert fs i old); [exact L | now rewrite P]).
      rewrite Ids.
      assert (Has : In ident (List.map Trae.id fs)).
      { rewrite <- P. apply in_map, list_elem_of_In, list_elem_of_lookup. eauto. }
      split.
      { intros j old' Lj Ej. f_equal.
        symmetry. apply (NoDup_lookup (List.map Trae.id fs) j i ident N);
          rewrite list_lookup_fmap; [rewrite Lj | rewrite L]; simpl; congruence. }
      split.
      { intros No. exfalso. apply (No old); [| exact P].
        apply list_elem_of_In, list_elem_of_lookup. eauto. }
      split; [exact N |]. split.
      { apply list_elem_of_In, list_elem_of_lookup. exists i.
        apply list_lookup_insert_eq. now apply lookup_lt_Some in L. }
      split; [intros _; apply length_insert |]. split.
      { intros NI. contradiction. }
      split; [| split; reflexivity].
      intros f I Nf. apply list_elem_of_In, list_elem_of_lookup in I as (j & Lj).
      apply list_elem_of_In, list_elem_of_lookup. exists j.
      rewrite list_lookup_insert_ne; [exact Lj |]. intros <-. congruence.
    + pose proof (findIndex_none _ _ F) as Nn.
      match goal with |- context [Trae.saveData now (Trae.mk (Trae.updateStatistics fallback ?x) _ ?b)] =>
        destruct (S x b) as (S1 & S2 & S3) end.
      rewrite S1, S2, S3. cbn [Trae.html_files].
      assert (NI : ~ In ident (List.map Trae.id fs)).
      { intros I. apply in_map_iff in I as (x & E & I). apply Nn in I.
        rewrite E, String.eqb_refl in I. discriminate. }
      split.
      { intros j old' Lj Ej. exfalso. apply NI. rewrite <- Ej.
        apply in_map, list_elem_of_In, list_elem_of_lookup. eauto. }
      split; [reflexivity |].
      split.
      { rewrite List.map_app. apply NoDup_app. split; [exact N |]. split.
        - intros x Ix [E | []]%list_elem_of_In. apply NI. simpl in E. subst x.
          now apply list_elem_of_In.
        - simpl. constructor; [intros H; apply list_elem_of_In in H; destruct H | constructor]. }
      split; [apply in_or_app; right; now left |].
      split; [intros I; contradiction |].
      split; [intros _; rewrite length_app; simpl; lia |].
      split; [intros f I _; apply in_or_app; now left |].
      split; reflexivity.
Qed.

(** The hypotheses of the second part are met by a manager with one record
    "h1" and an entry that names the same identifier: the record is replaced
    by the record of the entry and the list keeps its length. *)
Lemma addHTMLFile_inserts_or_replaces_witness :
  let f := Trae.mkHtmlFile "h1" "a.html" "demo" "p" [] ["A"] "x" "" 0 1 1 0 0 [] in
  let db := Trae.mk (Trae.mkDatabase [f] (Trae.mkStatistics 0 0 0 ∅ ∅ ∅ 0 0) 1) None true in
  let info := Trae.mkFileInfo "h1" "b.html" "demo" "draw" (Some []) None "" "" 0
                              None 0 0 [] in
  exists record,
    Trae.html_files (Trae.data (fst (Trae.addHTMLFile "other" 5 "zz" info db))) = [record] /\
    Trae.original_name record = "b.html" /\ Trae.updated_at record = 5%Z.
Proof.
  intros f db info.
  assert (N : NoDup (List.map Trae.id (Trae.html_files (Trae.data db)))).
  { simpl. constructor; [intros H; apply list_elem_of_In in H; destruct H | constructor]. }
  destruct (proj2 (addHTMLFile_inserts_or_replaces "other" 5 "zz" info db) eq_refl N)
    as (record & Fields & Replace & _).
  exists record. split; [apply (Replace 0 f); reflexivity |].
  destruct Fields as (_ & O & _ & _ & _ & _ & _ & _ & _ & _ & U & _).
  split; [exact O | exact U].
Defined.

(** X14.  [deleteHTMLFile] answers [false] and changes nothing when no
    record has the identifier.  Otherwise it removes the record from the list
    for good: with unique identifiers no record of that identifier is left,
    the other records stay in their order, the list is one shorter,
    [total_files] is the new length, and the answer is whether the write
    succeeded. *)
Theorem deleteHTMLFile_removes_the_record (fallback : string) (now : Z) (ident : string) (db : Trae.t) :
  let fs := Trae.html_files (Trae.data db) in
  let db' := fst (Trae.deleteHTMLFile fallback now ident db) in
  let fs' := Trae.html_files (Trae.data db') in
  ((forall f, In f fs -> Trae.id f <> ident) ->
   Trae.deleteHTMLFile fallback now ident db = (db, false)) /\
  (forall f, NoDup (List.map Trae.id fs) -> In f fs -> Trae.id f = ident ->
   (forall g, In g fs' -> Trae.id g <> ident) /\
   sublist fs' fs /\ length fs' + 1 = length fs /\
   (forall g, In g fs -> Trae.id g <> ident -> In g fs') /\
   Trae.total_files (Trae.statistics (Trae.data db')) = length fs' /\
   snd (Trae.deleteHTMLFile fallback now ident db) = Trae.writable db).
Proof.
  intros fs db' fs'. split.
  - intros H. unfold Trae.deleteHTMLFile. fold fs.
    now rewrite findIndex_fst, (findIndexed_absent Trae.id ident fs H).
  - intros f N I E. subst fs' db'.
    destruct (findIndexed_unique Trae.id ident fs f N I E) as (i & F & L & R).
    unfold Trae.deleteHTMLFile. fold fs. rewrite findIndex_fst, F. cbn [fmap option_fmap option_map fst].
    unfold Trae.saveData. cbn [Trae.data Trae.html_files Trae.statistics Trae.writable].
    destruct (Trae.writable db); simpl.
    all: rewrite removeAt_delete in *.
    all: split; [exact R |]; split; [apply sublist_delete |].
    all: split; [rewrite length_delete by eauto; apply lookup_lt_Some in L; lia |].
    all: split; [| split; reflexivity].
    all: intros g Ig Ng; apply list_elem_of_In, list_elem_of_lookup in Ig as (j & Lj).
    all: apply list_elem_of_In, list_elem_of_lookup.
    all: destruct (decide (j < i)) as [Lt | Ge];
      [exists j; now rewrite list_lookup_delete_lt |].
    all: assert (j <> i) by (intros ->; congruence).
    all: exists (j - 1); rewrite list_lookup_delete_ge by lia.
    all: now replace (S (j - 1)) with j by lia.
Qed.

(** The hypotheses of the second part are met by a manager with the records
    "h1" and "h2": after the delete of "h1" the list holds "h2" alone. *)
Lemma deleteHTMLFile_removes_the_record_witness :
  let f1 := Trae.mkHtmlFile "h1" "a.html" "demo" "p" [] ["A"] "x" "" 0 1 1 0 0 [] in
  let f2 := Trae.mkHtmlFile "h2" "b.html" "demo" "p" [] ["B"] "x" "" 0 1 1 0 0 [] in
  let db := Trae.mk (Trae.mkDatabase [f1; f2] (Trae.mkStatistics 0 0 0 ∅ ∅ ∅ 0 0) 1)
                    None true in
  length (Trae.html_files (Trae.data (fst (Trae.deleteHTMLFile "other" 5 "h1" db)))) + 1 = 2 /\
  In f2 (Trae.html_files (Trae.data (fst (Trae.deleteHTMLFile "other" 5 "h1" db)))).
Proof.
  intros f1 f2 db.
  assert (N : NoDup (List.map Trae.id (Trae.html_files (Trae.data db)))).
  { simpl. constructor.
    - intros H. apply list_elem_of_In in H. destruct H as [H | []]. discriminate.
    - constructor; [intros H; apply list_elem_of_In in H; destruct H | constructor]. }
  destruct (proj2 (deleteHTMLFile_removes_the_record "other" 5 "h1" db) f1 N (or_introl eq_refl)
              eq_refl) as (_ & _ & Len & Keep & _).
  split; [exact Len |]. apply Keep; [right; now left | discriminate].
Defined.

(** ** The lists of values in use *)

Section ValuesInUse.

Lemma setOf_from (l acc : list string) :
  let r := foldl (fun acc x => if JS.includes acc x then acc else acc ++ [x]) acc l in
  (forall x, In x r <-> In x acc \/ In x l) /\ (NoDup acc -> NoDup r).
Proof.
  revert acc. induction l as [|y l IH]; intros acc; simpl.
  - split; [intros x; tauto | auto].
  - destruct (IH (if JS.includes acc y then acc else acc ++ [y])) as [M N].
    destruct (JS.includes acc y) eqn:I.
    + apply includes_In in I. split; [| exact N].
      intros x. rewrite M. split; [tauto |].
      intros [H | [<- | H]]; auto.
    + assert (NI : ~ In y acc) by (rewrite <- includes_In; congruence).
      split.
      * intros x. rewrite M, in_app_iff. simpl. tauto.
      * intros D. apply N. apply NoDup_app. split; [exact D |]. split.
        -- intros x Ix [-> | []]%list_elem_of_In. now apply NI, list_elem_of_In.
        -- constructor; [intros H; apply list_elem_of_In in H; destruct H | constructor].
Qed.

Lemma setOf_In (l : list string) (x : string) : In x (JS.setOf l) <-> In x l.
Proof. unfold JS.setOf. rewrite (proj1 (setOf_from l [])). simpl. tauto. Qed.

Lemma setOf_NoDup (l : list string) : NoDup (JS.setOf l).
Proof. apply (proj2 (setOf_from l [])). constructor. Qed.

Lemma sort_In (l : list string) (x : string) : In x (JS.sort l) <-> In x l.
Proof.
  unfold JS.sort. rewrite <- !list_elem_of_In.
  now rewrite (merge_sort_Permutation String.le l).
Qed.

Lemma sort_NoDup (l : list string) : NoDup l -> NoDup (JS.sort l).
Proof. unfold JS.sort. now rewrite (merge_sort_Permutation String.le l). Qed.

Lemma sort_sorted (l : list string) : StronglySorted String.le (JS.sort l).
Proof. apply StronglySorted_merge_sort; apply _. Qed.

Lemma sorted_set_size (l : list string) :
  length (JS.sort (JS.setOf l)) = size (list_to_set l : gset string).
Proof.
  unfold JS.sort. rewrite (merge_sort_Permutation String.le (JS.setOf l)).
  rewrite <- (size_list_to_set (C := gset string) (JS.setOf l)) by apply setOf_NoDup.
  f_equal. apply set_eq. intros x.
  now rewrite !elem_of_list_to_set, !list_elem_of_In, setOf_In.
Qed.

(** The distinct keys are the counted ones and, when it occurs,
    [__proto__]. *)
Lemma distinct_counted (keys : list string) :
  size (list_to_set keys : gset string) =
  size (list_to_set (counted keys) : gset string) +
  (if JS.includes keys "__proto__" then 1 else 0).
Proof.
  destruct (JS.includes keys "__proto__") eqn:I.
  - apply includes_In in I.
    assert (E : (list_to_set keys : gset string) =
                list_to_set (counted keys) ∪ {["__proto__"]}).
    { apply set_eq. intros k.
      rewrite elem_of_union, !elem_of_list_to_set, !list_elem_of_In, counted_In,
        elem_of_singleton.
      destruct (decide (k = "__proto__")) as [-> | N]; intuition. }
    rewrite E, size_union, size_singleton; [reflexivity |].
    intros k Hk ->%elem_of_singleton.
    apply elem_of_list_to_set, list_elem_of_In, counted_In in Hk as [_ Hk]. now apply Hk.
  - rewrite Nat.add_0_r. f_equal. apply set_eq. intros k.
    rewrite !elem_of_list_to_set, !list_elem_of_In, counted_In. split; [| tauto].
    intros Hk. split; [exact Hk |]. intros ->. apply includes_In in Hk. congruence.
Qed.

End ValuesInUse.

(** X15.  [getAllTags] and [getAllModels] list the values in use: the list
    is in ascending order and has no value twice; a tag is in the list
    exactly when some record holds it, a model name exactly when some record
    names a model so.  The counters that [updateStatistics] builds have a
    property for each of them with one exception: a tag or model named
    "__proto__" is listed and has no property, so the length of the list is
    [total_tags] (or [total_models]), and one more when that name is in
    use.  (An entry of [models] is a record with a name.) *)
Theorem getAll_lists_the_values_in_use (fallback : string) (db : Trae.t) :
  let fs := Trae.html_files (Trae.data db) in
  let s := Trae.statistics (Trae.updateStatistics fallback (Trae.data db)) in
  (StronglySorted String.le (Trae.getAllTags db) /\ NoDup (Trae.getAllTags db) /\
   (forall tag, In tag (Trae.getAllTags db) <->
                exists f, In f fs /\ In tag (Trae.tags f)) /\
   (forall tag, is_Some (Trae.s_tags s !! tag) <->
                In tag (Trae.getAllTags db) /\ tag <> "__proto__") /\
   length (Trae.getAllTags db) =
     Trae.total_tags s + (if JS.includes (tagsOf fs) "__proto__" then 1 else 0)) /\
  (StronglySorted String.le (Trae.getAllModels db) /\ NoDup (Trae.getAllModels db) /\
   (forall name, In name (Trae.getAllModels db) <->
                 exists f m, In f fs /\ In m (Trae.models f) /\ Trae.m_name m = name) /\
   (forall name, is_Some (Trae.s_models s !! name) <->
                 In name (Trae.getAllModels db) /\ name <> "__proto__") /\
   length (Trae.getAllModels db) =
     Trae.total_models s + (if JS.includes (modelsOf fs) "__proto__" then 1 else 0)).
Proof.
  intros fs s.
  split.
  - unfold Trae.getAllTags. fold fs. fold (tagsOf fs).
    split; [apply sort_sorted |]. split; [apply sort_NoDup, setOf_NoDup |].
    split; [| split].
    + intros tag. rewrite sort_In, setOf_In. unfold tagsOf. rewrite in_concat. split.
      * intros (ts & I & Its). apply in_map_iff in I as (f & <- & If). eauto.
      * intros (f & If & Its). exists (Trae.tags f). split; [now apply in_map | exact Its].
    + intros tag. rewrite sort_In, setOf_In. subst s.
      now rewrite usage_tags, usageOf_some.
    + rewrite sorted_set_size, distinct_counted. f_equal. subst s. symmetry.
      apply (usage_size (Trae.s_tags (Trae.statistics
                           (Trae.updateStatistics fallback (Trae.data db))))).
      intros k. apply usage_tags.
  - unfold Trae.getAllModels. fold fs. fold (modelsOf fs).
    split; [apply sort_sorted |]. split; [apply sort_NoDup, setOf_NoDup |].
    split; [| split].
    + intros name. rewrite sort_In, setOf_In. unfold modelsOf. rewrite in_concat. split.
      * intros (ns & I & Ins). apply in_map_iff in I as (f & <- & If).
        apply in_map_iff in Ins as (m & E & Im). eauto.
      * intros (f & m & If & Im & E). exists (List.map Trae.m_name (Trae.models f)).
        split; [now apply (in_map (fun f => List.map Trae.m_name (Trae.models f))) |].
        rewrite <- E. now apply in_map.
    + intros name. rewrite sort_In, setOf_In. subst s.
      now rewrite usage_models, usageOf_some.
    + rewrite sorted_set_size, distinct_counted. f_equal. subst s. symmetry.
      apply (usage_size (Trae.s_models (Trae.statistics
                           (Trae.updateStatistics fallback (Trae.data db))))).
      intros k. apply usage_models.
Qed.

(** ** The search of the trae-trash variant *)

Section Search.

Lemma startsWith_spec (p : string) : forall s,
  JS.startsWith s p = true <-> exists post, s = p +:+ post.
Proof.
  induction p as [|c p IH]; intros s.
  - destruct s; simpl; split; eauto.
  - destruct s as [|d s]; simpl.
    + split; [discriminate | intros (post & E); discriminate].
    + rewrite andb_true_iff, IH. split.
      * intros (E & post & ->). apply Ascii.eqb_eq in E. subst d. eauto.
      * intros (post & E). injection E as -> ->. split; [apply Ascii.eqb_refl | eauto].
Qed.

Lemma strIncludes_spec (sub : string) : forall s,
  JS.strIncludes s sub = true <-> within sub s.
Proof.
  unfold within. induction s as [|c s IH]; cbn [JS.strIncludes].
  - rewrite orb_false_r, startsWith_spec. split.
    + intros (post & E). exists "", post. exact E.
    + intros (pre & post & E). destruct pre; [eauto | discriminate].
  - rewrite orb_true_iff, startsWith_spec, IH. split.
    + intros [(post & E) | (pre & post & E)].
      * exists "", post. exact E.
      * exists (String c pre), post. simpl. now rewrite E.
    + intros ([|d pre] & post & E).
      * left. eauto.
      * right. simpl in E. injection E as -> ->. eauto.
Qed.

Lemma containsNoCase_spec (text part : string) :
  Trae.containsNoCase text part = true <-> withinNoCase part text.
Proof. apply strIncludes_spec. Qed.

Lemma narrow_In (given : bool) (p : Trae.HtmlFile -> bool) (l : list Trae.HtmlFile)
    (f : Trae.HtmlFile) :
  In f (Trae.narrow given p l) <-> In f l /\ (given = true -> p f = true).
Proof.
  unfold Trae.narrow. destruct given.
  - rewrite filter_In. tauto.
  - split; [intros H; split; [exact H | discriminate] | tauto].
Qed.

Lemma narrow_sublist (given : bool) (p : Trae.HtmlFile -> bool) (l : list Trae.HtmlFile) :
  sublist (Trae.narrow given p l) l.
Proof. destruct given; [apply filter_sublist | reflexivity]. Qed.

Lemma truthy_iff (s : string) : JS.truthy s = true <-> s <> "".
Proof. unfold JS.truthy. destruct (String.eqb_spec s ""); simpl; split; congruence. Qed.

End Search.

(** X16.  [searchHTMLFiles] keeps the order of the records and returns the
    records that pass every filter that is given: the scene, the category and
    the description hold the text asked for as a stretch, letters compared
    without case; one of the tags asked for is a stretch of one of the tags
    of the record; the name of one of the models of the record holds the
    model asked for.  A filter that is empty asks for nothing, so without
    filters all records are returned. *)
Theorem searchHTMLFiles_passes_every_filter (filters : Trae.SearchFilters) (db : Trae.t) :
  let fs := Trae.html_files (Trae.data db) in
  sublist (Trae.searchHTMLFiles filters db) fs /\
  (forall f, In f (Trae.searchHTMLFiles filters db) <->
     In f fs /\
     (Trae.f_scene filters <> "" -> withinNoCase (Trae.f_scene filters) (Trae.scene f)) /\
     (Trae.f_category filters <> "" ->
      withinNoCase (Trae.f_category filters) (Trae.category f)) /\
     (forall t ts, Trae.f_tags filters = Some (t :: ts) ->
      exists tag fileTag, In tag (t :: ts) /\ In fileTag (Trae.tags f) /\
                          withinNoCase tag fileTag) /\
     (Trae.f_model filters <> "" ->
      exists m, In m (Trae.models f) /\
                withinNoCase (Trae.f_model filters) (Trae.m_name m)) /\
     (Trae.f_description filters <> "" ->
      withinNoCase (Trae.f_description filters) (Trae.description f))) /\
  (Trae.f_scene filters = "" -> Trae.f_category filters = "" ->
   Trae.f_tags filters = None \/ Trae.f_tags filters = Some [] ->
   Trae.f_model filters = "" -> Trae.f_description filters = "" ->
   Trae.searchHTMLFiles filters db = fs).
Proof.
  intros fs. split; [| split].
  - unfold Trae.searchHTMLFiles. fold fs.
    repeat (etransitivity; [apply narrow_sublist |]). reflexivity.
  - intros f. unfold Trae.searchHTMLFiles. fold fs.
    rewrite !narrow_In, !truthy_iff, !containsNoCase_spec.
    assert (T : (match Trae.f_tags filters with Some (_ :: _) => true | _ => false end = true ->
                 existsb (fun tag => existsb (fun fileTag => Trae.containsNoCase fileTag tag)
                                             (Trae.tags f))
                         (default [] (Trae.f_tags filters)) = true) <->
                (forall t ts, Trae.f_tags filters = Some (t :: ts) ->
                 exists tag fileTag, In tag (t :: ts) /\ In fileTag (Trae.tags f) /\
                                     withinNoCase tag fileTag)).
    { destruct (Trae.f_tags filters) as [[|t ts] |]; cbn [default from_option].
      - split; [intros _ t ts [=] | discriminate].
      - split.
        + intros H t' ts' [= <- <-]. specialize (H eq_refl).
          apply existsb_exists in H as (tag & It & H).
          apply existsb_exists in H as (fileTag & If & H).
          apply containsNoCase_spec in H. eauto.
        + intros H _. destruct (H t ts eq_refl) as (tag & fileTag & It & If & W).
          apply existsb_exists. exists tag. split; [exact It |].
          apply existsb_exists. exists fileTag. split; [exact If |].
          now apply containsNoCase_spec.
      - split; [intros _ t ts [=] | discriminate]. }
    assert (M : existsb (fun m => Trae.containsNoCase (Trae.m_name m) (Trae.f_model filters))
                        (Trae.models f) = true <->
                exists m, In m (Trae.models f) /\
                          withinNoCase (Trae.f_model filters) (Trae.m_name m)).
    { rewrite existsb_exists. split; intros (m & I & H); exists m; split; auto;
        now apply containsNoCase_spec. }
    rewrite T, M. tauto.
  - intros S C G M D. unfold Trae.searchHTMLFiles. fold fs.
    rewrite S, C, M, D. destruct G as [-> | ->]; reflexivity.
Qed.

(** ** The filter of the file list against the search of the server *)




(** The query of the server looks at the category as well, so it can return
    a file that the file list does not show. *)
Example category_text_is_searched_by_the_query_only :
  let f := File.mk "f1" "a.html" "" 0 0 0 "Oak" "" "garden" "" "" "" [] "active" None in
  queryFiles (holding [f]) (textOnly "garden") = Value [f] /\
  Components.applyFilters [f] (textOnly "garden") = [].
Proof. split; reflexivity. Qed.

(** ** Batch upload *)

Section Batch.

Lemma batch_all_active (now : Z) (commonData : CommonData)
    (infos : list (string * string * nat)) :
  List.filter File.active (List.map (DataManager.batchFile now commonData) infos) =
  List.map (DataManager.batchFile now commonData) infos.
Proof.
  induction infos as [|[[i n] s] infos IH]; [reflexivity |].
  cbn [List.map List.filter]. rewrite IH. reflexivity.
Qed.

End Batch.

(** X18.  [batchUpload] appends one record per entry, in the order of the
    entries and after the files that were there, whether or not the write
    succeeds.  Every new record is active, has the name of its entry as
    title and as original name, no access yet, and the category, the model
    and the tags given for the batch.  The number of files in the statistics
    grows by the number of entries, and the listing without filters shows
    the new records at its end.  The records are returned when the write
    succeeds; when it fails the error is raised and the stored document stays
    as it was. *)
Theorem batchUpload_appends_a_record_per_entry
    (now : Z) (infos : list (string * string * nat)) (commonData : CommonData)
    (dm : DataManager.t) :
  let added := List.map (DataManager.batchFile now commonData) infos in
  let dm' := fst (DataManager.batchUpload now infos commonData dm) in
  let d' := DataManager.data dm' in
  files d' = files (DataManager.data dm) ++ added /\
  List.map File.id added = List.map (fun info => fst (fst info)) infos /\
  List.map File.title added = List.map (fun info => snd (fst info)) infos /\
  Forall (fun f => File.active f = true /\ File.originalName f = File.title f /\
                   File.accessCount f = 0 /\
                   File.category f = c_category commonData /\
                   File.model f = c_model commonData /\
                   File.tags f = default [] (c_tags commonData)) added /\
  Settings.totalFiles (settings d') =
    length (List.filter File.active (files (DataManager.data dm))) + length infos /\
  queryFiles d' noFilters =
    Value (List.filter File.active (files (DataManager.data dm)) ++ added) /\
  snd (DataManager.batchUpload now infos commonData dm) =
    (if DataManager.quota dm then DataManager.Returns added
     else DataManager.Raises SaveFailed) /\
  DataManager.stored dm' =
    (if DataManager.quota dm then Some d' else DataManager.stored dm).
Proof.
  intros added dm' d'. subst d' dm'.
  unfold DataManager.batchUpload, DataManager.commit, DataManager.saveData.
  fold added. cbn [DataManager.data DataManager.quota DataManager.stored].
  assert (Ids : List.map File.id added = List.map (fun info => fst (fst info)) infos).
  { subst added. rewrite List.map_map. apply map_ext. now intros [[i n] s]. }
  assert (Titles : List.map File.title added = List.map (fun info => snd (fst info)) infos).
  { subst added. rewrite List.map_map. apply map_ext. now intros [[i n] s]. }
  assert (Shape : Forall (fun f => File.active f = true /\
                   File.originalName f = File.title f /\ File.accessCount f = 0 /\
                   File.category f = c_category commonData /\
                   File.model f = c_model commonData /\
                   File.tags f = default [] (c_tags commonData)) added).
  { subst added. apply List.Forall_forall. intros f I.
    apply in_map_iff in I as ([[i n] s] & <- & _). repeat split. }
  assert (Act : List.filter File.active (files (DataManager.data dm) ++ added) =
                List.filter File.active (files (DataManager.data dm)) ++ added).
  { rewrite List.filter_app. subst added. now rewrite batch_all_active. }
  assert (Len : length added = length infos) by (subst added; apply length_map).
  destruct (DataManager.quota dm);
    cbn [fst snd DataManager.data DataManager.stored updateStats files settings
         Settings.totalFiles withFiles];
    rewrite queryFiles_noFilters;
    cbn [updateStats files withFiles]; rewrite Act, length_app, Len; repeat split; assumption.
Qed.

(** ** The static pages against the server *)

Section Mirror.

Variables (now : Z) (st : Server.Store) (dm : DataManager.t).
Hypothesis W : Server.writable st = true.
Hypothesis Q : DataManager.quota dm = true.

Lemma mirror_commit {A} (d d' : Data) (x : A) :
  sameCatalog d d' ->
  mirrors (Server.reply st d x SaveFailed) (DataManager.commit now d' x dm).
Proof.
  intros S. unfold Server.reply, Server.saveData, DataManager.commit, DataManager.saveData.
  cbn [DataManager.quota]. rewrite W, Q. split; [reflexivity | exact S].
Qed.

End Mirror.

(** X19.  The [DataManager] of the static pages does what the routes of the
    server do.  When the document in memory holds the same files, tags,
    models and categories as the stored document of the server, and both
    stores accept a write, then for a read of a file, an update of a file, a
    delete of a file (the server given its password), the creation of a tag,
    a model or a category, and the rename or the delete of a category, the
    manager returns what the route answers, raises the error the route
    answers with, and the two documents hold the same catalog afterwards. *)
Theorem manager_mirrors_the_server (now : Z) (st : Server.Store) (dm : DataManager.t) :
  Server.writable st = true -> DataManager.quota dm = true ->
  sameCatalog (Server.loadData st) (DataManager.data dm) ->
  (forall ident,
     mirrors (Server.getFile now ident st) (DataManager.getFile now ident dm)) /\
  (forall ident patch,
     mirrors (Server.updateFile now ident patch st)
             (DataManager.updateFile now ident patch dm)) /\
  (forall ident,
     mirrors (Server.deleteFile now ident "wind" st)
             (DataManager.deleteFile now ident "wind" dm)) /\
  (forall r, mirrors (Server.addTag now r st) (DataManager.addTag now r dm)) /\
  (forall r, mirrors (Server.addModel now r st) (DataManager.addModel now r dm)) /\
  (forall r, mirrors (Server.addCategory now r st) (DataManager.addCategory now r dm)) /\
  (forall ident r,
     mirrors (Server.updateCategory now ident r st)
             (DataManager.updateCategory now ident r dm)) /\
  (forall ident,
     mirrors (Server.deleteCategory now ident st)
             (DataManager.deleteCategory now ident dm)).
Proof.
  intros W Q Same. pose proof Same as (Fs & Ts & Ms & Cs).
  assert (Refused : forall A code (e : error),
             mirrors (A := A) (st, Server.Fail code e) (dm, DataManager.Raises e))
    by (intros; split; [reflexivity | exact Same]).
  assert (Commit : forall A (d d' : Data) (x : A), sameCatalog d d' ->
             mirrors (Server.reply st d x SaveFailed) (DataManager.commit now d' x dm))
    by (intros; now apply mirror_commit).
  repeat apply conj.
  - intros ident. unfold Server.getFile, DataManager.getFile. rewrite <- Fs.
    destruct (findIndexed _ _) as [[i f] |]; [| apply Refused].
    unfold Server.saveData, DataManager.commit, DataManager.saveData.
    cbn [DataManager.quota]. rewrite W, Q. repeat split; assumption.
  - intros ident patch. unfold Server.updateFile, DataManager.updateFile. rewrite <- Fs.
    destruct (findIndexed _ _) as [[i f] |]; [| apply Refused].
    apply Commit. repeat split; assumption.
  - intros ident. unfold Server.deleteFile, DataManager.deleteFile. rewrite <- Fs.
    cbn [String.eqb Ascii.eqb Bool.eqb negb].
    destruct (JS.findIndex _ _) as [i |]; [| apply Refused].
    apply Commit. repeat split; assumption.
  - intros r. unfold Server.addTag, DataManager.addTag. rewrite <- Ts.
    destruct (negb (JS.truthy (r_name r))); [apply Refused |].
    apply Commit. repeat split; assumption.
  - intros r. unfold Server.addModel, DataManager.addModel. rewrite <- Ms.
    destruct (negb (JS.truthy (r_name r))); [apply Refused |].
    apply Commit. repeat split; assumption.
  - intros r. unfold Server.addCategory, DataManager.addCategory. rewrite <- Cs.
    destruct (negb (JS.truthy (r_name r))); [apply Refused |].
    apply Commit. repeat split; assumption.
  - intros ident r. unfold Server.updateCategory, DataManager.updateCategory.
    rewrite <- Cs.
    destruct (negb (JS.truthy (r_name r))); [apply Refused |].
    destruct (categories (Server.loadData st)) as [cs |]; [| apply Refused].
    destruct (findIndexed _ _) as [[i c] |]; [| apply Refused].
    apply Commit. repeat split; assumption.
  - intros ident. unfold Server.deleteCategory, DataManager.deleteCategory.
    rewrite <- Cs, <- Fs.
    destruct (categories (Server.loadData st)) as [cs |]; [| apply Refused].
    destruct (findIndexed _ _) as [[i c] |]; [| apply Refused].
    destruct (0 <? _)%nat; [apply Refused |].
    apply Commit. repeat split; assumption.
Qed.

(** The hypotheses are met by a server and a manager that both start from
    the default document: the tag created on both sides is the same. *)
Lemma manager_mirrors_the_server_witness :
  mirrors (Server.addTag 7 (mkPresetReq "AI" "" "") (Server.mkStore None true))
          (DataManager.addTag 7 (mkPresetReq "AI" "" "")
                              (DataManager.mk Server.defaultData None true)).
Proof.
  assert (S : sameCatalog (Server.loadData (Server.mkStore None true))
                          (DataManager.data (DataManager.mk Server.defaultData None true)))
    by (repeat split).
  destruct (manager_mirrors_the_server 7 (Server.mkStore None true)
              (DataManager.mk Server.defaultData None true) eq_refl eq_refl S)
    as (_ & _ & _ & T & _).
  apply T.
Defined.

(** ** The statistics and the tag request of the trae-trash server *)

Section ServerStatistics.

Lemma bump_fold_named (keys : list string) : forall m : gmap string Trae.counter,
  foldl (fun acc x => if JS.truthy x then Trae.bump x acc else acc) m keys =
  foldl (fun acc x => Trae.bump x acc) m (List.filter JS.truthy keys).
Proof.
  induction keys as [|x keys IH]; intros m; [reflexivity |].
  cbn [foldl List.filter]. rewrite IH. now destruct (JS.truthy x).
Qed.

Lemma countKey_named (k : string) (keys : list string) :
  countKey k (List.filter JS.truthy keys) = if JS.truthy k then countKey k keys else 0.
Proof.
  induction keys as [|x keys IH]; [unfold countKey; simpl; now destruct (JS.truthy k) |].
  cbn [List.filter]. destruct (JS.truthy x) eqn:Tx; rewrite ?countKey_cons, IH.
  - destruct (JS.truthy k) eqn:Tk; [reflexivity |].
    destruct (String.eqb_spec k x) as [-> | N]; [congruence | reflexivity].
  - destruct (String.eqb_spec k x) as [-> | N]; [now rewrite Tx |].
    now destruct (JS.truthy k).
Qed.

Lemma usageOf_named (k : string) (keys : list string) :
  usageOf k (List.filter JS.truthy keys) = if JS.truthy k then usageOf k keys else None.
Proof.
  unfold usageOf. rewrite countKey_named.
  destruct (String.eqb k "__proto__"); now destruct (JS.truthy k).
Qed.

Lemma server_usage_tags (now : Z) (db : TraeServer.Db) (k : string) :
  TraeServer.tags (TraeServer.statistics (TraeServer.updateStatistics now db)) !! k =
  usageOf k (tagsOf (TraeServer.html_files db)).
Proof.
  unfold TraeServer.updateStatistics. simpl.
  rewrite (foldl_nested (fun acc' tag => Trae.bump tag acc') Trae.tags).
  apply bump_fold_empty.
Qed.

Lemma server_usage_categories (now : Z) (db : TraeServer.Db) (k : string) :
  TraeServer.categories (TraeServer.statistics (TraeServer.updateStatistics now db)) !! k =
  if JS.truthy k then usageOf k (List.map Trae.category (TraeServer.html_files db))
  else None.
Proof.
  unfold TraeServer.updateStatistics. simpl.
  rewrite (foldl_mapped (fun acc x => if JS.truthy x then Trae.bump x acc else acc)
             Trae.category).
  rewrite bump_fold_named, bump_fold_empty. apply usageOf_named.
Qed.

Lemma server_usage_models (now : Z) (db : TraeServer.Db) (k : string) :
  TraeServer.models (TraeServer.statistics (TraeServer.updateStatistics now db)) !! k =
  if JS.truthy k then usageOf k (modelsOf (TraeServer.html_files db)) else None.
Proof.
  unfold TraeServer.updateStatistics, modelsOf. simpl.
  rewrite (foldl_nested
             (fun acc' m => if JS.truthy (Trae.m_name m) then Trae.bump (Trae.m_name m) acc'
                            else acc') Trae.models).
  rewrite (foldl_mapped (fun acc x => if JS.truthy x then Trae.bump x acc else acc)
             Trae.m_name).
  rewrite bump_fold_named, bump_fold_empty, usageOf_named.
  destruct (JS.truthy k); [| reflexivity]. f_equal.
  induction (TraeServer.html_files db) as [|f fs IH]; [reflexivity |].
  simpl. now rewrite List.map_app, IH.
Qed.

End ServerStatistics.

(** X20.  [updateStatistics] of the server puts a fresh object in place of
    the statistics and sets the time stamp; the files stay.  [total_files] is
    the number of records.  Its counters are objects created as [{}], filled
    like those of the [DatabaseManager]: a tag has the property that counting
    its occurrences leaves (their number for a name counted as a number),
    and so has every category and every model name that is not empty; an
    empty one is not counted at all.  So the counter of tags is the one the
    [DatabaseManager] computes from the same files, and the counter of
    categories is the same when every file has a category; a file without
    one is counted under the fallback name by the manager and not at all by
    the server. *)
Theorem server_statistics_count_what_is_named (fallback : string) (now : Z) (db : TraeServer.Db) :
  let db' := TraeServer.updateStatistics now db in
  let s := TraeServer.statistics db' in
  let fs := TraeServer.html_files db in
  TraeServer.html_files db' = fs /\ TraeServer.last_updated db' = now /\
  TraeServer.total_files s = length fs /\
  (forall tag, TraeServer.tags s !! tag = usageOf tag (tagsOf fs)) /\
  (forall c, TraeServer.categories s !! c =
             if JS.truthy c then usageOf c (List.map Trae.category fs) else None) /\
  (forall m, TraeServer.models s !! m =
             if JS.truthy m then usageOf m (modelsOf fs) else None) /\
  (forall tag, ordinary tag = true -> In tag (tagsOf fs) ->
     TraeServer.tags s !! tag = Some (Trae.Count (countKey tag (tagsOf fs)))) /\
  (forall d, Trae.html_files d = fs ->
     TraeServer.tags s = Trae.s_tags (Trae.statistics (Trae.updateStatistics fallback d)) /\
     ((forall f, In f fs -> Trae.category f <> "") ->
      TraeServer.categories s =
      Trae.s_categories (Trae.statistics (Trae.updateStatistics fallback d))) /\
     ((exists f, In f fs /\ Trae.category f = "") ->
      fallback <> "__proto__" ->
      (forall f, In f fs -> Trae.category f <> fallback) ->
      TraeServer.categories s !! fallback = None /\
      is_Some (Trae.s_categories (Trae.statistics (Trae.updateStatistics fallback d))
                 !! fallback))).
Proof.
  intros db' s fs. subst s db'.
  split; [reflexivity |]. split; [reflexivity |]. split; [reflexivity |].
  split; [intros tag; apply server_usage_tags |].
  split; [intros c; apply server_usage_categories |].
  split; [intros m; apply server_usage_models |].
  split; [intros tag O I; rewrite server_usage_tags; now apply usageOf_ordinary |].
  intros d E. split; [| split].
  - apply map_eq. intros k. now rewrite server_usage_tags, usage_tags, E.
  - intros H. apply map_eq. intros k.
    rewrite server_usage_categories, usage_categories, E. fold fs.
    assert (Same : categoriesOf fallback fs = List.map Trae.category fs).
    { unfold categoriesOf. apply map_ext_in. intros f I. unfold orElse.
      rewrite (truthy_true _ (H f I)). reflexivity. }
    rewrite Same. destruct (JS.truthy k) eqn:Tk; [reflexivity |].
    symmetry. apply eq_None_not_Some. rewrite usageOf_some. intros [I _].
    apply in_map_iff in I as (f & Ef & If). apply (H f If).
    rewrite Ef. unfold JS.truthy in Tk. apply negb_false_iff, String.eqb_eq in Tk. exact Tk.
  - intros (f & If & Ef) Np No. split.
    + rewrite server_usage_categories.
      assert (U : usageOf fallback (List.map Trae.category (TraeServer.html_files db)) = None).
      { apply eq_None_not_Some. rewrite usageOf_some. intros [I _].
        apply in_map_iff in I as (g & Eg & Ig). now apply (No g Ig). }
      rewrite U. now destruct (JS.truthy fallback).
    + rewrite usage_categories, E. apply usageOf_some. split; [| exact Np].
      unfold categoriesOf. apply in_map_iff. exists f. split; [| exact If]. now rewrite Ef.
Qed.

(** X21.  The tag request of the server and [editTag] of the
    [DatabaseManager] are the same rename.  On the same files and a store
    that can be read, the request answers 200 with the number of files
    rewritten exactly when [editTag] answers [true]; the files written by
    the one are the files written by the other, with the same usage of tags
    and the same time stamp.  When [editTag] answers [false] the request
    leaves the store as it was and answers 400 (a name missing, or the names
    equal), 404 (no file holds the old name) or 500 (the write failed).  A
    request that is not a POST is answered 405, one whose body is not JSON
    400, and a store that cannot be read 500, the store left alone. *)
Theorem tag_request_is_the_rename_of_editTag (fallback : string)
    (now : Z) (a b : string) (st : TraeServer.Store) (db : TraeServer.Db) (m : Trae.t) :
  TraeServer.content st = Some db ->
  TraeServer.html_files db = Trae.html_files (Trae.data m) ->
  TraeServer.writable st = Trae.writable m ->
  let r := TraeServer.handleEditTagRequest now "POST" (Some (a, b)) st in
  let e := Trae.editTag fallback now a b m in
  (snd e = true <->
   snd r = TraeServer.Success (Trae.updatedCount a (TraeServer.html_files db))) /\
  (snd e = true ->
   exists db', TraeServer.content (fst r) = Some db' /\
     TraeServer.html_files db' = Trae.html_files (Trae.data (fst e)) /\
     TraeServer.tags (TraeServer.statistics db') =
       Trae.s_tags (Trae.statistics (Trae.data (fst e))) /\
     TraeServer.last_updated db' = now /\
     Trae.last_updated (Trae.data (fst e)) = now) /\
  (snd e = false ->
   fst r = st /\
   (snd r = TraeServer.Failed 400 /\ (a = "" \/ b = "" \/ a = b) \/
    snd r = TraeServer.Failed 404 /\
      (forall f, In f (TraeServer.html_files db) -> ~ In a (Trae.tags f)) \/
    snd r = TraeServer.Failed 500 /\ TraeServer.writable st = false)) /\
  (forall method body st',
     method <> "POST" ->
     TraeServer.handleEditTagRequest now method body st' = (st', TraeServer.Failed 405)) /\
  (forall st', TraeServer.handleEditTagRequest now "POST" None st' =
               (st', TraeServer.Failed 400)) /\
  (forall st' a' b', TraeServer.content st' = None -> a' <> "" -> b' <> "" -> a' <> b' ->
     TraeServer.handleEditTagRequest now "POST" (Some (a', b')) st' =
     (st', TraeServer.Failed 500)).
Proof.
  intros C F Wr r e. subst r e.
  assert (Rest :
    (forall method body st',
       method <> "POST" ->
       TraeServer.handleEditTagRequest now method body st' = (st', TraeServer.Failed 405)) /\
    (forall st', TraeServer.handleEditTagRequest now "POST" None st' =
                 (st', TraeServer.Failed 400)) /\
    (forall st' a' b', TraeServer.content st' = None -> a' <> "" -> b' <> "" -> a' <> b' ->
       TraeServer.handleEditTagRequest now "POST" (Some (a', b')) st' =
       (st', TraeServer.Failed 500))).
  { split; [| split].
    - intros method body st' N. unfold TraeServer.handleEditTagRequest.
      now destruct (String.eqb_spec method "POST").
    - intros st'. reflexivity.
    - intros st' a' b' C' Na Nb Nab. unfold TraeServer.handleEditTagRequest.
      cbn [String.eqb Ascii.eqb Bool.eqb negb].
      rewrite (truthy_true _ Na), (truthy_true _ Nb). cbn [negb orb].
      destruct (String.eqb_spec a' b'); [contradiction |]. now rewrite C'. }
  cut ((snd (Trae.editTag fallback now a b m) = true <->
        snd (TraeServer.handleEditTagRequest now "POST" (Some (a, b)) st) =
        TraeServer.Success (Trae.updatedCount a (TraeServer.html_files db))) /\
       (snd (Trae.editTag fallback now a b m) = true ->
        exists db', TraeServer.content
                      (fst (TraeServer.handleEditTagRequest now "POST" (Some (a, b)) st)) =
                    Some db' /\
          TraeServer.html_files db' = Trae.html_files (Trae.data (fst (Trae.editTag fallback now a b m))) /\
          TraeServer.tags (TraeServer.statistics db') =
            Trae.s_tags (Trae.statistics (Trae.data (fst (Trae.editTag fallback now a b m)))) /\
          TraeServer.last_updated db' = now /\
          Trae.last_updated (Trae.data (fst (Trae.editTag fallback now a b m))) = now) /\
       (snd (Trae.editTag fallback now a b m) = false ->
        fst (TraeServer.handleEditTagRequest now "POST" (Some (a, b)) st) = st /\
        (snd (TraeServer.handleEditTagRequest now "POST" (Some (a, b)) st) =
           TraeServer.Failed 400 /\ (a = "" \/ b = "" \/ a = b) \/
         snd (TraeServer.handleEditTagRequest now "POST" (Some (a, b)) st) =
           TraeServer.Failed 404 /\
           (forall f, In f (TraeServer.html_files db) -> ~ In a (Trae.tags f)) \/
         snd (TraeServer.handleEditTagRequest now "POST" (Some (a, b)) st) =
           TraeServer.Failed 500 /\ TraeServer.writable st = false))).
  { intros (H1 & H2 & H3). split; [exact H1 |]. split; [exact H2 |].
    split; [exact H3 | exact Rest]. }
  clear Rest.
  unfold TraeServer.handleEditTagRequest, Trae.editTag.
  cbn [String.eqb Ascii.eqb Bool.eqb negb]. rewrite C, <- F, Wr.
  destruct (JS.truthy a) eqn:Ta; cbn [negb orb].
  2: { split; [split; discriminate |]. split; [discriminate |].
       intros _. split; [reflexivity |]. left. split; [reflexivity |]. left.
       unfold JS.truthy in Ta. now apply negb_false_iff, String.eqb_eq in Ta. }
  destruct (JS.truthy b) eqn:Tb; cbn [negb orb].
  2: { split; [split; discriminate |]. split; [discriminate |].
       intros _. split; [reflexivity |]. left. split; [reflexivity |]. right. left.
       unfold JS.truthy in Tb. now apply negb_false_iff, String.eqb_eq in Tb. }
  destruct (String.eqb_spec a b) as [Eab | Nab].
  { split; [split; discriminate |]. split; [discriminate |].
    intros _. split; [reflexivity |]. left. split; [reflexivity |]. now right; right. }
  destruct (Nat.eqb_spec (Trae.updatedCount a (TraeServer.html_files db)) 0) as [Z0 | NZ].
  { split; [split; discriminate |]. split; [discriminate |].
    intros _. split; [reflexivity |]. right. left. split; [reflexivity |].
    now apply updatedCount_zero. }
  unfold Trae.saveData.
  cbn [Trae.writable Trae.data Trae.html_files Trae.statistics Trae.disk].
  destruct (Trae.writable m); cbn [fst snd].
  - split; [split; reflexivity |]. split; [| discriminate].
    intros _. eexists. split; [reflexivity |].
    split; [reflexivity |]. split; [| split; reflexivity].
    apply map_eq. intros k. rewrite server_usage_tags.
    cbn [TraeServer.html_files Trae.data Trae.statistics].
    now rewrite usage_tags.
  - split; [split; discriminate |]. split; [discriminate |].
    intros _. split; [reflexivity |]. right; right. split; reflexivity.
Qed.

(** The hypotheses are met by a store and a manager with the one file "h1"
    that holds the tag "A": the request and [editTag] both rename it. *)
Lemma tag_request_is_the_rename_of_editTag_witness :
  let f := Trae.mkHtmlFile "h1" "a.html" "demo" "p" [] ["A"] "x" "" 0 1 1 0 0 [] in
  let db := TraeServer.mkDb [f] (TraeServer.mkStats 0 ∅ ∅ ∅) 1 in
  let st := TraeServer.mkStore (Some db) true in
  let m := Trae.mk (Trae.mkDatabase [f] (Trae.mkStatistics 0 0 0 ∅ ∅ ∅ 0 0) 1) None true in
  snd (Trae.editTag "other" 5 "A" "B" m) = true <->
  snd (TraeServer.handleEditTagRequest 5 "POST" (Some ("A", "B")) st) =
    TraeServer.Success (Trae.updatedCount "A" [f]).
Proof.
  intros f db st m.
  apply (tag_request_is_the_rename_of_editTag "other" 5 "A" "B" st db m eq_refl eq_refl eq_refl).
Defined.

(** ** The presets of the trae-trash pages *)

Section Presets.

Lemma trimEnd_idem (s : string) : JS.trimEnd (JS.trimEnd s) = JS.trimEnd s.
Proof.
  induction s as [|c s IH]; [reflexivity |].
  cbn [JS.trimEnd]. destruct (JS.trimEnd s) as [|d t] eqn:E.
  - destruct (JS.isSpace c) eqn:Sc; [reflexivity |].
    cbn [JS.trimEnd]. now rewrite Sc.
  - cbn [JS.trimEnd]. cbn [JS.trimEnd] in IH. now rewrite IH.
Qed.

Lemma trimStart_shape (s : string) :
  JS.trimStart s = "" \/
  exists c rest, JS.trimStart s = String c rest /\ JS.isSpace c = false.
Proof.
  induction s as [|c s IH]; [now left |].
  cbn [JS.trimStart]. destruct (JS.isSpace c) eqn:Sc; [exact IH |].
  right. eauto.
Qed.

Lemma trim_idem (s : string) : JS.trim (JS.trim s) = JS.trim s.
Proof.
  unfold JS.trim. destruct (trimStart_shape s) as [-> | (c & rest & -> & Sc)];
    [reflexivity |].
  assert (Sh : exists t, JS.trimEnd (String c rest) = String c t).
  { cbn [JS.trimEnd]. rewrite Sc. destruct (JS.trimEnd rest); eauto. }
  destruct Sh as (t & Sh).
  assert (St : JS.trimStart (JS.trimEnd (String c rest)) = JS.trimEnd (String c rest)).
  { rewrite Sh. cbn [JS.trimStart]. now rewrite Sc. }
  rewrite St. apply trimEnd_idem.
Qed.

Lemma setAdd_In (x y : string) (s : list string) :
  In y (PresetManager.setAdd x s) <-> In y s \/ y = x.
Proof.
  unfold PresetManager.setAdd. destruct (JS.includes s x) eqn:I.
  - apply includes_In in I. split; [tauto | intros [H | ->]; assumption].
  - rewrite in_app_iff. simpl. intuition congruence.
Qed.

Lemma setAdd_NoDup (x : string) (s : list string) :
  NoDup s -> NoDup (PresetManager.setAdd x s).
Proof.
  intros N. unfold PresetManager.setAdd. destruct (JS.includes s x) eqn:I; [exact N |].
  assert (NI : ~ In x s) by (rewrite <- includes_In; congruence).
  apply NoDup_app. split; [exact N |]. split.
  - intros y Iy [-> | []]%list_elem_of_In. now apply NI, list_elem_of_In.
  - constructor; [intros H; apply list_elem_of_In in H; destruct H | constructor].
Qed.

Lemma setDelete_In (x y : string) (s : list string) :
  In y (PresetManager.setDelete x s) <-> In y s /\ y <> x.
Proof.
  unfold PresetManager.setDelete. rewrite filter_In.
  destruct (String.eqb_spec y x); simpl; intuition congruence.
Qed.

Lemma setDelete_absent (x : string) (s : list string) :
  ~ In x s -> PresetManager.setDelete x s = s.
Proof.
  unfold PresetManager.setDelete. induction s as [|y s IH]; [reflexivity |].
  intros N. simpl. destruct (String.eqb_spec y x) as [-> | Ne].
  - exfalso. apply N. now left.
  - simpl. rewrite IH; [reflexivity |]. intros I. apply N. now right.
Qed.

Lemma setDelete_length (x : string) (s : list string) :
  NoDup s -> In x s -> length (PresetManager.setDelete x s) + 1 = length s.
Proof.
  induction s as [|y s IH]; [intros _ []|].
  intros N I. apply NoDup_cons in N as [Ny N]. rewrite list_elem_of_In in Ny.
  unfold PresetManager.setDelete. cbn [List.filter].
  destruct (String.eqb_spec y x) as [-> | Ne]; cbn [negb].
  - fold (PresetManager.setDelete x s). rewrite (setDelete_absent x s Ny). simpl. lia.
  - destruct I as [E | I]; [contradiction |].
    fold (PresetManager.setDelete x s). simpl. specialize (IH N I). lia.
Qed.

Lemma setDelete_NoDup (x : string) (s : list string) :
  NoDup s -> NoDup (PresetManager.setDelete x s).
Proof.
  intros N. eapply sublist_NoDup; [exact N | apply filter_sublist].
Qed.

Lemma collect_spec (names : list string) : forall s : list string,
  (forall y, In y (PresetManager.collect names s) <->
             In y s \/ exists name, In name names /\ JS.trim name = y /\ y <> "") /\
  (NoDup s -> NoDup (PresetManager.collect names s)).
Proof.
  unfold PresetManager.collect.
  induction names as [|n names IH]; intros s; cbn [foldl].
  - split; [| auto]. intros y. split; [tauto | intros [H | (x & [] & _)]; exact H].
  - destruct (IH (if JS.truthy n && JS.truthy (JS.trim n)
                  then PresetManager.setAdd (JS.trim n) s else s)) as [M N].
    split.
    + intros y. rewrite M.
      destruct (JS.truthy n && JS.truthy (JS.trim n)) eqn:K.
      * apply andb_true_iff in K as [_ K]. apply truthy_iff in K.
        rewrite setAdd_In. split.
        -- intros [[H | ->] | (x & Ix & Ex & Ny)]; [tauto | | ].
           ++ right. exists n. split; [now left | now split].
           ++ right. exists x. split; [now right | now split].
        -- intros [H | (x & [<- | Ix] & Ex & Ny)]; [tauto | left; right; now symmetry |].
           right. exists x. now split.
      * split.
        -- intros [H | (x & Ix & Ex & Ny)]; [tauto |].
           right. exists x. split; [now right | now split].
        -- intros [H | (x & [<- | Ix] & Ex & Ny)]; [tauto | | right; exists x; now split].
           exfalso. apply andb_false_iff in K as [K | K].
           ++ unfold JS.truthy in K. apply negb_false_iff, String.eqb_eq in K.
              subst n. now subst y.
           ++ unfold JS.truthy in K. apply negb_false_iff, String.eqb_eq in K.
              congruence.
    + intros D. apply N. destruct (JS.truthy n && JS.truthy (JS.trim n)); [| exact D].
      now apply setAdd_NoDup.
Qed.

Lemma collect_all (names : list (list string)) : forall s : list string,
  foldl (fun acc ns => PresetManager.collect ns acc) s names =
  PresetManager.collect (concat names) s.
Proof.
  unfold PresetManager.collect.
  induction names as [|ns names IH]; intros s; [reflexivity |].
  cbn [foldl concat]. now rewrite IH, foldl_app.
Qed.

Lemma collect_wellFormed (names : list string) :
  wellFormed (PresetManager.collect names []).
Proof.
  destruct (collect_spec names []) as [M N]. split; [apply N; constructor |].
  intros x I. apply M in I as [[] | (name & _ & E & Ne)].
  split; [exact Ne |]. rewrite <- E. apply trim_idem.
Qed.

End Presets.

(** X22.  The preset tags are a set of trimmed names.  On well-formed
    presets (distinct names, none empty, none with white space at an end)
    [addTag] answers [true] exactly when the trimmed name is not empty and is
    not a preset yet; the name is then added at the end, [hasTag] finds it,
    and [removeTag] takes it out again and gives back the presets as they
    were.  [removeTag] answers [true] exactly when [hasTag] finds the name;
    the name is then gone, the list is one shorter and the other names stay
    in their order: the files are not asked whether they hold the tag.  An
    operation that answers [false] changes nothing, the presets stay
    well-formed, and the models are never touched. *)
Theorem preset_tags_are_a_set_of_trimmed_names (tag : string) (pm : PresetManager.t) :
  wellFormed (PresetManager.tags pm) ->
  let name := JS.trim tag in
  let added := PresetManager.addTag tag pm in
  let removed := PresetManager.removeTag tag pm in
  (snd added = true <-> name <> "" /\ PresetManager.hasTag tag pm = false) /\
  (snd added = true ->
   PresetManager.tags (fst added) = PresetManager.tags pm ++ [name] /\
   PresetManager.hasTag tag (fst added) = true /\
   PresetManager.removeTag tag (fst added) = (pm, true)) /\
  (snd added = false -> fst added = pm) /\
  (snd removed = true <-> PresetManager.hasTag tag pm = true) /\
  (snd removed = true ->
   PresetManager.hasTag tag (fst removed) = false /\
   sublist (PresetManager.tags (fst removed)) (PresetManager.tags pm) /\
   length (PresetManager.tags (fst removed)) + 1 = length (PresetManager.tags pm) /\
   forall x, x <> name -> In x (PresetManager.tags pm) ->
             In x (PresetManager.tags (fst removed))) /\
  (snd removed = false -> fst removed = pm) /\
  wellFormed (PresetManager.tags (fst added)) /\
  wellFormed (PresetManager.tags (fst removed)) /\
  PresetManager.models (fst added) = PresetManager.models pm /\
  PresetManager.models (fst removed) = PresetManager.models pm.
Proof.
  intros [N Wf] name added removed. subst added removed.
  unfold PresetManager.addTag, PresetManager.removeTag, PresetManager.hasTag.
  fold name.
  assert (Empty : JS.truthy tag = false -> name = "").
  { intros T. unfold JS.truthy in T. apply negb_false_iff, String.eqb_eq in T.
    subst name. now rewrite T. }
  destruct pm as [ts ms]. cbn [PresetManager.tags PresetManager.models] in *.
  destruct (JS.truthy tag) eqn:Tt; cbn [negb].
  2: { specialize (Empty eq_refl). cbn [fst snd PresetManager.tags PresetManager.models].
       repeat apply conj; try discriminate; try reflexivity; try exact N; try exact Wf;
         try tauto. }
  destruct (JS.truthy name) eqn:Tn; cbn [negb].
  2: { assert (En : name = "")
         by (unfold JS.truthy in Tn; now apply negb_false_iff, String.eqb_eq in Tn).
       assert (NI : JS.includes ts name = false).
       { destruct (JS.includes ts name) eqn:I; [| reflexivity].
         apply includes_In, Wf in I as [I _]. contradiction. }
       rewrite NI. cbn [fst snd PresetManager.tags PresetManager.models].
       repeat apply conj; try discriminate; try reflexivity; try exact N; try exact Wf;
         try tauto. }
  apply truthy_iff in Tn.
  destruct (JS.includes ts name) eqn:I;
    cbn [negb fst snd PresetManager.tags PresetManager.models].
  - pose proof I as In'. apply includes_In in In'.
    repeat apply conj; try discriminate; try reflexivity; try exact N; try exact Wf;
      try tauto.
    + intros _. repeat apply conj.
      * destruct (JS.includes (PresetManager.setDelete name ts) name) eqn:D; [| reflexivity].
        apply includes_In, setDelete_In in D as [_ D]. contradiction.
      * apply filter_sublist.
      * now apply setDelete_length.
      * intros x Nx Ix. apply setDelete_In. now split.
    + now apply setDelete_NoDup.
    + intros x Ix. apply setDelete_In in Ix as [Ix _]. now apply Wf.
  - assert (NI : ~ In name ts) by (rewrite <- includes_In; congruence).
    assert (A : PresetManager.setAdd name ts = ts ++ [name])
      by (unfold PresetManager.setAdd; now rewrite I).
    assert (Hs : JS.includes (ts ++ [name]) name = true)
      by (apply includes_In, in_or_app; right; now left).
    assert (D : PresetManager.setDelete name (ts ++ [name]) = ts).
    { unfold PresetManager.setDelete. rewrite List.filter_app. simpl.
      rewrite String.eqb_refl. simpl. rewrite app_nil_r. now apply setDelete_absent. }
    rewrite A, ?(truthy_true _ Tn), Hs, ?D. cbn [negb fst snd].
    repeat apply conj; try discriminate; try reflexivity; try exact N; try exact Wf;
      try tauto.
    + rewrite <- A. now apply setAdd_NoDup.
    + intros x [Ix | [<- | []]]%in_app_iff; [now apply Wf |].
      split; [exact Tn | apply trim_idem].
Qed.

(** The hypothesis is met by the presets "AI" and "art": the tag " demo " is
    added as "demo". *)
Lemma preset_tags_are_a_set_of_trimmed_names_witness :
  PresetManager.tags (fst (PresetManager.addTag " demo " (PresetManager.mk ["AI"; "art"] []))) =
  ["AI"; "art"; "demo"].
Proof.
  assert (Wf : wellFormed (PresetManager.tags (PresetManager.mk ["AI"; "art"] []))).
  { split.
    - simpl. constructor.
      + intros H. apply list_elem_of_In in H. destruct H as [H | []]. discriminate.
      + constructor; [intros H; apply list_elem_of_In in H; destruct H | constructor].
    - intros x [<- | [<- | []]]; split; (discriminate || reflexivity). }
  destruct (preset_tags_are_a_set_of_trimmed_names " demo " _ Wf) as (_ & A & _).
  apply A. reflexivity.
Defined.

(** X23.  [loadPresets] forgets the presets it had and collects the names in
    use from the files: a name is a preset tag exactly when it is the
    trimmed, non-empty form of a tag of some file, and a preset model exactly
    when it is the trimmed, non-empty form of the name of a model of some
    file.  The presets it builds are well-formed.  Without a list of files
    the presets stay as they are.  [getTags] in sorted order is in ascending
    order, has every preset once, and, when the tags of the files are
    trimmed and not empty, is the list [getAllTags] of the
    [DatabaseManager] gives for the same files. *)
Theorem loadPresets_collects_the_names_in_use
    (fs : list Trae.HtmlFile) (pm : PresetManager.t) :
  let pm' := PresetManager.loadPresets (Some fs) pm in
  wellFormed (PresetManager.tags pm') /\ wellFormed (PresetManager.models pm') /\
  (forall name, In name (PresetManager.tags pm') <->
     exists f tag, In f fs /\ In tag (Trae.tags f) /\ JS.trim tag = name /\ name <> "") /\
  (forall name, In name (PresetManager.models pm') <->
     exists f m, In f fs /\ In m (Trae.models f) /\
                 JS.trim (Trae.m_name m) = name /\ name <> "") /\
  PresetManager.loadPresets None pm = pm /\
  StronglySorted String.le (PresetManager.getTags true pm') /\
  (forall name, In name (PresetManager.getTags true pm') <->
                In name (PresetManager.tags pm')) /\
  NoDup (PresetManager.getTags true pm') /\
  ((forall f tag, In f fs -> In tag (Trae.tags f) -> tag <> "" /\ JS.trim tag = tag) ->
   forall db, Trae.html_files (Trae.data db) = fs ->
   PresetManager.getTags true pm' = Trae.getAllTags db).
Proof.
  intros pm'. subst pm'. cbn [PresetManager.loadPresets PresetManager.tags
                               PresetManager.models PresetManager.getTags].
  rewrite (foldl_mapped (fun acc ns => PresetManager.collect ns acc) Trae.tags).
  rewrite (foldl_mapped (fun acc ns => PresetManager.collect ns acc)
             (fun f => List.map Trae.m_name (Trae.models f))).
  rewrite !collect_all. fold (tagsOf fs). fold (modelsOf fs).
  pose proof (collect_wellFormed (tagsOf fs)) as Wt.
  pose proof (collect_wellFormed (modelsOf fs)) as Wm.
  assert (Mt : forall name, In name (PresetManager.collect (tagsOf fs) []) <->
             exists f tag, In f fs /\ In tag (Trae.tags f) /\ JS.trim tag = name /\
                           name <> "").
  { intros name. rewrite (proj1 (collect_spec (tagsOf fs) [])). unfold tagsOf. split.
    - intros [[] | (tag & I & E & Ne)]. apply in_concat in I as (ts & Its & It).
      apply in_map_iff in Its as (f & <- & If). eauto 7.
    - intros (f & tag & If & It & E & Ne). right. exists tag. split; [| now split].
      apply in_concat. exists (Trae.tags f). split; [now apply in_map | exact It]. }
  split; [exact Wt |]. split; [exact Wm |]. split; [exact Mt |]. split.
  { intros name. rewrite (proj1 (collect_spec (modelsOf fs) [])). unfold modelsOf. split.
    - intros [[] | (n & I & E & Ne)]. apply in_concat in I as (ns & Ins & In').
      apply in_map_iff in Ins as (f & <- & If).
      apply in_map_iff in In' as (m & <- & Im). eauto 7.
    - intros (f & m & If & Im & E & Ne). right. exists (Trae.m_name m).
      split; [| now split]. apply in_concat.
      exists (List.map Trae.m_name (Trae.models f)).
      split; [now apply (in_map (fun f => List.map Trae.m_name (Trae.models f))) |].
      now apply in_map. }
  split; [reflexivity |]. split; [apply sort_sorted |].
  split; [intros name; apply sort_In |].
  split; [apply sort_NoDup, Wt |].
  intros Trimmed db E. unfold Trae.getAllTags. rewrite E. fold (tagsOf fs).
  apply (StronglySorted_unique String.le); [apply sort_sorted | apply sort_sorted |].
  apply NoDup_Permutation;
    [apply sort_NoDup, Wt | apply sort_NoDup, setOf_NoDup |].
  intros x. rewrite !list_elem_of_In, !sort_In, setOf_In, Mt. unfold tagsOf. split.
  - intros (f & tag & If & It & Et & Ne). destruct (Trimmed f tag If It) as [_ T].
    apply in_concat. exists (Trae.tags f). split; [now apply in_map |]. congruence.
  - intros I. apply in_concat in I as (ts & Its & It).
    apply in_map_iff in Its as (f & <- & If).
    destruct (Trimmed f x If It) as [Ne T]. eauto 7.
Qed.

Section RenamePreset.

Lemma replaceFirst_In (a b x : string) (ts : list string) :
  NoDup ts -> In x (Trae.replaceFirst a b ts) -> x = b \/ (In x ts /\ x <> a).
Proof.
  induction ts as [|y ts IH]; [intros _ [] |].
  intros N. apply NoDup_cons in N as [Ny N]. rewrite list_elem_of_In in Ny.
  cbn [Trae.replaceFirst]. destruct (String.eqb_spec y a) as [-> | Ne].
  - intros [<- | I]; [now left |]. right. split; [now right |].
    intros ->. contradiction.
  - intros [<- | I]; [right; split; [now left | exact Ne] |].
    destruct (IH N I) as [-> | [Ix Nx]]; [now left |].
    right. split; [now right | exact Nx].
Qed.

Lemma retag_tags_In (now : Z) (a b x : string) (f : Trae.HtmlFile) :
  NoDup (Trae.tags f) -> In x (Trae.tags (Trae.retag now a b f)) ->
  x = b \/ (In x (Trae.tags f) /\ x <> a).
Proof.
  intros N. unfold Trae.retag. destruct (JS.includes (Trae.tags f) a) eqn:I.
  - cbn [Trae.tags]. now apply replaceFirst_In.
  - intros Ix. right. split; [exact Ix |]. intros ->.
    apply includes_In in Ix. congruence.
Qed.

Lemma client_editTag_files (now : Z) (a b : string) (saved : bool) (db : TraeServer.Db) :
  a <> "" -> b <> "" -> a <> b ->
  exists db', fst (Client.editTag now a b saved (Some db)) = Some db' /\
              TraeServer.html_files db' =
              List.map (Trae.retag now a b) (TraeServer.html_files db).
Proof.
  intros Na Nb Nab. unfold Client.editTag.
  rewrite (truthy_true _ Na), (truthy_true _ Nb). cbn [negb orb].
  destruct (String.eqb_spec a b); [contradiction |].
  destruct (0 <? _)%nat; eexists; split; reflexivity.
Qed.

End RenamePreset.

(** X24.  [renameTag] on well-formed presets answers [true] exactly when
    the two trimmed names are not empty, differ, and the old one is a preset;
    whether a file holds the tag and whether the save succeeds play no part.
    The presets are then the presets without the old name and with the new
    one, still well-formed, and in every file of the data manager that holds
    the old name its first occurrence is replaced by the new name.  When
    every tag of a file was a preset before and no file holds a tag twice,
    every tag of a file is a preset afterwards.  An answer [false] changes
    neither the presets nor the files. *)
Theorem renameTag_moves_presets_and_files
    (now : Z) (oldTag newTag : string) (saved : bool) (data : option TraeServer.Db)
    (pm : PresetManager.t) :
  wellFormed (PresetManager.tags pm) ->
  let a := JS.trim oldTag in
  let b := JS.trim newTag in
  let r := PresetManager.renameTag now oldTag newTag saved data pm in
  let pm' := fst (fst r) in
  let data' := snd (fst r) in
  (snd r = true <-> a <> "" /\ b <> "" /\ a <> b /\ In a (PresetManager.tags pm)) /\
  (snd r = true ->
   (forall x, In x (PresetManager.tags pm') <->
              (In x (PresetManager.tags pm) /\ x <> a) \/ x = b) /\
   wellFormed (PresetManager.tags pm') /\
   PresetManager.models pm' = PresetManager.models pm /\
   (forall db, data = Some db ->
      exists db', data' = Some db' /\
        TraeServer.html_files db' =
        List.map (Trae.retag now a b) (TraeServer.html_files db)) /\
   (data = None -> data' = None) /\
   (tagsKnown (PresetManager.tags pm) data ->
    (forall db f, data = Some db -> In f (TraeServer.html_files db) ->
                  NoDup (Trae.tags f)) ->
    tagsKnown (PresetManager.tags pm') data')) /\
  (snd r = false -> pm' = pm /\ data' = data).
Proof.
  intros [N Wf] a b r pm' data'. subst data' pm' r.
  unfold PresetManager.renameTag. fold a. fold b.
  assert (Empty : forall s, JS.truthy s = false -> JS.trim s = "").
  { intros s T. unfold JS.truthy in T. apply negb_false_iff, String.eqb_eq in T.
    now subst s. }
  assert (No : forall s, JS.truthy s = false -> s = "").
  { intros s T. unfold JS.truthy in T. now apply negb_false_iff, String.eqb_eq in T. }
  destruct (JS.truthy oldTag) eqn:To; cbn [negb orb].
  2: { apply Empty in To. fold a in To. cbn [fst snd].
       split; [split; [discriminate | intros (H & _); contradiction] |].
       split; [discriminate | intros _; split; reflexivity]. }
  destruct (JS.truthy newTag) eqn:Tn; cbn [negb orb].
  2: { apply Empty in Tn. fold b in Tn. cbn [fst snd].
       split; [split; [discriminate | intros (_ & H & _); contradiction] |].
       split; [discriminate | intros _; split; reflexivity]. }
  destruct (JS.truthy a) eqn:Ta; cbn [negb orb].
  2: { apply No in Ta. cbn [fst snd].
       split; [split; [discriminate | intros (H & _); contradiction] |].
       split; [discriminate | intros _; split; reflexivity]. }
  destruct (JS.truthy b) eqn:Tb; cbn [negb orb].
  2: { apply No in Tb. cbn [fst snd].
       split; [split; [discriminate | intros (_ & H & _); contradiction] |].
       split; [discriminate | intros _; split; reflexivity]. }
  apply truthy_iff in Ta, Tb.
  destruct (String.eqb_spec a b) as [Eab | Nab].
  { cbn [fst snd].
    split; [split; [discriminate | intros (_ & _ & H & _); contradiction] |].
    split; [discriminate | intros _; split; reflexivity]. }
  destruct (JS.includes (PresetManager.tags pm) a) eqn:I; cbn [negb fst snd].
  2: { split; [split; [discriminate | intros (_ & _ & _ & H)] |].
       - apply includes_In in H. congruence.
       - split; [discriminate | intros _; split; reflexivity]. }
  apply includes_In in I.
  assert (Mem : forall x, In x (PresetManager.setAdd b (PresetManager.setDelete a
                                 (PresetManager.tags pm))) <->
                          (In x (PresetManager.tags pm) /\ x <> a) \/ x = b)
    by (intros x; now rewrite setAdd_In, setDelete_In).
  split; [split; [intros _; now repeat split | reflexivity] |].
  split; [| discriminate]. intros _. cbn [PresetManager.tags PresetManager.models].
  split; [exact Mem |]. split.
  { split; [apply setAdd_NoDup, setDelete_NoDup, N |].
    intros x Ix. apply Mem in Ix as [[Ix _] | ->]; [now apply Wf |].
    split; [exact Tb | apply trim_idem]. }
  split; [reflexivity |]. split; [intros db ->; now apply client_editTag_files |].
  split; [intros ->; reflexivity |].
  intros Known Once db' f' tag E If' It'.
  destruct data as [db |]; [| discriminate].
  destruct (client_editTag_files now a b saved db Ta Tb Nab) as (db2 & E2 & F2).
  rewrite E2 in E. injection E as <-. rewrite F2 in If'.
  apply in_map_iff in If' as (f & <- & If).
  apply Mem. apply retag_tags_In in It' as [-> | [It Nt]];
    [now right | | now apply (Once db f)].
  left. split; [now apply (Known db f) | exact Nt].
Qed.

(** The hypothesis is met by the presets "AI" and "art" and a data manager
    with one file that holds "AI": the rename of "AI" to "ML" answers
    [true]. *)
Lemma renameTag_moves_presets_and_files_witness :
  let f := Trae.mkHtmlFile "h1" "a.html" "demo" "p" [] ["AI"] "x" "" 0 1 1 0 0 [] in
  let db := TraeServer.mkDb [f] (TraeServer.mkStats 0 ∅ ∅ ∅) 1 in
  snd (PresetManager.renameTag 5 "AI" " ML" true (Some db)
         (PresetManager.mk ["AI"; "art"] [])) = true.
Proof.
  intros f db.
  assert (Wf : wellFormed (PresetManager.tags (PresetManager.mk ["AI"; "art"] []))).
  { split.
    - simpl. constructor.
      + intros H. apply list_elem_of_In in H. destruct H as [H | []]. discriminate.
      + constructor; [intros H; apply list_elem_of_In in H; destruct H | constructor].
    - intros x [<- | [<- | []]]; split; (discriminate || reflexivity). }
  apply (proj1 (renameTag_moves_presets_and_files 5 "AI" " ML" true (Some db) _ Wf)).
  repeat split; try discriminate. now left.
Defined.
